(** * WebStore chatbot backend: retrieval, ranking and order-status core

    A shallow embedding of the parts of [chatbot_backend/app.py] that decide
    how an order's tracking status is derived, how the knowledge index is
    rebuilt and queried, and how the image search engine scores, labels and
    ranks catalogue rows, together with the properties proved about them.

    Conventions of the embedding.
    - Python [str] values are Rocq strings read as ASCII text; [str.lower],
      [str.strip], [str.title] and the [\w] class act on ASCII characters.
    - Python [float] scores are rationals ([Q]): every comparison is exact
      and sums and quotients carry no rounding.
    - A naive [datetime] is a count of microseconds on the proleptic
      Gregorian calendar; the instants of the years 1 to 9999 are the
      datetimes Python has, and a sum that leaves them raises.
    - Code that can raise returns an [outcome]; a [try]/[except] is a
      [match] on it. *)

From Stdlib Require Import ZArith QArith Qminmax Ascii DecimalString Lia Lqa.
From stdpp Require Import gmap strings list sorting.

Close Scope Q_scope.

#[local] Set Warnings "-clear-no-such-hyp".

(** ** Python string primitives *)

Module PyStr.

Definition is_upper (c : ascii) : bool :=
  let n := N_of_ascii c in ((65 <=? n) && (n <=? 90))%N.

Definition is_lower (c : ascii) : bool :=
  let n := N_of_ascii c in ((97 <=? n) && (n <=? 122))%N.

Definition is_digit (c : ascii) : bool :=
  let n := N_of_ascii c in ((48 <=? n) && (n <=? 57))%N.

(** The class [\w] of the [re] module. *)
Definition is_word (c : ascii) : bool :=
  is_upper c || is_lower c || is_digit c || (N_of_ascii c =? 95)%N.

(** What [str.strip()] removes: space, tab, newline, vertical tab, form
    feed, carriage return and the four separators 28 to 31. *)
Definition is_space (c : ascii) : bool :=
  let n := N_of_ascii c in
  ((n =? 32) || ((9 <=? n) && (n <=? 13)) || ((28 <=? n) && (n <=? 31)))%N.

Definition lower_char (c : ascii) : ascii :=
  if is_upper c then ascii_of_N (N_of_ascii c + 32) else c.

Definition upper_char (c : ascii) : ascii :=
  if is_lower c then ascii_of_N (N_of_ascii c - 32) else c.

(** [s.lower()] *)
Fixpoint lower (s : string) : string :=
  match s with
  | EmptyString => EmptyString
  | String c s' => String (lower_char c) (lower s')
  end.

(** [s.title()]: a cased character is upper-cased when the character
    before it is not cased, and lower-cased otherwise. *)
Fixpoint title_go (prev_cased : bool) (s : string) : string :=
  match s with
  | EmptyString => EmptyString
  | String c s' =>
      let cased := is_upper c || is_lower c in
      String (if prev_cased then lower_char c else upper_char c)
             (title_go cased s')
  end.

Definition title (s : string) : string := title_go false s.

(** [needle in hay]: [needle] occurs in [hay] as a contiguous substring. *)
Fixpoint contains (needle hay : string) : bool :=
  String.prefix needle hay ||
  match hay with
  | EmptyString => false
  | String _ hay' => contains needle hay'
  end.

(** [s.replace(old, '')] for a one-character [old]. *)
Fixpoint remove_char (old : ascii) (s : string) : string :=
  match s with
  | EmptyString => EmptyString
  | String c s' =>
      if Ascii.eqb c old then remove_char old s'
      else String c (remove_char old s')
  end.

(** [s.replace(old, new)] for one-character [old] and [new]. *)
Fixpoint replace_char (old new : ascii) (s : string) : string :=
  match s with
  | EmptyString => EmptyString
  | String c s' =>
      String (if Ascii.eqb c old then new else c) (replace_char old new s')
  end.

Fixpoint lstrip (s : string) : string :=
  match s with
  | EmptyString => EmptyString
  | String c s' => if is_space c then lstrip s' else s
  end.

(** [s.strip()] *)
Definition strip (s : string) : string :=
  String.rev (lstrip (String.rev (lstrip s))).

(** [re.findall(r'\b\w+\b', s)]: the maximal runs of word characters, in
    order of occurrence. [cur] holds the run being read, reversed. *)
Fixpoint findall_words_go (cur : string) (s : string) : list string :=
  match s with
  | EmptyString =>
      match cur with EmptyString => [] | _ => [String.rev cur] end
  | String c s' =>
      if is_word c then findall_words_go (String c cur) s'
      else match cur with
           | EmptyString => findall_words_go EmptyString s'
           | _ => String.rev cur :: findall_words_go EmptyString s'
           end
  end.

Definition findall_words (s : string) : list string :=
  findall_words_go EmptyString s.

(** [str(n)] for an [int]. *)
Definition of_int (z : Z) : string := NilZero.string_of_int (Z.to_int z).

(** [x in xs] for a list of strings. *)
Definition mem (x : string) (xs : list string) : bool :=
  existsb (String.eqb x) xs.

End PyStr.

(** ** Results of code that can raise *)

Inductive exn : Set :=
  | TypeError
  | AttributeError
  | IndexError
  | KeyError
  | ValueError
  | DatabaseError
  | ProviderError
  | OverflowError.

Inductive outcome (A : Type) : Type :=
  | Returns (a : A)
  | Raises (e : exn).

Arguments Returns {A} a.
Arguments Raises {A} e.

#[global] Instance outcome_ret : MRet outcome := λ A, Returns.

#[global] Instance outcome_bind : MBind outcome :=
  λ A B f m, match m with Returns a => f a | Raises e => Raises e end.

(** A loop whose body can raise: the first exception ends it. *)
Fixpoint for_each {A B : Type} (body : A → outcome B) (l : list A)
    : outcome (list B) :=
  match l with
  | [] => Returns []
  | x :: l' => y ← body x; ys ← for_each body l'; Returns (y :: ys)
  end.

(** What a statement sent to MySQL gives back: rows, or
    [mysql.connector.Error]. *)
Inductive sql (A : Type) : Type :=
  | Rows (a : A)
  | SqlError.

Arguments Rows {A} a.
Arguments SqlError {A}.

(** ** Python list primitives *)

Module PyList.

(** [l[:stop]] for an [int] stop: a negative stop counts from the end. *)
Definition slice_to {A : Type} (stop : Z) (l : list A) : list A :=
  if (0 <=? stop)%Z then take (Z.to_nat stop) l
  else take (length l - Z.to_nat (- stop)) l.

(** [l.sort(key=..., reverse=True)] with [geb x y] telling that the key
    of [x] is at least the key of [y]. The sort is stable, also in
    reverse: of two items with equal keys the one that came first stays
    first. An item is placed before the first one whose key it reaches. *)
Fixpoint insert_desc {A : Type} (geb : A → A → bool) (x : A) (l : list A)
    : list A :=
  match l with
  | [] => [x]
  | y :: l' => if geb x y then x :: l else y :: insert_desc geb x l'
  end.

Definition sort_desc {A : Type} (geb : A → A → bool) (l : list A) : list A :=
  foldr (insert_desc geb) [] l.

(** [[l[i:i+size] for i in range(0, len(l), size)]]; [fuel] bounds the
    number of slices, and [length l] slices are enough. *)
Fixpoint batches_go {A : Type} (fuel size : nat) (l : list A)
    : list (list A) :=
  match fuel with
  | O => []
  | S fuel' =>
      match l with
      | [] => []
      | _ => take size l :: batches_go fuel' size (drop size l)
      end
  end.

Definition batches {A : Type} (size : nat) (l : list A) : list (list A) :=
  batches_go (length l) size l.

(** [enumerate(l)] *)
Definition enumerate {A : Type} (l : list A) : list (nat * A) :=
  zip (seq 0 (length l)) l.

End PyList.

(** ** Naive datetimes *)

Module Datetime.

(** Microseconds since 1970-01-01 00:00:00. *)
Definition us_per_day : Z := 86400000000.

(** [(a - b).days]: a [timedelta] is normalised with its seconds and
    microseconds non-negative, so [days] is the floor. *)
Definition days_between (a b : Z) : Z := ((a - b) `div` us_per_day)%Z.

(** The instant [n] days after [t], on the unbounded time line. *)
Definition add_days (t n : Z) : Z := (t + n * us_per_day)%Z.

(** Year, month and day of the day numbered [z] from 1970-01-01. *)
Definition civil_from_days (z : Z) : Z * Z * Z :=
  let z := (z + 719468)%Z in
  let era := (z `div` 146097)%Z in
  let doe := (z - era * 146097)%Z in
  let yoe :=
    ((doe - doe `div` 1460 + doe `div` 36524 - doe `div` 146096)
       `div` 365)%Z in
  let doy := (doe - (365 * yoe + yoe `div` 4 - yoe `div` 100))%Z in
  let mp := ((5 * doy + 2) `div` 153)%Z in
  let d := (doy - (153 * mp + 2) `div` 5 + 1)%Z in
  let m := (if mp <? 10 then mp + 3 else mp - 9)%Z in
  let y := (yoe + era * 400 + (if m <=? 2 then 1 else 0))%Z in
  (y, m, d).

Definition date_of (t : Z) : Z * Z * Z :=
  civil_from_days (t `div` us_per_day)%Z.

Definition pad2 (n : Z) : string :=
  if (n <? 10)%Z then "0" +:+ PyStr.of_int n else PyStr.of_int n.

Definition pad4 (n : Z) : string :=
  if (n <? 10)%Z then "000" +:+ PyStr.of_int n
  else if (n <? 100)%Z then "00" +:+ PyStr.of_int n
  else if (n <? 1000)%Z then "0" +:+ PyStr.of_int n
  else PyStr.of_int n.

Definition month_name (m : Z) : string :=
  match m with
  | 1 => "January" | 2 => "February" | 3 => "March" | 4 => "April"
  | 5 => "May" | 6 => "June" | 7 => "July" | 8 => "August"
  | 9 => "September" | 10 => "October" | 11 => "November"
  | _ => "December"
  end%Z.

(** [t.strftime('%Y-%m-%d')] *)
Definition strftime_ymd (t : Z) : string :=
  let '(y, m, d) := date_of t in pad4 y +:+ "-" +:+ pad2 m +:+ "-" +:+ pad2 d.

(** [t.strftime('%m%d')] *)
Definition strftime_md (t : Z) : string :=
  let '(y, m, d) := date_of t in pad2 m +:+ pad2 d.

(** [t.strftime("%B %d, %Y")] *)
Definition strftime_long (t : Z) : string :=
  let '(y, m, d) := date_of t in
  month_name m +:+ " " +:+ pad2 d +:+ ", " +:+ pad4 y.

(** The datetime [y-m-d h:mi:s], for writing test data. *)
Definition days_from_civil (y m d : Z) : Z :=
  let y := (if m <=? 2 then y - 1 else y)%Z in
  let era := (y `div` 400)%Z in
  let yoe := (y - era * 400)%Z in
  let mp := (if m <=? 2 then m + 9 else m - 3)%Z in
  let doy := ((153 * mp + 2) `div` 5 + d - 1)%Z in
  let doe := (yoe * 365 + yoe `div` 4 - yoe `div` 100 + doy)%Z in
  (era * 146097 + doe - 719468)%Z.

Definition make (y m d h mi s : Z) : Z :=
  (days_from_civil y m d * us_per_day
   + ((h * 60 + mi) * 60 + s) * 1000000)%Z.

(** [datetime.min] and [datetime.max] *)
Definition datetime_min : Z := make 1 1 1 0 0 0.

Definition datetime_max : Z := (make 9999 12 31 23 59 59 + 999999)%Z.

(** The instant is a [datetime]: it lies in the years 1 to 9999. *)
Definition representable (t : Z) : bool :=
  (datetime_min <=? t)%Z && (t <=? datetime_max)%Z.

(** [t + timedelta(days=n)] as Python evaluates it: a sum outside the
    years 1 to 9999 raises [OverflowError]. *)
Definition add_timedelta_days (t n : Z) : outcome Z :=
  if representable (add_days t n) then Returns (add_days t n)
  else Raises OverflowError.

End Datetime.

(** ** Order tracking *)

Module Orders.

(** The values a result row or an order dictionary holds. *)
#[warnings="-register-all"]
Inductive value : Type :=
  | VNone
  | VBool (b : bool)
  | VInt (n : Z)
  | VStr (s : string)
  | VDatetime (t : Z)
  | VList (items : list value)
  | VRow (fields : list (string * value)).

(** Truth value of an object in a condition. *)
Definition truthy (v : value) : bool :=
  match v with
  | VNone => false
  | VBool b => b
  | VInt n => negb (n =? 0)%Z
  | VStr s => negb (String.eqb s "")
  | VDatetime _ => true
  | VList items => match items with [] => false | _ => true end
  | VRow fields => match fields with [] => false | _ => true end
  end.

(** [d.get(k)] *)
Definition dict_get (d : gmap string value) (k : string) : value :=
  default VNone (d !! k).

(** The block "Enhanced tracking status logic" of [get_order_by_id]. The
    two calls of [datetime.now()] are the readings [now_order] and
    [now_ship]. Subtracting anything but a datetime from a datetime
    raises [TypeError]. The estimates [order_date + timedelta(days=3)]
    and [order_date + timedelta(days=7)] raise [OverflowError] when they
    leave the years 1 to 9999, which an order dated in the last days of
    year 9999 makes them do under any clock. [shipping_date +
    timedelta(days=5)] is computed only when the shipment is a day old
    or older, so it is at most four days after the clock: it stays a
    datetime unless the clock itself reads in the last four days of year
    9999, and the readings are taken to lie before that (see
    [shipped_estimate_representable]). *)
Definition tracking_status_logic (clean_order_id : string)
    (now_order now_ship : Z) (order : gmap string value)
    : outcome (gmap string value) :=
  let order_date := dict_get order "order_date" in
  let shipping_date := dict_get order "shipping_date" in
  let tracking_number := dict_get order "tracking_number" in
  if truthy order_date then
    match order_date with
    | VDatetime od =>
        let days_since_order := Datetime.days_between now_order od in
        let order :=
          if truthy tracking_number then
            <["has_tracking" := VBool true]>
              (<["tracking_number" := tracking_number]> order)
          else
            <["has_tracking" := VBool false]>
              (<["tracking_number" :=
                   VStr ("TRK" +:+ clean_order_id
                         +:+ Datetime.strftime_md od)]> order) in
        if truthy shipping_date then
          match shipping_date with
          | VDatetime sd =>
              let days_since_shipping :=
                Datetime.days_between now_ship sd in
              if (days_since_shipping >=? 5)%Z then
                Returns
                  (<["tracking_message" :=
                       VStr ("Your order was delivered on "
                             +:+ Datetime.strftime_long
                                   (Datetime.add_days sd 5)
                             +:+ ".")]>
                     (<["tracking_status" := VStr "Delivered"]> order))
              else if (days_since_shipping >=? 1)%Z then
                let estimated_delivery := Datetime.add_days sd 5 in
                Returns
                  (<["estimated_delivery" :=
                       VStr (Datetime.strftime_ymd estimated_delivery)]>
                     (<["tracking_message" :=
                          VStr ("Your order is on its way! Expected delivery: "
                                +:+ Datetime.strftime_long
                                      estimated_delivery)]>
                        (<["tracking_status" := VStr "In Transit"]> order)))
              else
                Returns
                  (<["tracking_message" :=
                       VStr ("Your order shipped on "
                             +:+ Datetime.strftime_long sd
                             +:+ " and is being processed for delivery.")]>
                     (<["tracking_status" := VStr "Shipped"]> order))
          | _ => Raises TypeError
          end
        else if (days_since_order =? 0)%Z then
          Returns
            (<["tracking_message" :=
                 VStr "Your order has been confirmed and payment processed. We're preparing your items."]>
               (<["tracking_status" := VStr "Order Confirmed"]> order))
        else if (days_since_order =? 1)%Z then
          Returns
            (<["tracking_message" :=
                 VStr "Your order is being processed and will be shipped within 24 hours."]>
               (<["tracking_status" := VStr "Processing"]> order))
        else if (days_since_order <=? 3)%Z then
          estimated_shipping ← Datetime.add_timedelta_days od 3;
          Returns
            (<["estimated_shipping" :=
                 VStr (Datetime.strftime_ymd estimated_shipping)]>
               (<["tracking_message" :=
                    VStr "Your order is packed and ready to ship. You'll receive tracking info soon."]>
                  (<["tracking_status" := VStr "Ready to Ship"]> order)))
        else
          estimated_delivery ← Datetime.add_timedelta_days od 7;
          Returns
            (<["estimated_delivery" :=
                 VStr (Datetime.strftime_ymd estimated_delivery)]>
               (<["tracking_message" :=
                    VStr "Your order has been shipped. Delivery expected within 3-5 business days."]>
                  (<["tracking_status" := VStr "Shipped"]> order)))
    | _ => Raises TypeError
    end
  else Returns order.

(** The connection [mysql_db] as the three statements of
    [get_order_by_id] see it, each a function of the cleaned order id. *)
Record database : Type := {
  cursor : sql unit;
  order_query : string → sql (option (gmap string value));
  items_query : string → sql value;
  payment_query : string → sql value
}.

(** [get_order_by_id]; [mysql_db] is [None] when the connection failed
    at start-up. Only [mysql.connector.Error] is caught: a [TypeError] or
    an [OverflowError] of the tracking block leaves the function. *)
Definition get_order_by_id (mysql_db : option database)
    (now_order now_ship : Z) (order_id : string)
    : outcome (option (gmap string value)) :=
  match mysql_db with
  | None => Returns None
  | Some db =>
      match cursor db with
      | SqlError => Returns None
      | Rows _ =>
          let clean_order_id :=
            PyStr.strip (PyStr.remove_char "#" order_id) in
          match order_query db clean_order_id with
          | SqlError => Returns None
          | Rows None => Returns None
          | Rows (Some order) =>
              if bool_decide (order = ∅) then Returns None else
              match items_query db clean_order_id with
              | SqlError => Returns None
              | Rows items =>
                  match payment_query db clean_order_id with
                  | SqlError => Returns None
                  | Rows payment =>
                      let order :=
                        <["items" :=
                            if truthy items then items else VList []]>
                          order in
                      let order := <["payment" := payment]> order in
                      match tracking_status_logic clean_order_id
                              now_order now_ship order with
                      | Returns order => Returns (Some order)
                      | Raises e => Raises e
                      end
                  end
              end
          end
      end
  end.

(** The three statements succeed and the order row is [row]. *)
Definition order_found (db : database) (order_id : string)
    (row : gmap string value) (items payment : value) : Prop :=
  let clean_order_id := PyStr.strip (PyStr.remove_char "#" order_id) in
  cursor db = Rows ()
  ∧ order_query db clean_order_id = Rows (Some row)
  ∧ row ≠ ∅
  ∧ items_query db clean_order_id = Rows items
  ∧ payment_query db clean_order_id = Rows payment.

(** The keys the tracking logic may write. *)
Definition tracking_fields : gset string :=
  {[ "tracking_status"; "tracking_message"; "tracking_number";
     "has_tracking"; "estimated_delivery"; "estimated_shipping" ]}.

(** A database holding the single order [row] under the id [cid]. *)
Definition single_order_db (cid : string) (row : gmap string value)
    : database :=
  {| cursor := Rows ();
     order_query := λ k, Rows (if String.eqb k cid then Some row else None);
     items_query := λ _, Rows (VList []);
     payment_query := λ _, Rows VNone |}.

(** Test data: order 77, placed on 10 March 2024 at 09:00. *)
Definition placed_77 : Z := Datetime.make 2024 3 10 9 0 0.

Definition row_77 : gmap string value :=
  <["order_id" := VInt 77]>
    (<["order_date" := VDatetime placed_77]>
       (<["shipping_date" := VNone]> (<["tracking_number" := VNone]> ∅))).

(** The same order with a shipping date. *)
Definition row_77_shipped (shipped : Z) : gmap string value :=
  <["shipping_date" := VDatetime shipped]> row_77.

(** An order row whose placement date is NULL. *)
Definition row_78 : gmap string value :=
  <["order_id" := VInt 78]>
    (<["order_date" := VNone]>
       (<["shipping_date" := VNone]> (<["tracking_number" := VNone]> ∅))).

End Orders.

(** ** Knowledge base *)

Module Knowledge.

(** [self.website_features], each dictionary in insertion order. *)
Definition pages : list (string * string) :=
  [ ("/", "Homepage with hero section, featured products, and special offers");
    ("/shop", "Product catalog with filtering, search, and sorting options");
    ("/cart", "Shopping cart management with quantity updates and total calculation");
    ("/checkout", "Secure checkout process with payment and shipping options");
    ("/contact", "Contact form for customer inquiries and support");
    ("/about", "About page with company information and story");
    ("/login", "User login and registration system");
    ("/user", "User account dashboard with order history and profile management");
    ("/wishlist", "Product wishlist for saving favorite items");
    ("/track-order", "Order tracking system with shipping updates");
    ("/admin", "Admin panel with real-time statistics and store management");
    ("/blog", "Blog section with articles and company updates") ].

Definition features : list string :=
  [ "User registration and secure login system";
    "Product catalog with advanced search and filters";
    "Shopping cart and wishlist functionality";
    "Secure checkout with multiple payment options";
    "Order tracking and management system";
    "Admin panel with real-time business analytics";
    "Contact form and customer support system";
    "Newsletter subscription for updates and offers";
    "Discount codes and promotional campaigns";
    "Mobile-responsive design for all devices";
    "Customer reviews and product ratings";
    "Inventory management with low stock alerts" ].

Definition policies : list (string * string) :=
  [ ("shipping", "Free shipping on orders over $100. Standard shipping: 3-5 business days ($5). Express shipping: 1-2 business days ($15).");
    ("returns", "30-day return policy. Items must be unused and in original packaging. Refunds issued to original payment method.");
    ("payment", "We accept Visa, Mastercard, American Express, PayPal, Apple Pay, and Google Pay.");
    ("privacy", "We protect your personal information and comply with data protection regulations.");
    ("support", "24/7 customer support available via chat, email, or phone.") ].

(** A price as the build uses it: through [str] and through [float]. *)
Record price : Type := { price_text : string; price_value : Q }.

(** A row of the product query of [extract_database_content]; [None]
    is SQL NULL. *)
Record product_row : Type := {
  product_id : option Z;
  product_name : option string;
  product_discription : option string;
  product_type : option string;
  product_price : option price;
  stock_quantity : option Z
}.

(** What [extract_database_content] returned: the products and the
    distinct categories. It returns the empty dictionary when there is no
    connection or a statement fails, which leaves both lists empty. *)
Record db_content : Type := {
  products : list product_row;
  categories : list string
}.

Definition empty_content : db_content :=
  {| products := []; categories := [] |}.

Inductive metadata : Type :=
  | PageMeta (page : string)
  | FeatureMeta (feature_id : nat)
  | PolicyMeta (policy_type : string)
  | ProductMeta (product_id : option Z) (category : option string)
      (price : Q)
  | CategoryMeta (category : string).

(** What the collection keeps under a document id. *)
Record entry : Type := {
  document : string;
  embedding : list Q;
  meta : metadata
}.

Definition fmt (field : option string) : string := default "None" field.

Definition fmt_int (field : option Z) : string :=
  match field with Some n => PyStr.of_int n | None => "None" end.

(** The ids, each a function of the key of its entity alone. *)
Definition page_id (page : string) : string :=
  "page_" +:+ PyStr.replace_char "/" "_" page.

Definition feature_id (i : nat) : string :=
  "feature_" +:+ PyStr.of_int (Z.of_nat i).

Definition policy_id (policy_type : string) : string :=
  "policy_" +:+ policy_type.

Definition product_doc_id (id : option Z) : string :=
  "product_" +:+ fmt_int id.

Definition category_id (category : string) : string :=
  "category_" +:+ PyStr.replace_char " " "_" (PyStr.lower category).

Definition product_text (product : product_row) : string :=
  "Product: " +:+ fmt (product_name product)
  +:+ " - " +:+ fmt (product_discription product)
  +:+ " - Category: " +:+ fmt (product_type product)
  +:+ " - Price: $"
  +:+ match product_price product with
      | Some p => price_text p
      | None => "None"
      end
  +:+ " - Stock: " +:+ fmt_int (stock_quantity product).

(** The vector collection holds one entry per document id, so it is a
    finite map from ids to entries. What it does in the four situations
    below is not fixed by the source; each choice is a parameter. *)
Inductive existing_policy : Set :=
  | Overwrite
  | Skip
  | Reject.

Record store_semantics : Type := {
  (** Whether [delete(where={})] empties the collection or raises. *)
  delete_all_clears : bool;
  (** What [add] does with an id the collection already holds: replace
      the entry, keep the old one, or raise. *)
  on_existing : existing_policy;
  (** Whether [add] raises when its batch repeats an id. *)
  rejects_repeated_ids : bool;
  (** Whether [add] raises when a metadata value of its batch is [None]:
      the collection then takes strings, numbers and booleans only. *)
  rejects_none_metadata : bool
}.

Definition has_repeated_ids (batch : list (string * entry)) : bool :=
  negb (bool_decide (NoDup batch.*1)).

(** A metadata dictionary with a value that is [None]: the metadata of a
    product whose id or category is NULL. *)
Definition none_in_metadata (m : metadata) : bool :=
  match m with
  | ProductMeta None _ _ => true
  | ProductMeta _ None _ => true
  | _ => false
  end.

Definition has_none_metadata (batch : list (string * entry)) : bool :=
  existsb (λ doc, none_in_metadata (meta doc.2)) batch.

Section knowledge_base.

Variable semantics : store_semantics.

(** [self.embedder.encode(text).tolist()]; it can raise. *)
Variable embed : string → outcome (list Q).

(** [collection.delete(where={})] *)
Definition coll_delete (c : gmap string entry)
    : outcome (gmap string entry) :=
  if delete_all_clears semantics then Returns ∅ else Raises ValueError.

(** [collection.add(documents, embeddings, metadatas, ids)] on one
    batch; an [add] that raises stores nothing of the batch and leaves
    the collection as it was. *)
Definition coll_add (batch : list (string * entry))
    (c : gmap string entry) : outcome (gmap string entry) :=
  if rejects_none_metadata semantics && has_none_metadata batch
  then Raises ValueError
  else if rejects_repeated_ids semantics && has_repeated_ids batch
  then Raises ValueError
  else
    match on_existing semantics with
    | Overwrite =>
        Returns (foldl (λ c doc, <[doc.1 := doc.2]> c) c batch)
    | Skip =>
        Returns (foldl (λ c doc,
                          match c !! doc.1 with
                          | Some _ => c
                          | None => <[doc.1 := doc.2]> c
                          end) c batch)
    | Reject =>
        if existsb (λ doc, bool_decide (is_Some (c !! doc.1))) batch
        then Raises ValueError
        else Returns (foldl (λ c doc, <[doc.1 := doc.2]> c) c batch)
    end.

(** One turn of each of the five loops: the id and the entry that are
    appended to the four lists. *)
Definition page_doc (page : string * string)
    : outcome (string * entry) :=
  let text := "Page " +:+ page.1 +:+ ": " +:+ page.2 in
  embedding ← embed text;
  Returns (page_id page.1,
           {| document := text; embedding := embedding;
              meta := PageMeta page.1 |}).

Definition feature_doc (feature : nat * string)
    : outcome (string * entry) :=
  let text := "Website feature: " +:+ feature.2 in
  embedding ← embed text;
  Returns (feature_id feature.1,
           {| document := text; embedding := embedding;
              meta := FeatureMeta feature.1 |}).

Definition policy_doc (policy : string * string)
    : outcome (string * entry) :=
  let text := PyStr.title policy.1 +:+ " Policy: " +:+ policy.2 in
  embedding ← embed text;
  Returns (policy_id policy.1,
           {| document := text; embedding := embedding;
              meta := PolicyMeta policy.1 |}).

(** [float(None)] raises [TypeError]. *)
Definition product_doc (product : product_row)
    : outcome (string * entry) :=
  let text := product_text product in
  embedding ← embed text;
  price ← match product_price product with
          | Some p => Returns (price_value p)
          | None => Raises TypeError
          end;
  Returns (product_doc_id (product_id product),
           {| document := text; embedding := embedding;
              meta := ProductMeta (product_id product)
                        (product_type product) price |}).

Definition category_doc (category : string) : outcome (string * entry) :=
  let text := "Product category: " +:+ category in
  embedding ← embed text;
  Returns (category_id category,
           {| document := text; embedding := embedding;
              meta := CategoryMeta category |}).

(** Steps 1 to 4 of [build_knowledge_embeddings]: the documents in the
    order they are appended. *)
Definition render_documents (content : db_content)
    : outcome (list (string * entry)) :=
  page_docs ← for_each page_doc pages;
  feature_docs ← for_each feature_doc (PyList.enumerate features);
  policy_docs ← for_each policy_doc policies;
  product_docs ← for_each product_doc (products content);
  category_docs ← for_each category_doc (categories content);
  Returns (page_docs ++ feature_docs ++ policy_docs ++ product_docs
           ++ category_docs).

(** The loop over the batches; the first [add] that raises ends it. *)
Fixpoint add_batches (batches : list (list (string * entry)))
    (c : gmap string entry) : gmap string entry * outcome unit :=
  match batches with
  | [] => (c, Returns ())
  | batch :: batches' =>
      match coll_add batch c with
      | Returns c' => add_batches batches' c'
      | Raises e => (c, Raises e)
      end
  end.

(** [build_knowledge_embeddings]: the collection it leaves behind and
    whether it raised. [vector_db] is [None] when the vector database
    could not be opened. *)
Definition build_knowledge_embeddings
    (vector_db : option (gmap string entry)) (content : db_content)
    : option (gmap string entry) * outcome unit :=
  match vector_db with
  | None => (None, Returns ())
  | Some c =>
      let c := match coll_delete c with
               | Returns c' => c'
               | Raises _ => c
               end in
      match render_documents content with
      | Raises e => (Some c, Raises e)
      | Returns docs =>
          let '(c, raised) := add_batches (PyList.batches 100 docs) c in
          (Some c, raised)
      end
  end.

(** The answer of [collection.query]: the value under each key, [None]
    for the Python [None]; the outer option of [distances] is the
    presence of the key. *)
Record query_result : Type := {
  documents : option (list (list string));
  metadatas : option (list (list metadata));
  distances : option (option (list (list Q)))
}.

(** [collection.query(query_embeddings=[q], n_results=k)]: the answer
    depends on what the collection holds, on the query vector and on the
    number of results asked for; it can raise. *)
Variable coll_query :
  gmap string entry → list Q → Z → outcome query_result.

Record knowledge_result : Type := {
  content : string;
  metadata_of : metadata;
  distance : Q
}.

(** [rows[0][i]] on a value that may be [None]. *)
Definition first_row_at {A : Type} (rows : option (list (list A)))
    (i : nat) : outcome A :=
  match rows with
  | None => Raises TypeError
  | Some [] => Raises IndexError
  | Some (row :: _) =>
      match row !! i with
      | Some x => Returns x
      | None => Raises IndexError
      end
  end.

Definition search_knowledge (vector_db : option (gmap string entry))
    (query : string) (n_results : Z) : list knowledge_result :=
  match vector_db with
  | None => []
  | Some c =>
      let body : outcome (list knowledge_result) :=
        query_embedding ← embed query;
        results ← coll_query c query_embedding n_results;
        match documents results with
        | Some (first :: _) =>
            for_each
              (λ doc : nat * string,
                 metadata ← first_row_at (metadatas results) doc.1;
                 distance ← match distances results with
                            | Some rows => first_row_at rows doc.1
                            | None => Returns 0%Q
                            end;
                 Returns {| content := doc.2; metadata_of := metadata;
                            distance := distance |})
              (PyList.enumerate first)
        | _ => Returns []
        end in
      match body with
      | Returns knowledge_results => knowledge_results
      | Raises _ => []
      end
  end.

(** The query answers with documents of the collection only. *)
Definition query_sound : Prop :=
  ∀ c q k results row rows doc,
    coll_query c q k = Returns results →
    documents results = Some (row :: rows) →
    doc ∈ row →
    ∃ id e, c !! id = Some e ∧ document e = doc.

End knowledge_base.

(** A query that scans the collection in key order and answers with
    the first [k] entries, all at distance 0. *)
Definition scan_query (c : gmap string entry) (q : list Q) (k : Z)
    : outcome query_result :=
  let hits := take (Z.to_nat k) (map_to_list c) in
  Returns {| documents := Some [(λ hit, document hit.2) <$> hits];
             metadatas := Some [(λ hit, meta hit.2) <$> hits];
             distances := Some (Some [(λ _, 0%Q) <$> hits]) |}.

(** An embedder with one coordinate, the length of the text. *)
Definition length_embed (text : string) : outcome (list Q) :=
  Returns [inject_Z (Z.of_nat (String.length text))].

(** A collection that refuses to be emptied by an empty filter, keeps
    the entries it has, rejects a batch that repeats an id and takes no
    [None] in the metadata. *)
Definition keep_existing : store_semantics :=
  {| delete_all_clears := false; on_existing := Skip;
     rejects_repeated_ids := true; rejects_none_metadata := true |}.

(** A collection that is emptied by an empty filter, refuses ids it
    holds and repeated ids, and takes no [None] in the metadata. *)
Definition strict_store : store_semantics :=
  {| delete_all_clears := true; on_existing := Reject;
     rejects_repeated_ids := true; rejects_none_metadata := true |}.

(** Test data: a catalogue snapshot of two products. *)
Definition snapshot : db_content :=
  {| products :=
       [ {| product_id := Some 7%Z; product_name := Some "Blue shirt";
            product_discription := Some "Cotton"; product_type := Some "shirt";
            product_price := Some {| price_text := "19.90";
                                     price_value := 19.9%Q |};
            stock_quantity := Some 4%Z |};
         {| product_id := Some 9%Z; product_name := Some "Tote";
            product_discription := None; product_type := Some "bag";
            product_price := Some {| price_text := "35.00";
                                     price_value := 35%Q |};
            stock_quantity := None |} ];
     categories := ["shirt"; "bag"] |}.



End Knowledge.

(** ** Image search engine: category detection *)

Module ImageSearch.

(** [self.category_mapping], in insertion order. *)
Definition category_mapping : list (string * list string) :=
  [ ("shirt", ["shirt"; "top"; "blouse"; "t-shirt"; "polo"; "tank"; "vest"]);
    ("bag", ["bag"; "purse"; "handbag"; "backpack"; "tote"; "clutch"]);
    ("watch", ["watch"; "timepiece"; "smartwatch"]);
    ("shoes", ["shoes"; "sneakers"; "boots"; "sandals"; "heels"]);
    ("jeans", ["jeans"; "pants"; "trouser"; "denim"]);
    ("dress", ["dress"; "gown"; "frock"]);
    ("jacket", ["jacket"; "coat"; "blazer"; "hoodie"]);
    ("accessories", ["accessories"; "jewelry"; "necklace"; "bracelet"]) ].

(** The inner loop of [detect_product_category]: one point per keyword
    of the category that occurs in the lower-cased description. *)
Definition category_score (description_lower : string)
    (keywords : list string) : nat :=
  foldl (λ score keyword,
           if PyStr.contains keyword description_lower then S score
           else score)
        0 keywords.

(** [d[k] = v] on an insertion-ordered dictionary. *)
Fixpoint dict_set (k : string) (v : nat) (d : list (string * nat))
    : list (string * nat) :=
  match d with
  | [] => [(k, v)]
  | (k', v') :: d' =>
      if String.eqb k' k then (k, v) :: d' else (k', v') :: dict_set k v d'
  end.

(** The outer loop: [category_scores] keeps the categories that score. *)
Definition category_scores (description_lower : string)
    : list (string * nat) :=
  foldl (λ scores entry,
           let score := category_score description_lower entry.2 in
           if (0 <? score)%nat then dict_set entry.1 score scores
           else scores)
        [] category_mapping.

(** [max(d, key=d.get)] on a dictionary with first entry [best]: the
    running maximum is replaced only by a strictly larger score. *)
Fixpoint max_by_score (best : string * nat) (d : list (string * nat))
    : string * nat :=
  match d with
  | [] => best
  | e :: d' => max_by_score (if (best.2 <? e.2)%nat then e else best) d'
  end.

Definition generic_apparel_words : list string :=
  ["clothing"; "wear"; "garment"; "outfit"].

Definition detect_product_category (description : string) : string :=
  let description_lower := PyStr.lower description in
  match category_scores description_lower with
  | first :: rest => (max_by_score first rest).1
  | [] =>
      if existsb (λ word, PyStr.contains word description_lower)
                 generic_apparel_words
      then "clothing"
      else "general"
  end.

(** The labels [detect_product_category] can return. *)
Definition category_labels : list string :=
  [ "shirt"; "bag"; "watch"; "shoes"; "jeans"; "dress"; "jacket";
    "accessories"; "clothing"; "general" ].

(** The categories of [mapping] that score, with their scores, in the
    order of [mapping]. *)
Definition scoring_entries (description_lower : string)
    (mapping : list (string * list string)) : list (string * nat) :=
  omap (λ entry,
          let score := category_score description_lower entry.2 in
          if (0 <? score)%nat then Some (entry.1, score) else None)
       mapping.

(** *** Catalogue rows *)

(** A row of [SELECT p.*, i.stock_quantity]; [None] is SQL NULL, which
    the connector hands over as Python [None]. *)
Record product : Type := {
  product_id : Z;
  product_name : option string;
  product_discription : option string;
  product_type : option string;
  product_ranking : option Z;
  stock_quantity : option Z
}.

(** A field inside an f-string: [None] prints as the word None. *)
Definition fmt (field : option string) : string := default "None" field.

(** *** The four signals and the composite score *)

(** The literal of the set [fashion_keywords], repetitions included. *)
Definition fashion_keywords : list string :=
  [ "shirt"; "dress"; "pants"; "jeans"; "jacket"; "coat"; "sweater";
    "hoodie"; "skirt"; "shorts"; "top"; "blouse"; "cardigan"; "blazer";
    "vest"; "tshirt"; "polo"; "tank"; "crop"; "maxi"; "mini"; "midi";
    "formal"; "casual"; "uniform"; "suit"; "trouser"; "leggings"; "jogger";
    "sweatshirt";
    "red"; "blue"; "green"; "yellow"; "black"; "white"; "gray"; "grey";
    "brown"; "pink"; "purple"; "orange"; "navy"; "beige"; "khaki"; "denim";
    "cream"; "maroon"; "burgundy"; "teal"; "turquoise"; "lime"; "olive";
    "gold"; "silver";
    "cotton"; "wool"; "silk"; "linen"; "polyester"; "leather"; "denim";
    "velvet"; "satin"; "chiffon"; "jersey"; "canvas"; "corduroy"; "fleece";
    "striped"; "floral"; "solid"; "plaid"; "checkered"; "polka";
    "geometric"; "printed"; "embroidered"; "lace"; "paisley"; "animal";
    "abstract";
    "long"; "short"; "sleeve"; "sleeveless"; "collar"; "button"; "zip";
    "zipper"; "pocket"; "hood"; "belt"; "tie"; "bow"; "ruffle"; "pleated";
    "fitted"; "loose"; "tight"; "slim"; "regular"; "oversized";
    "men"; "women"; "unisex"; "boy"; "girl"; "adult"; "kids"; "child";
    "formal"; "casual"; "sport"; "athletic"; "business"; "party"; "wedding";
    "hat"; "cap"; "scarf"; "gloves"; "bag"; "belt"; "shoes"; "sneakers";
    "boots"; "sandals"; "heels"; "flats"; "watch"; "jewelry"; "necklace";
    "vintage"; "modern"; "classic"; "trendy"; "bohemian"; "punk"; "gothic";
    "preppy"; "streetwear"; "minimalist"; "elegant"; "chic" ].

(** An order in which the set may be iterated: each keyword once. The
    order itself depends on the hashing of the running process. *)
Definition iteration_order (order : list string) : Prop :=
  NoDup order ∧ ∀ keyword, keyword ∈ order ↔ keyword ∈ fashion_keywords.

Definition descriptor_stems : list string :=
  ["wear"; "cloth"; "dress"; "style"].

(** [category_synonyms] of [calculate_category_similarity]. *)
Definition category_synonyms : list (string * list string) :=
  [ ("shirt", ["top"; "blouse"; "tshirt"; "polo"; "dress shirt"]);
    ("dress", ["gown"; "frock"; "maxi"; "mini"; "midi"]);
    ("pants", ["trousers"; "jeans"; "leggings"; "slacks"]);
    ("jacket", ["coat"; "blazer"; "cardigan"; "hoodie"]);
    ("shoes", ["footwear"; "sneakers"; "boots"; "sandals"; "heels"]);
    ("bag", ["purse"; "handbag"; "backpack"; "tote"]);
    ("hat", ["cap"; "beanie"; "fedora"]) ].

Definition colors : list string :=
  [ "red"; "blue"; "green"; "yellow"; "black"; "white"; "gray"; "brown";
    "pink"; "purple"; "orange"; "navy"; "beige"; "khaki" ].

Definition patterns : list string :=
  ["striped"; "floral"; "solid"; "plaid"; "checkered"; "polka"; "printed"].

Definition styles : list string :=
  ["casual"; "formal"; "vintage"; "modern"; "elegant"; "sporty"].

(** [n / d] on two [int]s with [d] positive. *)
Definition ratio (n d : nat) : Q := (Z.of_nat n # Pos.of_nat d)%Q.

(** The loop over the synonym table. *)
Fixpoint synonym_score (product_type description_lower : string)
    (table : list (string * list string)) : Q :=
  match table with
  | [] => 0.0%Q
  | (category, synonyms) :: table' =>
      if String.eqb product_type category then
        if existsb (λ synonym, PyStr.contains synonym description_lower)
                   synonyms
        then 0.8%Q
        else synonym_score product_type description_lower table'
      else if PyStr.mem product_type synonyms
              && PyStr.contains category description_lower
      then 0.8%Q
      else synonym_score product_type description_lower table'
  end.

(** Whether one turn of that loop returns 0.8. *)
Definition entry_links (product_type description_lower : string)
    (entry : string * list string) : bool :=
  if String.eqb product_type entry.1
  then existsb (λ synonym, PyStr.contains synonym description_lower) entry.2
  else PyStr.mem product_type entry.2
       && PyStr.contains entry.1 description_lower.

(** [calculate_category_similarity]: calling [lower] on [None] raises
    [AttributeError], which the handler turns into 0.0. *)
Definition calculate_category_similarity (description : string)
    (product : product) : Q :=
  let body : outcome Q :=
    product_type ← match product_type product with
                   | Some t => Returns (PyStr.lower t)
                   | None => Raises AttributeError
                   end;
    let description_lower := PyStr.lower description in
    if String.eqb product_type "" then Returns 0.0%Q
    else if PyStr.contains product_type description_lower
    then Returns 1.0%Q
    else Returns (synonym_score product_type description_lower
                    category_synonyms) in
  match body with
  | Returns score => score
  | Raises _ => 0.0%Q
  end.

(** How many words of [vocabulary] occur in both texts. *)
Definition shared_words (vocabulary : list string) (a b : string) : nat :=
  foldl (λ matches word,
           if PyStr.contains word a && PyStr.contains word b
           then S matches else matches)
        0 vocabulary.

Definition calculate_text_visual_similarity (description : string)
    (product : product) : Q :=
  let description_lower := PyStr.lower description in
  let product_text :=
    PyStr.lower (fmt (product_name product) +:+ " "
                 +:+ fmt (product_discription product)) in
  let color_matches := shared_words colors description_lower product_text in
  let pattern_matches :=
    shared_words patterns description_lower product_text in
  let style_matches := shared_words styles description_lower product_text in
  let total_visual_features :=
    (length colors + length patterns + length styles)%nat in
  let total_matches :=
    (color_matches + pattern_matches + style_matches)%nat in
  if (0 <? total_visual_features)%nat
  then ratio total_matches total_visual_features
  else 0.0%Q.

(** The lower-cased category occurs in the lower-cased description. *)
Definition category_occurs (description : string) (product : product)
    : Prop :=
  ∃ t, product_type product = Some t
       ∧ PyStr.lower t ≠ ""
       ∧ PyStr.contains (PyStr.lower t) (PyStr.lower description) = true.

(** The category and the description are linked through an entry of the
    synonym table: the category is the key of the entry and one of its
    synonyms occurs in the description, or the category is one of the
    synonyms of the entry and the key occurs in the description. *)
Definition synonym_linked (description : string) (product : product)
    : Prop :=
  ∃ t category synonyms,
    product_type product = Some t
    ∧ PyStr.lower t ≠ ""
    ∧ (category, synonyms) ∈ category_synonyms
    ∧ ((PyStr.lower t = category
        ∧ ∃ synonym, synonym ∈ synonyms
             ∧ PyStr.contains synonym (PyStr.lower description) = true)
       ∨ (PyStr.lower t ∈ synonyms
          ∧ PyStr.contains category (PyStr.lower description) = true)).

(** A product of which only the category is filled in. *)
Definition of_type (id : Z) (category : string) : product :=
  {| product_id := id; product_name := Some "";
     product_discription := Some ""; product_type := Some category;
     product_ranking := Some 0%Z; stock_quantity := Some 1%Z |}.

Section engine.

(** The sentence embedder followed by [cosine_similarity], on the
    description and the product text; it can raise. *)
Variable embedder_cosine : string → string → outcome Q.

(** The order in which this process iterates [fashion_keywords]. *)
Variable fashion_order : list string.

Definition extract_keywords (description : string) : list string :=
  let description_lower := PyStr.lower description in
  let found_keywords :=
    foldl (λ found keyword,
             if PyStr.contains keyword description_lower
             then found ++ [keyword] else found)
          [] fashion_order in
  let words := PyStr.findall_words description_lower in
  let found_keywords :=
    foldl (λ found word,
             if PyStr.mem word fashion_keywords
                && negb (PyStr.mem word found)
             then found ++ [word] else found)
          found_keywords words in
  let found_keywords :=
    foldl (λ found word,
             if (3 <? String.length word)%nat
                && negb (PyStr.mem word found)
             then if existsb (λ fashion_word,
                                PyStr.contains fashion_word word)
                             descriptor_stems
                  then found ++ [word] else found
             else found)
          found_keywords words in
  take 8 found_keywords.

Definition calculate_semantic_similarity (description : string)
    (product : product) : Q :=
  let product_text :=
    fmt (product_name product) +:+ " "
    +:+ fmt (product_discription product) +:+ " "
    +:+ fmt (product_type product) in
  if String.eqb (PyStr.strip product_text) "" then 0.0%Q
  else match embedder_cosine description product_text with
       | Returns similarity => Qmax 0.0 similarity
       | Raises _ => 0.0%Q
       end.

Definition calculate_keyword_similarity (description : string)
    (product : product) : Q :=
  let keywords := extract_keywords description in
  match keywords with
  | [] => 0.0%Q
  | _ =>
      let product_text :=
        PyStr.lower (fmt (product_name product) +:+ " "
                     +:+ fmt (product_discription product) +:+ " "
                     +:+ fmt (product_type product)) in
      let matched_keywords :=
        foldl (λ matched keyword,
                 if PyStr.contains (PyStr.lower keyword) product_text
                 then S matched else matched)
              0%nat keywords in
      ratio matched_keywords (length keywords)
  end.

Definition calculate_advanced_similarity (description : string)
    (product : product) : Q :=
  let total_score := 0.0%Q in
  let semantic_score := calculate_semantic_similarity description product in
  let total_score := (total_score + semantic_score * 0.4)%Q in
  let keyword_score := calculate_keyword_similarity description product in
  let total_score := (total_score + keyword_score * 0.3)%Q in
  let category_score := calculate_category_similarity description product in
  let total_score := (total_score + category_score * 0.2)%Q in
  let visual_score :=
    calculate_text_visual_similarity description product in
  let total_score := (total_score + visual_score * 0.1)%Q in
  Qmin total_score 1.0.

End engine.

(** *** Ranking the candidates of an uploaded image *)

(** What [match_reason] says, before it is rendered as text. *)
Inductive reason : Type :=
  | VisualSimilarity (similarity : Q)
  | CategoryMatch (category : string)
  | Category (category : string).

(** A product dictionary with the keys the search adds to it; [None] is
    a key not assigned yet. *)
Record annotated : Type := {
  item : product;
  similarity_score : Q;
  visual_match : bool;
  match_reason : option reason;
  product_link : option string;
  detected_category : option string
}.

(** [similarity > 0.3] *)
Definition above_threshold (similarity : Q) : bool :=
  negb (Qle_bool similarity 0.3).

(** The body of the loop over [all_products]. Calling [lower] on a NULL
    [product_type] raises [AttributeError]. *)
Definition annotate (similarities : gmap Z Q) (detected : string)
    (product : product) : outcome annotated :=
  let pid := product_id product in
  let similarity := default 0%Q (similarities !! pid) in
  product_category ← match product_type product with
                     | Some t => Returns (PyStr.lower t)
                     | None => Raises AttributeError
                     end;
  let category_match :=
    PyStr.contains detected product_category
    || PyStr.contains product_category detected in
  Returns
    {| item := product;
       similarity_score := similarity;
       visual_match := above_threshold similarity;
       match_reason :=
         if above_threshold similarity
         then Some (VisualSimilarity similarity)
         else if category_match then Some (CategoryMatch detected)
         else None;
       product_link := None;
       detected_category := None |}.

Definition is_visual (a : annotated) : bool :=
  match match_reason a with Some (VisualSimilarity _) => true | _ => false end.

Definition is_category (a : annotated) : bool :=
  match match_reason a with Some (CategoryMatch _) => true | _ => false end.

(** [key=lambda x: x['similarity_score']], compared for [reverse=True]. *)
Definition similarity_geb (x y : annotated) : bool :=
  Qle_bool (similarity_score y) (similarity_score x).

(** [x.get('product_ranking', 0)] where it is a number. *)
Definition ranking_key (a : annotated) : Z :=
  default 0%Z (product_ranking (item a)).

Definition ranking_geb (x y : annotated) : bool :=
  (ranking_key y <=? ranking_key x)%Z.

(** [category_products.sort(key=lambda x: x.get('product_ranking', 0),
    reverse=True)]: as soon as two items are compared, a NULL ranking
    raises [TypeError], and a list of two or more is always compared. *)
Definition sort_by_ranking (l : list annotated) : outcome (list annotated) :=
  if (2 <=? length l)%nat
     && existsb (λ a, match product_ranking (item a) with
                      | None => true
                      | Some _ => false
                      end) l
  then Raises TypeError
  else Returns (PyList.sort_desc ranking_geb l).

Definition with_default_stock (p : product) : product :=
  {| product_id := product_id p;
     product_name := product_name p;
     product_discription := product_discription p;
     product_type := product_type p;
     product_ranking := product_ranking p;
     stock_quantity :=
       match stock_quantity p with None => Some 10%Z | q => q end |}.

(** The loop "Process for display". *)
Definition display (detected : string) (a : annotated) : annotated :=
  {| item := with_default_stock (item a);
     similarity_score := similarity_score a;
     visual_match := visual_match a;
     match_reason := match_reason a;
     product_link :=
       Some ("/sproductpage.html?id="
             +:+ PyStr.of_int (product_id (item a)));
     detected_category := Some detected |}.

(** From "Calculate visual similarities" to [return final_products]. *)
Definition rank_candidates (similarities : gmap Z Q) (detected : string)
    (all_products : list product) (limit : Z) : outcome (list annotated) :=
  candidates ← for_each (annotate similarities detected) all_products;
  let matched_products := List.filter is_visual candidates in
  let category_products := List.filter is_category candidates in
  let matched_products := PyList.sort_desc similarity_geb matched_products in
  category_products ← sort_by_ranking category_products;
  let final_products := take 3 matched_products ++ take 3 category_products in
  let final_products := PyList.slice_to limit final_products in
  Returns (display detected <$> final_products).

(** The loop "Process products for display" of the fallback search. *)
Definition display_fallback (detected : string) (p : product) : annotated :=
  {| item := with_default_stock p;
     similarity_score := 0%Q;
     visual_match := false;
     match_reason := Some (Category detected);
     product_link :=
       Some ("/sproductpage.html?id=" +:+ PyStr.of_int (product_id p));
     detected_category := Some detected |}.

(** [mysql_db] and the models, as [find_similar_products] uses them. *)
Record catalogue : Type := {
  cursor : sql unit;
  (** Products that have an image, ordered by id. *)
  products_with_images : sql (list product);
  (** Primary image of each product id; empty on any failure. *)
  get_product_images_from_db : list Z → gmap Z string;
  (** Cosine similarity of the uploaded image to each product image,
      for the images whose features could be extracted. *)
  calculate_visual_similarity : string → gmap Z string → gmap Z Q;
  (** [WHERE product_type IN terms ORDER BY ranking DESC, id LIMIT n] *)
  products_of_types : list string → Z → sql (list product);
  (** [ORDER BY ranking DESC LIMIT n] *)
  products_by_ranking : Z → sql (list product)
}.

(** [self.category_mapping.get(k, [k])] *)
Definition category_terms (detected : string) : list string :=
  default [detected]
    (snd <$> List.find (λ entry, String.eqb entry.1 detected)
                       category_mapping).

(** The visual branch of [find_similar_products]: [Some] is its early
    [return], [None] falls through to the fallback search. *)
Definition visual_search (db : catalogue) (detected : string)
    (uploaded_image_bytes : option string) (limit : Z)
    : outcome (option (list annotated)) :=
  match uploaded_image_bytes with
  | None => Returns None
  | Some bytes =>
      if String.eqb bytes "" then Returns None else
      match products_with_images db with
      | SqlError => Raises DatabaseError
      | Rows all_products =>
          match all_products with
          | [] => Returns None
          | _ =>
              let product_ids := product_id <$> all_products in
              let product_images := get_product_images_from_db db product_ids in
              if bool_decide (product_images = ∅) then Returns None else
              let similarities :=
                calculate_visual_similarity db bytes product_images in
              final ← rank_candidates similarities detected all_products
                        limit;
              Returns (Some final)
          end
      end
  end.

Definition fallback_search (db : catalogue) (detected : string) (limit : Z)
    : outcome (list annotated) :=
  let answer :=
    if negb (String.eqb detected "general")
    then products_of_types db (category_terms detected) limit
    else products_by_ranking db limit in
  match answer with
  | SqlError => Raises DatabaseError
  | Rows products => Returns (display_fallback detected <$> products)
  end.

(** The default of the parameter [limit]. *)
Definition default_limit : Z := 6.

(** [find_similar_products]; every exception ends in the empty list. *)
Definition find_similar_products (mysql_db : option catalogue)
    (image_description : string) (uploaded_image_bytes : option string)
    (limit : Z) : list annotated :=
  match mysql_db with
  | None => []
  | Some db =>
      let body : outcome (list annotated) :=
        let detected := detect_product_category image_description in
        match cursor db with
        | SqlError => Raises DatabaseError
        | Rows _ =>
            found ← visual_search db detected uploaded_image_bytes limit;
            match found with
            | Some final_products => Returns final_products
            | None => fallback_search db detected limit
            end
        end in
      match body with
      | Returns products => products
      | Raises _ => []
      end
  end.

(** The visual branch is taken: an image was uploaded, the catalogue
    has products with images, and [similarities] is what the models
    computed for them. *)
Definition visual_path (db : catalogue)
    (uploaded_image_bytes : option string) (all_products : list product)
    (similarities : gmap Z Q) : Prop :=
  ∃ bytes,
    uploaded_image_bytes = Some bytes
    ∧ bytes ≠ ""
    ∧ cursor db = Rows ()
    ∧ products_with_images db = Rows all_products
    ∧ all_products ≠ []
    ∧ get_product_images_from_db db (product_id <$> all_products) ≠ ∅
    ∧ similarities
      = calculate_visual_similarity db bytes
          (get_product_images_from_db db (product_id <$> all_products)).

(** A catalogue whose products all have the same placeholder image and
    whose similarities are given. *)
Definition demo_catalogue (all_products : list product)
    (similarities : gmap Z Q) : catalogue :=
  {| cursor := Rows ();
     products_with_images := Rows all_products;
     get_product_images_from_db :=
       λ ids, list_to_map ((λ id, (id, "img")) <$> ids);
     calculate_visual_similarity := λ _ _, similarities;
     products_of_types := λ _ _, Rows [];
     products_by_ranking := λ _, Rows [] |}.

(** Test data: two shirts, one exactly at the threshold and one just
    above it. *)
Definition shirt (id ranking : Z) (name : string) : product :=
  {| product_id := id; product_name := Some name;
     product_discription := Some ""; product_type := Some "shirt";
     product_ranking := Some ranking; stock_quantity := Some 1%Z |}.

Definition threshold_products : list product :=
  [shirt 1 4 "Plain shirt"; shirt 2 3 "Striped shirt"].

Definition threshold_similarities : gmap Z Q :=
  <[1%Z := 0.3%Q]> (<[2%Z := 0.30001%Q]> ∅).

(** Test data: two shirts below the threshold; the one ranked higher
    by [product_ranking] matches the description less well. *)
Definition ranked_products : list product :=
  [shirt 1 5 "Plain tee"; shirt 2 1 "Red cotton shirt"].

Definition ranked_similarities : gmap Z Q :=
  <[1%Z := 0.1%Q]> (<[2%Z := 0.1%Q]> ∅).

(** Test data: the join with [inventory] returned product 7 twice. *)
Definition twin_products : list product :=
  [shirt 7 2 "Blue shirt"; shirt 7 2 "Blue shirt"].

Definition twin_similarities : gmap Z Q := <[7%Z := 0.9%Q]> ∅.

(** Test data: four shirts the models find similar to the upload, four
    shirts they do not, with rankings 2, 5, 1 and 4, and a watch of
    ranking 9 that they do not find similar either. *)
Definition crowded_products : list product :=
  [ shirt 1 1 "Shirt A"; shirt 2 1 "Shirt B"; shirt 3 1 "Shirt C";
    shirt 4 1 "Shirt D"; shirt 5 2 "Shirt E"; shirt 6 5 "Shirt F";
    shirt 7 1 "Shirt G"; shirt 8 4 "Shirt H";
    {| product_id := 9; product_name := Some "Watch";
       product_discription := Some ""; product_type := Some "watch";
       product_ranking := Some 9%Z; stock_quantity := Some 1%Z |} ].

Definition crowded_similarities : gmap Z Q :=
  <[1%Z := 0.9%Q]> (<[2%Z := 0.5%Q]> (<[3%Z := 0.7%Q]>
    (<[4%Z := 0.4%Q]> (<[9%Z := 0.1%Q]> ∅)))).

(** An iteration order of [fashion_keywords]: first occurrences, in the
    order of the literal. *)
Definition first_seen_order : list string := remove_dups fashion_keywords.

(** An embedder that finds every pair of texts unrelated. *)
Definition silent_embedder : string → string → outcome Q :=
  λ _ _, Returns 0%Q.

End ImageSearch.

(** ** Order lookup by tracking number *)

Module OrderLookups.

Import Orders.

(** The tracking block of [get_order_by_tracking_number]: the block of
    [get_order_by_id] again, with the same [OverflowError] of the two
    estimates made from [order_date], except that the stored tracking
    number is always passed on and [has_tracking] is always true. *)
Definition tracking_status_logic (now_order now_ship : Z)
    (order : gmap string value) : outcome (gmap string value) :=
  let order_date := dict_get order "order_date" in
  let shipping_date := dict_get order "shipping_date" in
  let tracking_number := dict_get order "tracking_number" in
  if truthy order_date then
    match order_date with
    | VDatetime od =>
        let days_since_order := Datetime.days_between now_order od in
        let order :=
          <["has_tracking" := VBool true]>
            (<["tracking_number" := tracking_number]> order) in
        if truthy shipping_date then
          match shipping_date with
          | VDatetime sd =>
              let days_since_shipping :=
                Datetime.days_between now_ship sd in
              if (days_since_shipping >=? 5)%Z then
                Returns
                  (<["tracking_message" :=
                       VStr ("Your order was delivered on "
                             +:+ Datetime.strftime_long
                                   (Datetime.add_days sd 5)
                             +:+ ".")]>
                     (<["tracking_status" := VStr "Delivered"]> order))
              else if (days_since_shipping >=? 1)%Z then
                let estimated_delivery := Datetime.add_days sd 5 in
                Returns
                  (<["estimated_delivery" :=
                       VStr (Datetime.strftime_ymd estimated_delivery)]>
                     (<["tracking_message" :=
                          VStr ("Your order is on its way! Expected delivery: "
                                +:+ Datetime.strftime_long
                                      estimated_delivery)]>
                        (<["tracking_status" := VStr "In Transit"]> order)))
              else
                Returns
                  (<["tracking_message" :=
                       VStr ("Your order shipped on "
                             +:+ Datetime.strftime_long sd
                             +:+ " and is being processed for delivery.")]>
                     (<["tracking_status" := VStr "Shipped"]> order))
          | _ => Raises TypeError
          end
        else if (days_since_order =? 0)%Z then
          Returns
            (<["tracking_message" :=
                 VStr "Your order has been confirmed and payment processed. We're preparing your items."]>
               (<["tracking_status" := VStr "Order Confirmed"]> order))
        else if (days_since_order =? 1)%Z then
          Returns
            (<["tracking_message" :=
                 VStr "Your order is being processed and will be shipped within 24 hours."]>
               (<["tracking_status" := VStr "Processing"]> order))
        else if (days_since_order <=? 3)%Z then
          estimated_shipping ← Datetime.add_timedelta_days od 3;
          Returns
            (<["estimated_shipping" :=
                 VStr (Datetime.strftime_ymd estimated_shipping)]>
               (<["tracking_message" :=
                    VStr "Your order is packed and ready to ship. You'll receive tracking info soon."]>
                  (<["tracking_status" := VStr "Ready to Ship"]> order)))
        else
          estimated_delivery ← Datetime.add_timedelta_days od 7;
          Returns
            (<["estimated_delivery" :=
                 VStr (Datetime.strftime_ymd estimated_delivery)]>
               (<["tracking_message" :=
                    VStr "Your order has been shipped. Delivery expected within 3-5 business days."]>
                  (<["tracking_status" := VStr "Shipped"]> order)))
    | _ => Raises TypeError
    end
  else Returns order.

(** The connection as [get_order_by_tracking_number] uses it: the order
    is found by the stripped tracking number, its items and payment by
    the value of its [order_id] column. *)
Record tracking_database : Type := {
  tracking_cursor : sql unit;
  order_by_tracking : string → sql (option (gmap string value));
  items_of_order : value → sql value;
  payment_of_order : value → sql value
}.

(** [get_order_by_tracking_number]. [order['order_id']] raises [KeyError]
    on a row without that column; only [mysql.connector.Error] is
    caught. *)
Definition get_order_by_tracking_number (mysql_db : option tracking_database)
    (now_order now_ship : Z) (tracking_number : string)
    : outcome (option (gmap string value)) :=
  match mysql_db with
  | None => Returns None
  | Some db =>
      match tracking_cursor db with
      | SqlError => Returns None
      | Rows _ =>
          let clean_tracking := PyStr.strip tracking_number in
          match order_by_tracking db clean_tracking with
          | SqlError => Returns None
          | Rows None => Returns None
          | Rows (Some order) =>
              if bool_decide (order = ∅) then Returns None else
              match order !! "order_id" with
              | None => Raises KeyError
              | Some order_id =>
                  match items_of_order db order_id with
                  | SqlError => Returns None
                  | Rows items =>
                      match payment_of_order db order_id with
                      | SqlError => Returns None
                      | Rows payment =>
                          let order :=
                            <["items" :=
                                if truthy items then items else VList []]>
                              order in
                          let order := <["payment" := payment]> order in
                          match tracking_status_logic now_order now_ship
                                  order with
                          | Returns order => Returns (Some order)
                          | Raises e => Raises e
                          end
                      end
                  end
              end
          end
      end
  end.

(** The statements succeed and the order row is [row]. *)
Definition found_by_tracking (db : tracking_database)
    (tracking_number : string) (row : gmap string value)
    (items payment : value) : Prop :=
  ∃ order_id,
    tracking_cursor db = Rows ()
    ∧ order_by_tracking db (PyStr.strip tracking_number) = Rows (Some row)
    ∧ row ≠ ∅
    ∧ row !! "order_id" = Some order_id
    ∧ items_of_order db order_id = Rows items
    ∧ payment_of_order db order_id = Rows payment.

(** A column that holds a datetime or NULL. *)
Definition datetime_or_null (v : value) : Prop :=
  v = VNone ∨ ∃ t, v = VDatetime t.

(** A placement date that leaves room for the two estimates made from
    it: it is a datetime, and so is the instant seven days later. *)
Definition estimates_representable (order_date : value) : Prop :=
  ∀ od, order_date = VDatetime od →
    Datetime.representable od = true
    ∧ Datetime.representable (Datetime.add_days od 7) = true.

(** Test data: order 77 placed on 30 December 9999. *)
Definition row_77_last_days : gmap string value :=
  <["order_date" := VDatetime (Datetime.make 9999 12 30 10 0 0)]> row_77.

(** The six status labels. *)
Definition status_labels : list string :=
  [ "Delivered"; "In Transit"; "Shipped"; "Order Confirmed"; "Processing";
    "Ready to Ship" ].

(** A database holding the single order [row] under [tracking]. *)
Definition single_tracking_db (tracking : string) (row : gmap string value)
    : tracking_database :=
  {| tracking_cursor := Rows ();
     order_by_tracking :=
       λ k, Rows (if String.eqb k tracking then Some row else None);
     items_of_order := λ _, Rows (VList []);
     payment_of_order := λ _, Rows VNone |}.

(** Test data: order 77 with the tracking number the carrier gave. *)
Definition row_77_tracked : gmap string value :=
  <["tracking_number" := VStr "TRK770310"]>
    (row_77_shipped (Datetime.make 2024 3 11 8 0 0)).

End OrderLookups.

(** ** Image search: the paths of the product search *)

Module SearchPaths.
Import ImageSearch.

(** What the third loop keeps of a word. *)
Definition is_descriptor (word : string) : Prop :=
  (3 < String.length word)%nat
  ∧ ∃ stem, stem ∈ descriptor_stems ∧ PyStr.contains stem word = true.

(** The visual branch is not taken: no image was uploaded, or it is
    empty, or no product has an image. *)
Definition no_visual_branch (db : catalogue) (uploaded : option string)
    : Prop :=
  uploaded = None
  ∨ uploaded = Some ""
  ∨ products_with_images db = Rows []
  ∨ ∃ all_products,
      products_with_images db = Rows all_products
      ∧ get_product_images_from_db db (product_id <$> all_products) = ∅.

(** A candidate the loop files under the category matches. *)
Definition category_candidate (similarities : gmap Z Q) (detected : string)
    (p : product) : Prop :=
  ∃ t, product_type p = Some t
       ∧ above_threshold (default 0%Q (similarities !! product_id p)) = false
       ∧ PyStr.contains detected (PyStr.lower t)
         || PyStr.contains (PyStr.lower t) detected = true.

End SearchPaths.

(** ** Chat history: the database and the cache of the engine *)

Module ChatHistory.

(** [l[start:]] for an [int] start: a negative start counts from the
    end, and [l[-0:]] is the whole list. *)
Definition slice_from {A : Type} (start : Z) (l : list A) : list A :=
  if (0 <=? start)%Z then drop (Z.to_nat start) l
  else drop (length l - Z.to_nat (- start)) l.

Definition pad6 (n : Z) : string :=
  if (n <? 10)%Z then "00000" +:+ PyStr.of_int n
  else if (n <? 100)%Z then "0000" +:+ PyStr.of_int n
  else if (n <? 1000)%Z then "000" +:+ PyStr.of_int n
  else if (n <? 10000)%Z then "00" +:+ PyStr.of_int n
  else if (n <? 100000)%Z then "0" +:+ PyStr.of_int n
  else PyStr.of_int n.

(** [t.isoformat()]: the microseconds are printed when they are not 0. *)
Definition isoformat (t : Z) : string :=
  let in_day := (t `mod` Datetime.us_per_day)%Z in
  let seconds := (in_day `div` 1000000)%Z in
  let microsecond := (in_day `mod` 1000000)%Z in
  Datetime.strftime_ymd t +:+ "T"
  +:+ Datetime.pad2 (seconds `div` 3600)%Z +:+ ":"
  +:+ Datetime.pad2 ((seconds `div` 60) `mod` 60)%Z +:+ ":"
  +:+ Datetime.pad2 (seconds `mod` 60)%Z
  +:+ (if (microsecond =? 0)%Z then "" else "." +:+ pad6 microsecond).

(** A message dictionary; [T] is the type of its timestamp, a datetime
    in a row of the query and a string afterwards. [None] is [None]. *)
Record chat_message (T : Type) : Type := {
  sender : string;
  message : string;
  intent : option string;
  confidence : option Q;
  current_page : option string;
  timestamp : option T
}.

Arguments sender {T} _.
Arguments message {T} _.
Arguments intent {T} _.
Arguments confidence {T} _.
Arguments current_page {T} _.
Arguments timestamp {T} _.

(** The connection as [ChatHistoryManager] uses it. *)
Record chat_database : Type := {
  cursor : sql unit;
  (** [INSERT INTO chat_conversations] with the eight values. *)
  insert_conversation :
    string → option string → string → string → option string → option Q
    → option string → option Z → sql unit;
  (** [SELECT id FROM chat_sessions WHERE session_id = %s] gave a row. *)
  session_exists : string → sql bool;
  (** [INSERT INTO chat_sessions], by session, email and session type. *)
  create_session : string → option string → string → sql unit;
  (** [UPDATE chat_sessions], by email and session. *)
  touch_session : option string → string → sql unit;
  (** The rows of a session, newest first, at most [limit]. *)
  select_history : string → Z → sql (list (chat_message Z))
}.

(** [_update_session_info] returns nothing and catches the errors of its
    statements. *)
Definition update_session_info (db : chat_database) (session_id : string)
    (user_email : option string) (sender : string) : unit :=
  match cursor db with
  | SqlError => ()
  | Rows _ =>
      match session_exists db session_id with
      | SqlError => ()
      | Rows false =>
          let session_type :=
            if PyStr.contains "admin" sender then "admin" else "customer" in
          match create_session db session_id user_email session_type with
          | SqlError => ()
          | Rows _ => ()
          end
      | Rows true =>
          match touch_session db user_email session_id with
          | SqlError => ()
          | Rows _ => ()
          end
      end
  end.

(** [ChatHistoryManager.save_message] *)
Definition save_message (db : option chat_database) (session_id sender
    message : string) (intent : option string) (confidence : option Q)
    (user_email current_page : option string) (response_time_ms : option Z)
    : bool :=
  match db with
  | None => false
  | Some db =>
      match cursor db with
      | SqlError => false
      | Rows _ =>
          match insert_conversation db session_id user_email sender message
                  intent confidence current_page response_time_ms with
          | SqlError => false
          | Rows _ =>
              let _ := update_session_info db session_id user_email sender in
              true
          end
      end
  end.

(** The loop that converts the timestamps of the rows. *)
Definition with_iso_timestamp (msg : chat_message Z) : chat_message string :=
  {| sender := sender msg; message := message msg; intent := intent msg;
     confidence := confidence msg; current_page := current_page msg;
     timestamp := isoformat <$> timestamp msg |}.

(** [ChatHistoryManager.get_session_history] *)
Definition get_session_history (db : option chat_database)
    (session_id : string) (limit : Z) : list (chat_message string) :=
  match db with
  | None => []
  | Some db =>
      match cursor db with
      | SqlError => []
      | Rows _ =>
          match select_history db session_id limit with
          | SqlError => []
          | Rows history => reverse (with_iso_timestamp <$> history)
          end
      end
  end.

(** [ChatbotEngine.get_conversation_history]: what it returns and the
    [message_cache] it leaves. *)
Definition get_conversation_history (db : option chat_database)
    (cache : gmap string (list (chat_message string))) (session_id : string) (limit : Z)
    : list (chat_message string) * gmap string (list (chat_message string))
    :=
  let from_cache :=
    match cache !! session_id with
    | Some cached_messages =>
        if (Z.of_nat (length cached_messages) >=? Z.min limit 5)%Z
        then Some (slice_from (- limit) cached_messages)
        else None
    | None => None
    end in
  match from_cache with
  | Some messages => (messages, cache)
  | None =>
      let history := get_session_history db session_id limit in
      let cache :=
        <[session_id := match history with
                        | [] => []
                        | _ => slice_from (-5) history
                        end]> cache in
      (history, cache)
  end.

(** [ChatbotEngine.save_message_to_history]; [now] is the reading of
    [datetime.now()]. *)
Definition save_message_to_history (db : option chat_database) (now : Z)
    (cache : gmap string (list (chat_message string))) (session_id sender message : string)
    (intent : option string) (confidence : option Q)
    (user_email current_page : option string) (response_time_ms : option Z)
    : bool * gmap string (list (chat_message string)) :=
  let success :=
    save_message db session_id sender message intent confidence user_email
      current_page response_time_ms in
  if success then
    let message_obj :=
      {| sender := sender; message := message; intent := intent;
         confidence := confidence; current_page := current_page;
         timestamp := Some (isoformat now) |} in
    let cache :=
      match cache !! session_id with
      | None => <[session_id := []]> cache
      | Some _ => cache
      end in
    let cache :=
      <[session_id := default [] (cache !! session_id) ++ [message_obj]]>
        cache in
    let cache :=
      if (5 <? length (default [] (cache !! session_id)))%nat
      then <[session_id :=
               slice_from (-5) (default [] (cache !! session_id))]> cache
      else cache in
    (success, cache)
  else (success, cache).

(** No session holds more than five messages in the cache. *)
Definition cache_bounded (cache : gmap string (list (chat_message string))) : Prop :=
  ∀ session_id cached_messages,
    cache !! session_id = Some cached_messages →
    (length cached_messages ≤ 5)%nat.

(** A database that stores and answers nothing but accepts every
    statement. *)
Definition accepting_db : chat_database :=
  {| cursor := Rows ();
     insert_conversation := λ _ _ _ _ _ _ _ _, Rows ();
     session_exists := λ _, Rows false;
     create_session := λ _ _ _, Rows ();
     touch_session := λ _ _, Rows ();
     select_history := λ _ _, Rows [] |}.

(** The same database with the rows [rows] stored for every session. *)
Definition talkative_db (rows : list (chat_message Z)) : chat_database :=
  {| cursor := Rows ();
     insert_conversation := λ _ _ _ _ _ _ _ _, Rows ();
     session_exists := λ _, Rows true;
     create_session := λ _ _ _, Rows ();
     touch_session := λ _ _, Rows ();
     select_history := λ _ _, Rows rows |}.

(** Test data: the [n]th message of a customer, sent at second [n]. *)
Definition note (n : Z) : chat_message Z :=
  {| sender := "user"; message := "message " +:+ PyStr.of_int n;
     intent := None; confidence := None; current_page := None;
     timestamp := Some (n * 1000000)%Z |}.

End ChatHistory.

(** ** Intent analysis *)

Module Intent.

(** What [json.loads] returns; an object keeps its keys in order. *)
#[warnings="-register-all"]
Inductive json : Type :=
  | JNull
  | JBool (b : bool)
  | JNumber (x : Q)
  | JString (s : string)
  | JArray (items : list json)
  | JObject (fields : list (string * json)).

(** Truth value of a parsed value in a condition. *)
Definition truthy (v : json) : bool :=
  match v with
  | JNull => false
  | JBool b => b
  | JNumber x => negb (Qeq_bool x 0)
  | JString s => negb (String.eqb s "")
  | JArray items => match items with [] => false | _ => true end
  | JObject fields => match fields with [] => false | _ => true end
  end.

Fixpoint lookup_field (fields : list (string * json)) (k : string)
    : option json :=
  match fields with
  | [] => None
  | (k', v) :: fields' =>
      if String.eqb k' k then Some v else lookup_field fields' k
  end.

(** [d[k] = v] on the fields of a dictionary. *)
Fixpoint set_field (k : string) (v : json) (fields : list (string * json))
    : list (string * json) :=
  match fields with
  | [] => [(k, v)]
  | (k', v') :: fields' =>
      if String.eqb k' k then (k, v) :: fields'
      else (k', v') :: set_field k v fields'
  end.

(** [obj.get(k, default)]: only a dictionary has [get]. *)
Definition py_get (obj : json) (k : string) (default : json)
    : outcome json :=
  match obj with
  | JObject fields =>
      Returns (match lookup_field fields k with
               | Some v => v
               | None => default
               end)
  | _ => Raises AttributeError
  end.

(** [obj[k]] for a string [k] *)
Definition getitem (obj : json) (k : string) : outcome json :=
  match obj with
  | JObject fields =>
      match lookup_field fields k with
      | Some v => Returns v
      | None => Raises KeyError
      end
  | _ => Raises TypeError
  end.

(** [obj[k] = v] for a string [k] *)
Definition setitem (obj : json) (k : string) (v : json) : outcome json :=
  match obj with
  | JObject fields => Returns (JObject (set_field k v fields))
  | _ => Raises TypeError
  end.

(** [s.upper()] *)
Fixpoint upper (s : string) : string :=
  match s with
  | EmptyString => EmptyString
  | String c s' => String (PyStr.upper_char c) (upper s')
  end.

(** [\d{n}] at the start of [s]: the [n] digits it matches. *)
Fixpoint take_digits (n : nat) (s : string) : option string :=
  match n with
  | O => Some ""
  | S n' =>
      match s with
      | EmptyString => None
      | String c s' =>
          if PyStr.is_digit c then String c <$> take_digits n' s' else None
      end
  end.

(** [TRK\d{6}] at the start of [s]: group 0. *)
Definition match_tracking (s : string) : option string :=
  match s with
  | String "T" (String "R" (String "K" rest)) =>
      (λ digits, "TRK" +:+ digits) <$> take_digits 6 rest
  | _ => None
  end.

(** [re.search(r'TRK\d{6}', s)]: group 0 of the leftmost match. *)
Fixpoint search_tracking (s : string) : option string :=
  match match_tracking s with
  | Some found => Some found
  | None =>
      match s with
      | EmptyString => None
      | String _ s' => search_tracking s'
      end
  end.

(** [\d+] at the start of [s], greedy; empty when it does not match. *)
Fixpoint digits_run (s : string) : string :=
  match s with
  | EmptyString => EmptyString
  | String c s' =>
      if PyStr.is_digit c then String c (digits_run s') else EmptyString
  end.

(** [#?(\d+)] at the start of [s]: group 1. The optional [#] is tried
    first and given up when no digit follows it. *)
Definition match_order_id (s : string) : option string :=
  let after_hash :=
    match s with
    | String "#" s' => digits_run s'
    | _ => EmptyString
    end in
  if negb (String.eqb after_hash "") then Some after_hash
  else if negb (String.eqb (digits_run s) "") then Some (digits_run s)
  else None.

(** [re.search(r'#?(\d+)', s)]: group 1 of the leftmost match. *)
Fixpoint search_order_id (s : string) : option string :=
  match match_order_id s with
  | Some found => Some found
  | None =>
      match s with
      | EmptyString => None
      | String _ s' => search_order_id s'
      end
  end.

(** The keyword matching of the handler. *)
Definition fallback_intent (message : string) : string :=
  let message_lower := PyStr.lower message in
  let any words :=
    existsb (λ word, PyStr.contains word message_lower) words in
  if any ["track"; "order"; "shipping"; "delivery"] then "order_status"
  else if any ["product"; "search"; "find"; "looking for"]
  then "product_search"
  else if any ["return"; "refund"; "exchange"] then "return_policy"
  else if any ["cart"; "checkout"; "payment"] then "shopping_cart"
  else if any ["contact"; "support"; "help"] then "customer_support"
  else "general_chat".

(** What the handler returns. *)
Definition fallback (message : string) : json :=
  JObject [ ("intent", JString (fallback_intent message));
            ("entities", JObject []);
            ("confidence", JNumber 0.3%Q) ].

(** [intent_data['intent'] = 'order_status'] followed by
    [intent_data['entities'][k] = v]; the inner dictionary is changed in
    place. *)
Definition override (intent_data : json) (k v : string) : outcome json :=
  intent_data ← setitem intent_data "intent" (JString "order_status");
  entities ← getitem intent_data "entities";
  entities ← setitem entities k (JString v);
  setitem intent_data "entities" entities.

(** [not intent_data.get('entities', {}).get(k)] *)
Definition entity_missing (intent_data : json) (k : string) : outcome bool :=
  entities ← py_get intent_data "entities" (JObject []);
  found ← py_get entities k JNull;
  Returns (negb (truthy found)).

(** [analyze_intent]. [answer] is what
    [json.loads(self.clean_ai_response(response.text))] gave for the
    prompt built from the message and the history, or the exception
    raised on the way there. *)
Definition analyze_intent (answer : outcome json) (message : string)
    : json :=
  let tracking_number_match := search_tracking (upper message) in
  let order_id_match := search_order_id message in
  let body : outcome json :=
    intent_data ← answer;
    by_tracking ← match tracking_number_match with
                  | Some _ => entity_missing intent_data "tracking_number"
                  | None => Returns false
                  end;
    match tracking_number_match, by_tracking with
    | Some group_0, true => override intent_data "tracking_number" group_0
    | _, _ =>
        by_order_id ← match order_id_match with
                      | Some _ =>
                          missing ← entity_missing intent_data "order_id";
                          Returns
                            (missing
                             && PyStr.contains "track" (PyStr.lower message))
                      | None => Returns false
                      end;
        match order_id_match, by_order_id with
        | Some group_1, true => override intent_data "order_id" group_1
        | _, _ => Returns intent_data
        end
    end in
  match body with
  | Returns intent_data => intent_data
  | Raises _ => fallback message
  end.

(** The entity [k] as the later code reads it. *)
Definition entity (intent_data : json) (k : string) : option json :=
  match intent_data with
  | JObject fields =>
      match lookup_field fields "entities" with
      | Some (JObject entities) => lookup_field entities k
      | _ => None
      end
  | _ => None
  end.

Definition top_field (intent_data : json) (k : string) : option json :=
  match intent_data with
  | JObject fields => lookup_field fields k
  | _ => None
  end.

(** A string of digits. *)
Fixpoint all_digits (s : string) : bool :=
  match s with
  | EmptyString => true
  | String c s' => PyStr.is_digit c && all_digits s'
  end.

End Intent.

(** ** Product search by entities *)

Module ProductSearch.
Import Intent.

Definition newline : string := String "010" EmptyString.

(** The text [query] starts with. *)
Definition select_products : string :=
  newline +:+ "        SELECT p.*, i.stock_quantity " +:+ newline
  +:+ "        FROM product p " +:+ newline
  +:+ "        LEFT JOIN inventory i ON p.product_id = i.product_id"
  +:+ newline
  +:+ "        WHERE 1=1" +:+ newline +:+ "        ".

Definition keyword_condition : string :=
  "(p.product_name LIKE %s OR p.product_discription LIKE %s)".

(** [sep.join(l)] *)
Fixpoint join (sep : string) (l : list string) : string :=
  match l with
  | [] => ""
  | [x] => x
  | x :: l' => x +:+ sep +:+ join sep l'
  end.

Fixpoint characters (s : string) : list string :=
  match s with
  | EmptyString => []
  | String c s' => String c EmptyString :: characters s'
  end.

(** The items a [for] loop or [extend] takes from a parsed value: the
    items of a list, the characters of a string, the keys of a
    dictionary; anything else is not iterable. *)
Definition iterate (v : json) : outcome (list json) :=
  match v with
  | JArray items => Returns items
  | JString s => Returns (JString <$> characters s)
  | JObject fields => Returns (JString <$> fields.*1)
  | _ => Raises TypeError
  end.

(** [len(v)] *)
Definition py_len (v : json) : outcome nat :=
  match v with
  | JArray items => Returns (length items)
  | JString s => Returns (String.length s)
  | JObject fields => Returns (length fields)
  | _ => Raises TypeError
  end.

(** How many [%s] a statement has. *)
Fixpoint count_placeholders (s : string) : nat :=
  match s with
  | EmptyString => 0
  | String c s' =>
      (if Ascii.eqb c "%" && String.prefix "s" s' then 1 else 0)
      + count_placeholders s'
  end.

(** The last character of the text is [%]. *)
Fixpoint ends_with_percent (s : string) : bool :=
  match s with
  | EmptyString => false
  | String c EmptyString => Ascii.eqb c "%"
  | String _ s' => ends_with_percent s'
  end.

(** The statements [search_products] can send, by the number of
    keywords and by the presence of the two filters. *)
Definition keywords_text (keywords : nat) : string :=
  match keywords with
  | O => ""
  | _ => " AND (" +:+ join " OR " (replicate keywords keyword_condition)
         +:+ ")"
  end.

Definition category_text (category : bool) : string :=
  if category then " AND p.product_type = %s" else "".

Definition price_range_text (price_range : bool) : string :=
  if price_range then " AND p.product_price BETWEEN %s AND %s" else "".

Definition query_text (keywords : nat) (category price_range : bool)
    : string :=
  select_products +:+ keywords_text keywords +:+ category_text category
  +:+ price_range_text price_range
  +:+ " ORDER BY p.product_ranking DESC LIMIT 10".

Section search.

(** The type of a result row. *)
Variable Row : Type.

(** [str(v)] for a number, a list or a dictionary. *)
Variable str_other : json → string.

(** [f"{v}"] *)
Definition fmt (v : json) : string :=
  match v with
  | JString s => s
  | JNull => "None"
  | JBool true => "True"
  | JBool false => "False"
  | _ => str_other v
  end.

Record product_db : Type := {
  cursor : sql unit;
  (** [cursor.execute(query, params)] and [fetchall()] *)
  execute : string → list json → sql (list Row)
}.

(** The block "Add keyword search", on [query] and [params]. *)
Definition add_keywords (entities : json) (query : string)
    (params : list json) : outcome (string * list json) :=
  keywords ← py_get entities "product_keywords" (JArray []);
  if truthy keywords then
    items ← iterate keywords;
    let keyword_conditions := (λ _, keyword_condition) <$> items in
    let params :=
      params
      ++ concat ((λ keyword,
                    [ JString ("%" +:+ fmt keyword +:+ "%");
                      JString ("%" +:+ fmt keyword +:+ "%") ])
                 <$> items) in
    match keyword_conditions with
    | [] => Returns (query, params)
    | _ =>
        Returns (query +:+ " AND (" +:+ join " OR " keyword_conditions
                 +:+ ")",
                 params)
    end
  else Returns (query, params).

(** The block "Add category filter". *)
Definition add_category (entities : json) (query : string)
    (params : list json) : outcome (string * list json) :=
  category ← py_get entities "category" JNull;
  if truthy category then
    category ← getitem entities "category";
    Returns (query +:+ " AND p.product_type = %s", params ++ [category])
  else Returns (query, params).

(** The block "Add price range filter". *)
Definition add_price_range (entities : json) (query : string)
    (params : list json) : outcome (string * list json) :=
  price_range ← py_get entities "price_range" JNull;
  two ← (if truthy price_range
         then n ← py_len price_range; Returns (n =? 2)%nat
         else Returns false);
  if two : bool then
    items ← iterate price_range;
    Returns (query +:+ " AND p.product_price BETWEEN %s AND %s",
             params ++ items)
  else Returns (query, params).

(** From [query = ...] to the last [query +=]: the statement and its
    parameters. *)
Definition build_query (entities : json) : outcome (string * list json) :=
  built ← add_keywords entities select_products [];
  built ← add_category entities built.1 built.2;
  built ← add_price_range entities built.1 built.2;
  Returns (built.1 +:+ " ORDER BY p.product_ranking DESC LIMIT 10", built.2).

(** [search_products]; only [mysql.connector.Error] is caught. *)
Definition search_products (mysql_db : option product_db) (entities : json)
    : outcome (list Row) :=
  match mysql_db with
  | None => Returns []
  | Some db =>
      match cursor db with
      | SqlError => Returns []
      | Rows _ =>
          built ← build_query entities;
          match execute db built.1 built.2 with
          | SqlError => Returns []
          | Rows products => Returns products
          end
      end
  end.

End search.

End ProductSearch.

(** * Properties *)

Example detect_red_shirt :
  ImageSearch.detect_product_category "A RED polo T-Shirt with jeans" = "shirt".
Proof. vm_compute. reflexivity. Qed.

Example detect_empty_description :
  ImageSearch.detect_product_category "" = "general"
  ∧ ImageSearch.detect_product_category "summer outfit" = "clothing"
  ∧ ImageSearch.detect_product_category "boots and a coat" = "shoes".
Proof. by vm_compute. Qed.

Example python_string_primitives :
  PyStr.title "shipping" = "Shipping"
  ∧ PyStr.strip (PyStr.remove_char "#" " #1042 ") = "1042"
  ∧ PyStr.findall_words "a red-cotton shirt_1, ok"
    = ["a"; "red"; "cotton"; "shirt_1"; "ok"]
  ∧ PyStr.contains "hat" "what" = true
  ∧ PyStr.of_int (-12) = "-12".
Proof. by vm_compute. Qed.

Example python_slices :
  PyList.slice_to 2 [1; 2; 3] = [1; 2]
  ∧ PyList.slice_to (-1) [1; 2; 3] = [1; 2]
  ∧ PyList.slice_to 6 [1; 2; 3] = [1; 2; 3]
  ∧ PyList.batches 2 [1; 2; 3; 4; 5] = [[1; 2]; [3; 4]; [5]].
Proof. by vm_compute. Qed.

Example civil_leap_day :
  Datetime.date_of (Datetime.make 2024 2 29 13 5 0) = (2024, 2, 29)%Z
  ∧ Datetime.strftime_ymd (Datetime.make 2023 12 31 23 59 59) = "2023-12-31"
  ∧ Datetime.strftime_long (Datetime.make 2025 1 5 0 0 0) = "January 05, 2025"
  ∧ Datetime.make 1970 1 1 0 0 0 = 0%Z
  ∧ Datetime.days_from_civil 2024 2 29 = 19782%Z.
Proof. vm_compute. repeat split. Qed.

(** ** Order tracking *)

Section order_tracking.
Import Orders.

Local Open Scope Z_scope.

Lemma days_between_bounds (a b : Z) :
  Datetime.days_between a b * Datetime.us_per_day ≤ a - b
  < (Datetime.days_between a b + 1) * Datetime.us_per_day.
Proof.
  unfold Datetime.days_between, Datetime.us_per_day.
  pose proof (Z.mul_div_le (a - b) 86400000000 eq_refl).
  pose proof (Z.mul_succ_div_gt (a - b) 86400000000 eq_refl).
  lia.
Qed.

Lemma found_get_order_by_id db now_order now_ship order_id row items payment :
  order_found db order_id row items payment →
  get_order_by_id (Some db) now_order now_ship order_id =
    match tracking_status_logic
            (PyStr.strip (PyStr.remove_char "#" order_id))
            now_order now_ship
            (<["payment" := payment]>
               (<["items" := if truthy items then items else VList []]> row))
    with
    | Returns order => Returns (Some order)
    | Raises e => Raises e
    end.
Proof.
  intros (Hc & Ho & Hne & Hi & Hp). unfold get_order_by_id.
  rewrite Hc, Ho, Hi, Hp. rewrite bool_decide_eq_false_2 by done. done.
Qed.

Lemma dict_get_tracking_inputs (row : gmap string value) items payment k :
  k ≠ "payment" → k ≠ "items" →
  dict_get (<["payment" := payment]> (<["items" := items]> row)) k
  = dict_get row k.
Proof. intros. unfold dict_get. by rewrite !lookup_insert_ne. Qed.

Ltac split_days :=
  repeat match goal with
    | |- context [(?a >=? ?b)%Z] => rewrite (Z.geb_leb a b)
    | |- context [(?a <=? ?b)%Z] => destruct (Z.leb_spec a b)
    | |- context [(?a =? ?b)%Z] => destruct (Z.eqb_spec a b)
    end.

Ltac by_days :=
  repeat match goal with
    | H : context [Datetime.days_between ?a ?b] |- _ =>
        lazymatch goal with
        | _ : (Datetime.days_between a b * _ ≤ _ < _)%Z |- _ => fail
        | _ => pose proof (days_between_bounds a b)
        end
    end;
  unfold Datetime.us_per_day in *; lia.

(** C9: an order row without a placement date comes back with its items
    and payment attached and nothing else written: none of the six
    tracking fields is assigned. *)
Theorem C9_no_order_date_no_tracking_fields
    db now_order now_ship order_id row items payment :
  order_found db order_id row items payment →
  dict_get row "order_date" = VNone →
  ∃ result,
    get_order_by_id (Some db) now_order now_ship order_id
    = Returns (Some result)
    ∧ result = <["payment" := payment]>
                 (<["items" := if truthy items then items else VList []]>
                    row)
    ∧ ∀ k, k ∈ tracking_fields → result !! k = row !! k.
Proof.
  intros Hfound Hdate. rewrite (found_get_order_by_id _ _ _ _ _ _ _ Hfound).
  unfold tracking_status_logic.
  rewrite dict_get_tracking_inputs, Hdate by done. simpl.
  eexists. split; [reflexivity|]. split; [reflexivity|].
  intros k Hk. unfold tracking_fields in Hk.
  rewrite !elem_of_union, !elem_of_singleton in Hk.
  destruct_or!; subst k; by rewrite !lookup_insert_ne.
Qed.

Lemma dict_get_Some (row : gmap string value) k v :
  row !! k = Some v → dict_get row k = v.
Proof. unfold dict_get. by intros ->. Qed.

Local Notation "'days' n" := (n * Datetime.us_per_day)%Z
  (at level 35, n at level 9, only parsing).

Lemma representable_iff t :
  Datetime.representable t = true
  ↔ Datetime.datetime_min ≤ t ≤ Datetime.datetime_max.
Proof.
  unfold Datetime.representable. rewrite andb_true_iff, !Z.leb_le. done.
Qed.

Lemma add_timedelta_days_Returns t n :
  Datetime.representable (Datetime.add_days t n) = true →
  Datetime.add_timedelta_days t n = Returns (Datetime.add_days t n).
Proof. unfold Datetime.add_timedelta_days. by intros ->. Qed.

(** An instant between two datetimes is a datetime. *)
Lemma representable_between t n m :
  0 ≤ n ≤ m →
  Datetime.representable t = true →
  Datetime.representable (Datetime.add_days t m) = true →
  Datetime.representable (Datetime.add_days t n) = true.
Proof.
  rewrite !representable_iff. unfold Datetime.add_days, Datetime.us_per_day.
  nia.
Qed.

(** Where the block adds five days to the shipping date, the shipment
    is at least a day old: the sum is at most four days after the clock,
    hence a datetime for every reading of the clock up to four days
    before [datetime.max]. *)
Lemma shipped_estimate_representable now_ship sd :
  Datetime.representable sd = true →
  now_ship + days 4 ≤ Datetime.datetime_max →
  1 ≤ Datetime.days_between now_ship sd →
  Datetime.representable (Datetime.add_days sd 5) = true.
Proof.
  rewrite !representable_iff. intros Hsd Hclock Hage.
  pose proof (days_between_bounds now_ship sd).
  unfold Datetime.add_days, Datetime.us_per_day in *. lia.
Qed.

(** With a shipping date, the age of the shipment decides. *)
Lemma shipped_order_status
    db now_order now_ship order_id row items payment od sd :
  order_found db order_id row items payment →
  row !! "order_date" = Some (VDatetime od) →
  row !! "shipping_date" = Some (VDatetime sd) →
  ∃ result,
    get_order_by_id (Some db) now_order now_ship order_id
    = Returns (Some result)
    ∧ (days 5 ≤ now_ship - sd →
       result !! "tracking_status" = Some (VStr "Delivered"))
    ∧ (days 1 ≤ now_ship - sd < days 5 →
       result !! "tracking_status" = Some (VStr "In Transit")
       ∧ result !! "estimated_delivery"
         = Some (VStr (Datetime.strftime_ymd (Datetime.add_days sd 5))))
    ∧ (now_ship - sd < days 1 →
       result !! "tracking_status" = Some (VStr "Shipped"))
    ∧ dom result ⊆
        dom row ∪ {[ "items"; "payment"; "tracking_number"; "has_tracking";
                     "tracking_status"; "tracking_message";
                     "estimated_delivery" ]}.
Proof.
  intros Hfound Hdate Hship.
  rewrite (found_get_order_by_id _ _ _ _ _ _ _ Hfound).
  unfold tracking_status_logic. rewrite !dict_get_tracking_inputs by done.
  rewrite (dict_get_Some _ _ _ Hdate), (dict_get_Some _ _ _ Hship).
  cbn [truthy].
  destruct (truthy (dict_get row "tracking_number")); split_days;
    (eexists; split; [reflexivity|]);
    (repeat split; intros; try by_days; try by simplify_map_eq);
    rewrite !dom_insert; set_solver.
Qed.

(** Without one, the age of the order decides; the two estimates are
    made from a placement date that leaves room for them. *)
Lemma unshipped_order_status
    db now_order now_ship order_id row items payment od :
  order_found db order_id row items payment →
  row !! "order_date" = Some (VDatetime od) →
  dict_get row "shipping_date" = VNone →
  Datetime.representable od = true →
  Datetime.representable (Datetime.add_days od 7) = true →
  ∃ result,
    get_order_by_id (Some db) now_order now_ship order_id
    = Returns (Some result)
    ∧ (0 ≤ now_order - od < days 1 →
       result !! "tracking_status" = Some (VStr "Order Confirmed"))
    ∧ (days 1 ≤ now_order - od < days 2 →
       result !! "tracking_status" = Some (VStr "Processing"))
    ∧ (days 2 ≤ now_order - od < days 4 →
       result !! "tracking_status" = Some (VStr "Ready to Ship")
       ∧ result !! "estimated_shipping"
         = Some (VStr (Datetime.strftime_ymd (Datetime.add_days od 3))))
    ∧ (days 4 ≤ now_order - od →
       result !! "tracking_status" = Some (VStr "Shipped")
       ∧ result !! "estimated_delivery"
         = Some (VStr (Datetime.strftime_ymd (Datetime.add_days od 7)))).
Proof.
  intros Hfound Hdate Hship Hod Hweek.
  rewrite (found_get_order_by_id _ _ _ _ _ _ _ Hfound).
  unfold tracking_status_logic. rewrite !dict_get_tracking_inputs by done.
  rewrite (dict_get_Some _ _ _ Hdate), Hship. cbn [truthy].
  rewrite (add_timedelta_days_Returns od 3)
    by (apply (representable_between od 3 7); [lia | done..]).
  rewrite (add_timedelta_days_Returns od 7) by done.
  cbn [mbind outcome_bind].
  destruct (truthy (dict_get row "tracking_number")); split_days;
    (eexists; split; [reflexivity|]);
    (repeat split; intros; try by_days; by simplify_map_eq).
Qed.

(** C1: the decision table of the order status. With a shipping date the
    age of the shipment alone decides, in the order Delivered (five days
    or more), In Transit (one day up to five, with the estimated
    delivery five days after shipping), Shipped (less than a day);
    without one the age of the order decides: Order Confirmed on day 0,
    Processing on day 1, Ready to Ship on days 2 and 3 (estimated
    shipping three days after placement), Shipped afterwards (estimated
    delivery seven days after placement). The rows without a shipping
    date are those of a placement date that is a datetime and leaves room
    for the estimate seven days later; past that, the estimates raise
    [OverflowError] instead. *)
Theorem C1_status_decision_table
    db now_order now_ship order_id row items payment od :
  order_found db order_id row items payment →
  row !! "order_date" = Some (VDatetime od) →
  (∀ sd, row !! "shipping_date" = Some (VDatetime sd) →
     ∃ result,
       get_order_by_id (Some db) now_order now_ship order_id
       = Returns (Some result)
       ∧ (days 5 ≤ now_ship - sd →
          result !! "tracking_status" = Some (VStr "Delivered"))
       ∧ (days 1 ≤ now_ship - sd < days 5 →
          result !! "tracking_status" = Some (VStr "In Transit")
          ∧ result !! "estimated_delivery"
            = Some (VStr (Datetime.strftime_ymd (Datetime.add_days sd 5))))
       ∧ (now_ship - sd < days 1 →
          result !! "tracking_status" = Some (VStr "Shipped")))
  ∧ (dict_get row "shipping_date" = VNone →
     Datetime.representable od = true →
     Datetime.representable (Datetime.add_days od 7) = true →
     ∃ result,
       get_order_by_id (Some db) now_order now_ship order_id
       = Returns (Some result)
       ∧ (0 ≤ now_order - od < days 1 →
          result !! "tracking_status" = Some (VStr "Order Confirmed"))
       ∧ (days 1 ≤ now_order - od < days 2 →
          result !! "tracking_status" = Some (VStr "Processing"))
       ∧ (days 2 ≤ now_order - od < days 4 →
          result !! "tracking_status" = Some (VStr "Ready to Ship")
          ∧ result !! "estimated_shipping"
            = Some (VStr (Datetime.strftime_ymd (Datetime.add_days od 3))))
       ∧ (days 4 ≤ now_order - od →
          result !! "tracking_status" = Some (VStr "Shipped")
          ∧ result !! "estimated_delivery"
            = Some (VStr (Datetime.strftime_ymd (Datetime.add_days od 7))))).
Proof.
  intros Hfound Hdate. split.
  - intros sd Hship.
    destruct (shipped_order_status _ now_order now_ship _ _ _ _ _ _
                Hfound Hdate Hship)
      as (result & Hget & Hdelivered & Htransit & Hshipped & _).
    by exists result.
  - intros Hship Hod Hweek.
    by apply (unshipped_order_status _ _ _ _ _ _ _ _ Hfound Hdate Hship).
Qed.

Lemma single_order_found cid row order_id :
  PyStr.strip (PyStr.remove_char "#" order_id) = cid →
  row ≠ ∅ →
  order_found (single_order_db cid row) order_id row (VList []) VNone.
Proof.
  intros Hid Hrow. unfold order_found, single_order_db. simpl.
  rewrite Hid, String.eqb_refl. done.
Defined.

Lemma C9_witness :
  ∃ result,
    get_order_by_id (Some (single_order_db "78" row_78)) 0 0 "#78"
    = Returns (Some result)
    ∧ result = <["payment" := VNone]> (<["items" := VList []]> row_78)
    ∧ ∀ k, k ∈ tracking_fields → result !! k = row_78 !! k.
Proof.
  apply (C9_no_order_date_no_tracking_fields
           (single_order_db "78" row_78) 0 0 "#78" row_78 (VList []) VNone).
  - apply single_order_found; [reflexivity | apply insert_non_empty].
  - reflexivity.
Defined.

Lemma C1_witness :
  (∃ result,
     get_order_by_id
       (Some (single_order_db "77"
                (row_77_shipped (Datetime.make 2024 3 11 8 0 0))))
       (Datetime.make 2024 3 13 8 0 0) (Datetime.make 2024 3 13 8 0 0) "#77"
     = Returns (Some result)
     ∧ result !! "tracking_status" = Some (VStr "In Transit")
     ∧ result !! "estimated_delivery" = Some (VStr "2024-03-16"))
  ∧ (∃ result,
       get_order_by_id (Some (single_order_db "77" row_77))
         (Datetime.make 2024 3 12 15 0 0) (Datetime.make 2024 3 12 15 0 0)
         "#77"
       = Returns (Some result)
       ∧ result !! "tracking_status" = Some (VStr "Ready to Ship")
       ∧ result !! "estimated_shipping" = Some (VStr "2024-03-13")).
Proof.
  split.
  - destruct (C1_status_decision_table
                (single_order_db "77"
                   (row_77_shipped (Datetime.make 2024 3 11 8 0 0)))
                (Datetime.make 2024 3 13 8 0 0)
                (Datetime.make 2024 3 13 8 0 0)
                "#77" (row_77_shipped (Datetime.make 2024 3 11 8 0 0))
                (VList []) VNone placed_77) as [Hshipped _].
    + apply single_order_found; [reflexivity | apply insert_non_empty].
    + reflexivity.
    + destruct (Hshipped (Datetime.make 2024 3 11 8 0 0) eq_refl)
        as (result & Hget & _ & Htransit & _).
      exists result. split; [exact Hget|].
      destruct Htransit as [Hstatus Hdelivery].
      { vm_compute. split; [discriminate | reflexivity]. }
      split; [exact Hstatus|].
      etransitivity; [exact Hdelivery|]. vm_compute. reflexivity.
  - destruct (C1_status_decision_table
                (single_order_db "77" row_77)
                (Datetime.make 2024 3 12 15 0 0)
                (Datetime.make 2024 3 12 15 0 0)
                "#77" row_77 (VList []) VNone placed_77) as [_ Hunshipped].
    + apply single_order_found; [reflexivity | apply insert_non_empty].
    + reflexivity.
    + destruct (Hunshipped eq_refl eq_refl eq_refl)
        as (result & Hget & _ & _ & Hready & _).
      exists result. split; [exact Hget|].
      destruct Hready as [Hstatus Hshipping].
      { vm_compute. split; [discriminate | reflexivity]. }
      split; [exact Hstatus|].
      etransitivity; [exact Hshipping|]. vm_compute. reflexivity.
Defined.

(** C7 as the code has it: a shipping date earlier than the placement
    date is used like any other. The status is Delivered, In Transit or
    Shipped by the age of the shipment, the placement date plays no part
    in it, and the result carries no key that would flag the anomaly. *)
Theorem C7_shipped_before_placed_uses_shipping_date
    db now_order now_ship order_id row items payment od sd :
  order_found db order_id row items payment →
  row !! "order_date" = Some (VDatetime od) →
  row !! "shipping_date" = Some (VDatetime sd) →
  sd < od →
  ∃ result,
    get_order_by_id (Some db) now_order now_ship order_id
    = Returns (Some result)
    ∧ (days 5 ≤ now_ship - sd →
       result !! "tracking_status" = Some (VStr "Delivered"))
    ∧ (days 1 ≤ now_ship - sd < days 5 →
       result !! "tracking_status" = Some (VStr "In Transit"))
    ∧ (now_ship - sd < days 1 →
       result !! "tracking_status" = Some (VStr "Shipped"))
    ∧ dom result ⊆
        dom row ∪ {[ "items"; "payment"; "tracking_number"; "has_tracking";
                     "tracking_status"; "tracking_message";
                     "estimated_delivery" ]}.
Proof.
  intros Hfound Hdate Hship _.
  destruct (shipped_order_status _ now_order now_ship _ _ _ _ _ _
              Hfound Hdate Hship)
    as (result & Hget & Hdelivered & Htransit & Hshipped & Hdom).
  exists result. repeat split; try done. intros. by apply Htransit.
Qed.

Lemma C7_witness :
  ∃ result,
    get_order_by_id
      (Some (single_order_db "77"
               (row_77_shipped (Datetime.make 2024 3 1 9 0 0))))
      (Datetime.make 2024 3 10 15 0 0) (Datetime.make 2024 3 10 15 0 0)
      "#77"
    = Returns (Some result)
    ∧ result !! "tracking_status" = Some (VStr "Delivered").
Proof.
  destruct (C7_shipped_before_placed_uses_shipping_date
              (single_order_db "77"
                 (row_77_shipped (Datetime.make 2024 3 1 9 0 0)))
              (Datetime.make 2024 3 10 15 0 0)
              (Datetime.make 2024 3 10 15 0 0)
              "#77" (row_77_shipped (Datetime.make 2024 3 1 9 0 0))
              (VList []) VNone placed_77 (Datetime.make 2024 3 1 9 0 0))
    as (result & Hget & Hdelivered & _).
  - apply single_order_found; [reflexivity | apply insert_non_empty].
  - reflexivity.
  - reflexivity.
  - reflexivity.
  - exists result. split; [exact Hget|]. apply Hdelivered.
    vm_compute. discriminate.
Defined.

(** Order 77 was placed on 10 March 2024 and its row says it shipped on
    1 March. Six hours after placement the code reports Delivered, a
    status of the shipped family derived from the invalid date, where
    the branch without a shipping date gives Order Confirmed; the result
    has the usual keys, none of which flags the anomaly. *)
Lemma C7_counterexample :
  let shipped := Datetime.make 2024 3 1 9 0 0 in
  let now := Datetime.make 2024 3 10 15 0 0 in
  shipped < placed_77
  ∧ (∃ result,
       get_order_by_id (Some (single_order_db "77" (row_77_shipped shipped)))
         now now "#77" = Returns (Some result)
       ∧ result !! "tracking_status" = Some (VStr "Delivered")
       ∧ dom result ⊆
           dom (row_77_shipped shipped)
           ∪ {[ "items"; "payment"; "tracking_number"; "has_tracking";
                "tracking_status"; "tracking_message";
                "estimated_delivery" ]})
  ∧ (∃ unshipped,
       get_order_by_id (Some (single_order_db "77" row_77))
         now now "#77" = Returns (Some unshipped)
       ∧ unshipped !! "tracking_status" = Some (VStr "Order Confirmed")).
Proof.
  intros shipped now. split; [reflexivity|]. split.
  - destruct (shipped_order_status
                (single_order_db "77" (row_77_shipped shipped))
                now now "#77" (row_77_shipped shipped) (VList []) VNone
                placed_77 shipped)
      as (result & Hget & Hdelivered & _ & _ & Hdom).
    + apply single_order_found; [reflexivity | apply insert_non_empty].
    + reflexivity.
    + reflexivity.
    + exists result. split; [exact Hget|]. split; [|exact Hdom].
      apply Hdelivered. vm_compute. discriminate.
  - destruct (unshipped_order_status
                (single_order_db "77" row_77)
                now now "#77" row_77 (VList []) VNone placed_77)
      as (result & Hget & Hconfirmed & _).
    + apply single_order_found; [reflexivity | apply insert_non_empty].
    + reflexivity.
    + reflexivity.
    + reflexivity.
    + reflexivity.
    + exists result. split; [exact Hget|].
      apply Hconfirmed. vm_compute. split; [discriminate | reflexivity].
Qed.

End order_tracking.

(** ** The match score and its signals *)

Section match_score.
Import ImageSearch.

Variable embedder_cosine : string → string → outcome Q.
Variable fashion_order : list string.

Local Open Scope Q_scope.

Lemma ratio_nonneg n d : 0 <= ratio n d.
Proof. unfold ratio, Qle. simpl. lia. Qed.

Lemma ratio_le_1 n d : (n ≤ d)%nat → (0 < d)%nat → ratio n d <= 1.
Proof.
  intros Hle Hpos. unfold ratio, Qle. simpl.
  rewrite Z.mul_1_r, Z.mul_1_l.
  destruct d as [|d]; [lia|].
  rewrite <- (Nat2Pos.id (S d)) in Hle at 1 by lia.
  rewrite <- positive_nat_Z. lia.
Qed.

Lemma synonym_score_values product_type description_lower table :
  synonym_score product_type description_lower table = 0.8
  ∨ synonym_score product_type description_lower table = 0.0.
Proof.
  induction table as [|[category synonyms] table IH]; simpl; [by right|].
  destruct (String.eqb _ _).
  - destruct (existsb _ _); [by left | done].
  - destruct (_ && _); [by left | done].
Qed.

Lemma category_similarity_unfold description product :
  calculate_category_similarity description product =
  match product_type product with
  | None => 0.0
  | Some t =>
      if String.eqb (PyStr.lower t) ""%string then 0.0
      else if PyStr.contains (PyStr.lower t) (PyStr.lower description)
      then 1.0
      else synonym_score (PyStr.lower t) (PyStr.lower description)
             category_synonyms
  end.
Proof.
  unfold calculate_category_similarity.
  destruct (product_type product) as [t|]; cbn [mbind outcome_bind]; [|done].
  destruct (String.eqb _ _); [done|]. by destruct (PyStr.contains _ _).
Qed.

Lemma category_similarity_values description product :
  calculate_category_similarity description product = 1.0
  ∨ calculate_category_similarity description product = 0.8
  ∨ calculate_category_similarity description product = 0.0.
Proof.
  rewrite category_similarity_unfold.
  destruct (product_type product) as [t|]; [|by right; right].
  destruct (String.eqb _ _); [by right; right|].
  destruct (PyStr.contains _ _); [by left|].
  right. apply synonym_score_values.
Qed.

Lemma category_similarity_range description product :
  0 <= calculate_category_similarity description product <= 1.
Proof.
  destruct (category_similarity_values description product)
    as [-> | [-> | ->]]; split; by vm_compute.
Qed.

Lemma semantic_similarity_nonneg description product :
  0 <= calculate_semantic_similarity embedder_cosine description product.
Proof.
  unfold calculate_semantic_similarity.
  destruct (String.eqb _ _); [by vm_compute|].
  destruct (embedder_cosine _ _); [|by vm_compute].
  apply Qle_trans with 0.0; [by vm_compute | apply Q.le_max_l].
Qed.

Lemma counting_loop_le {A} (hit : A → bool) (l : list A) (start : nat) :
  (foldl (λ count x, if hit x then S count else count) start l
   ≤ start + length l)%nat.
Proof.
  revert start. induction l as [|x l IH]; intros start; simpl; [lia|].
  destruct (hit x); [specialize (IH (S start)) | specialize (IH start)];
    lia.
Qed.

Lemma keyword_similarity_range description product :
  0 <= calculate_keyword_similarity fashion_order description product <= 1.
Proof.
  unfold calculate_keyword_similarity.
  destruct (extract_keywords fashion_order description) as [|k ks] eqn:Hk;
    [split; by vm_compute|].
  split; [apply ratio_nonneg|].
  apply ratio_le_1; [|simpl; lia].
  etrans; [apply counting_loop_le|]. done.
Qed.

Lemma shared_words_le vocabulary a b :
  (shared_words vocabulary a b ≤ length vocabulary)%nat.
Proof.
  unfold shared_words.
  etrans;
    [apply (counting_loop_le
              (λ word, PyStr.contains word a && PyStr.contains word b))|].
  done.
Qed.

Lemma text_visual_similarity_range description product :
  0 <= calculate_text_visual_similarity description product <= 1.
Proof.
  unfold calculate_text_visual_similarity.
  match goal with
  | |- context [ratio (?c + ?p + ?s)%nat _] =>
      pose proof (shared_words_le colors
                    (PyStr.lower description)
                    (PyStr.lower (fmt (product_name product) +:+ " "
                                  +:+ fmt (product_discription product))));
      pose proof (shared_words_le patterns
                    (PyStr.lower description)
                    (PyStr.lower (fmt (product_name product) +:+ " "
                                  +:+ fmt (product_discription product))));
      pose proof (shared_words_le styles
                    (PyStr.lower description)
                    (PyStr.lower (fmt (product_name product) +:+ " "
                                  +:+ fmt (product_discription product))))
  end.
  change (length colors + length patterns + length styles)%nat with 27%nat.
  change (0 <? 27)%nat with true. cbv iota.
  change (length colors) with 14%nat in *.
  change (length patterns) with 7%nat in *.
  change (length styles) with 6%nat in *.
  split; [apply ratio_nonneg | apply ratio_le_1; lia].
Qed.

(** C2: the composite score is the weighted sum of the four signals,
    0.4 semantic, 0.3 keyword, 0.2 category and 0.1 visual-text, capped
    at 1.0, and lies between 0 and 1 whatever the description, the
    product and the embedder. *)
Theorem C2_composite_score_weights_and_range description product :
  let semantic :=
    calculate_semantic_similarity embedder_cosine description product in
  let keyword :=
    calculate_keyword_similarity fashion_order description product in
  let category := calculate_category_similarity description product in
  let visual_text := calculate_text_visual_similarity description product in
  let composite :=
    calculate_advanced_similarity embedder_cosine fashion_order
      description product in
  composite ==
    Qmin (0.4 * semantic + 0.3 * keyword + 0.2 * category
          + 0.1 * visual_text) 1
  ∧ 0 <= composite <= 1.
Proof.
  intros semantic keyword category visual_text composite.
  pose proof (semantic_similarity_nonneg description product) as Hs.
  pose proof (keyword_similarity_range description product) as [Hk _].
  pose proof (category_similarity_range description product) as [Hc _].
  pose proof (text_visual_similarity_range description product) as [Hv _].
  fold semantic in Hs. fold keyword in Hk. fold category in Hc.
  fold visual_text in Hv.
  assert (composite ==
            Qmin (0.4 * semantic + 0.3 * keyword + 0.2 * category
                  + 0.1 * visual_text) 1) as Heq.
  { unfold composite, calculate_advanced_similarity.
    fold semantic keyword category visual_text.
    apply Q.min_compat; [ring | reflexivity]. }
  split; [exact Heq|]. rewrite Heq. split.
  - apply Q.min_glb; lra.
  - apply Q.le_min_r.
Qed.

Lemma mem_elem_of x xs : PyStr.mem x xs = true ↔ x ∈ xs.
Proof.
  unfold PyStr.mem. rewrite existsb_exists. split.
  - intros (y & Hy & Heq). apply String.eqb_eq in Heq as ->.
    by apply list_elem_of_In.
  - intros Hx. exists x. split; [by apply list_elem_of_In|].
    apply String.eqb_refl.
Qed.

Lemma existsb_elem_of {A} (f : A → bool) (l : list A) :
  existsb f l = true ↔ ∃ x, x ∈ l ∧ f x = true.
Proof.
  rewrite existsb_exists. by setoid_rewrite list_elem_of_In.
Qed.

Lemma synonym_score_existsb product_type description_lower table :
  synonym_score product_type description_lower table =
  if existsb (entry_links product_type description_lower) table
  then 0.8 else 0.0.
Proof.
  induction table as [|[category synonyms] table IH]; [done|].
  cbn [synonym_score existsb]. unfold entry_links at 1. cbn [fst snd].
  destruct (String.eqb _ _).
  - destruct (existsb _ synonyms); [done | exact IH].
  - destruct (_ && _); [done | exact IH].
Qed.

Lemma no_category_among_its_synonyms category synonyms :
  (category, synonyms) ∈ category_synonyms → category ∉ synonyms.
Proof.
  intros Hin.
  assert (Forall (λ entry, entry.1 ∉ entry.2) category_synonyms) as Hall
    by (apply (bool_decide_unpack _); by vm_compute).
  rewrite Forall_forall in Hall. exact (Hall _ Hin).
Qed.

Lemma entry_links_iff product_type description_lower :
  existsb (entry_links product_type description_lower) category_synonyms
  = true
  ↔ ∃ category synonyms,
      (category, synonyms) ∈ category_synonyms
      ∧ ((product_type = category
          ∧ ∃ synonym, synonym ∈ synonyms
               ∧ PyStr.contains synonym description_lower = true)
         ∨ (product_type ∈ synonyms
            ∧ PyStr.contains category description_lower = true)).
Proof.
  rewrite existsb_elem_of. split.
  - intros ([category synonyms] & Hin & Hlinks).
    exists category, synonyms. split; [done|].
    unfold entry_links in Hlinks. cbn [fst snd] in Hlinks.
    destruct (String.eqb_spec product_type category) as [->|Hne].
    + left. split; [done|]. by apply existsb_elem_of.
    + right. apply andb_prop in Hlinks as [Hmem Hocc].
      split; [by apply mem_elem_of | done].
  - intros (category & synonyms & Hin & Hlinks).
    exists (category, synonyms). split; [done|].
    unfold entry_links. cbn [fst snd].
    destruct Hlinks as [[-> Hsyn] | [Hmem Hocc]].
    + rewrite String.eqb_refl. by apply existsb_elem_of.
    + destruct (String.eqb_spec product_type category) as [->|Hne].
      * by apply no_category_among_its_synonyms in Hin.
      * apply andb_true_intro. split; [by apply mem_elem_of | done].
Qed.

(** C4 as the code has it: the category signal is 1.0 exactly when the
    item's category, lower-cased, is non-empty and occurs in the
    lower-cased description as a substring; 0.8 exactly when it does not
    and the two are linked through the synonym table, again by
    substring; 0.0 otherwise, which covers a missing or empty
    category. *)
Theorem C4_category_signal_by_substring description product :
  let score := calculate_category_similarity description product in
  (score = 1.0 ↔ category_occurs description product)
  ∧ (score = 0.8 ↔
       ¬ category_occurs description product
       ∧ synonym_linked description product)
  ∧ (score = 0.0 ↔
       ¬ category_occurs description product
       ∧ ¬ synonym_linked description product).
Proof.
  intros score. unfold score. rewrite category_similarity_unfold.
  unfold category_occurs, synonym_linked.
  destruct (product_type product) as [t|] eqn:Htype.
  2: { repeat split; try done; try (intros (? & ? & _); done);
       try (intros [_ (? & ? & ? & ? & _)]; done);
       intros (? & ? & ? & ? & _); done. }
  destruct (String.eqb_spec (PyStr.lower t) "") as [Hempty|Hfull].
  { repeat split; try done.
    - intros (? & [= <-] & ? & _). done.
    - intros [_ (? & ? & ? & [= <-] & ? & _)]. done.
    - intros (? & [= <-] & ? & _). done.
    - intros (? & ? & ? & [= <-] & ? & _). done. }
  destruct (PyStr.contains (PyStr.lower t) (PyStr.lower description))
    eqn:Hocc.
  { assert (∃ t0, Some t = Some t0 ∧ PyStr.lower t0 ≠ ""
                  ∧ PyStr.contains (PyStr.lower t0)
                      (PyStr.lower description) = true) as Hdirect
      by (by exists t).
    repeat split; try done; intros [Hno _]; done. }
  assert (¬ ∃ t0, Some t = Some t0 ∧ PyStr.lower t0 ≠ ""
                  ∧ PyStr.contains (PyStr.lower t0)
                      (PyStr.lower description) = true) as Hnodirect.
  { intros (? & [= <-] & _ & Hyes). congruence. }
  rewrite synonym_score_existsb.
  pose proof (entry_links_iff (PyStr.lower t) (PyStr.lower description))
    as Hlinks.
  destruct (existsb _ category_synonyms).
  - assert (∃ t0 category synonyms,
              Some t = Some t0 ∧ PyStr.lower t0 ≠ ""
              ∧ (category, synonyms) ∈ category_synonyms
              ∧ ((PyStr.lower t0 = category
                  ∧ ∃ synonym, synonym ∈ synonyms
                       ∧ PyStr.contains synonym (PyStr.lower description)
                         = true)
                 ∨ (PyStr.lower t0 ∈ synonyms
                    ∧ PyStr.contains category (PyStr.lower description)
                      = true))) as Hlinked.
    { destruct (proj1 Hlinks eq_refl) as (c & syns & Hin & Hl).
      by exists t, c, syns. }
    repeat split; try done. intros [_ Hno]. done.
  - assert (¬ ∃ t0 category synonyms,
              Some t = Some t0 ∧ PyStr.lower t0 ≠ ""
              ∧ (category, synonyms) ∈ category_synonyms
              ∧ ((PyStr.lower t0 = category
                  ∧ ∃ synonym, synonym ∈ synonyms
                       ∧ PyStr.contains synonym (PyStr.lower description)
                         = true)
                 ∨ (PyStr.lower t0 ∈ synonyms
                    ∧ PyStr.contains category (PyStr.lower description)
                      = true))) as Hnolink.
    { intros (t0 & c & syns & [= <-] & _ & Hin & Hl).
      assert (false = true); [|done]. apply Hlinks. by exists c, syns. }
    repeat split; try done. intros [_ Hyes]. done.
Qed.

(** The description "What is this" has no token "hat": neither a run of
    word characters nor a whitespace-separated word of it is "hat". Yet
    an item of category "hat" scores 1.0, because "hat" occurs inside
    "what". *)
Lemma C4_counterexample :
  (calculate_category_similarity "What is this" (of_type 1 "hat") = 1.0)
  ∧ ("hat" ∉ PyStr.findall_words (PyStr.lower "What is this"))
  ∧ ("hat" ∉ String.words (PyStr.lower "What is this")).
Proof.
  split; [by vm_compute|].
  split; apply (bool_decide_unpack _); by vm_compute.
Qed.

End match_score.

(** ** Category detection *)

Section category_detection.
Import ImageSearch.

Lemma dict_set_fresh k v (d : list (string * nat)) :
  k ∉ d.*1 → dict_set k v d = d ++ [(k, v)].
Proof.
  induction d as [|[k' v'] d IH]; intros Hfresh; [done|].
  cbn [dict_set]. rewrite fmap_cons, not_elem_of_cons in Hfresh.
  destruct Hfresh as [Hne Hfresh]. cbn [fst] in Hne.
  destruct (String.eqb_spec k' k) as [->|_]; [done|].
  by rewrite IH.
Qed.

Lemma scoring_entries_cons description_lower category keywords mapping :
  scoring_entries description_lower ((category, keywords) :: mapping)
  = if (0 <? category_score description_lower keywords)%nat
    then (category, category_score description_lower keywords)
         :: scoring_entries description_lower mapping
    else scoring_entries description_lower mapping.
Proof.
  unfold scoring_entries. cbn [omap list_omap fst snd].
  by destruct (0 <? category_score description_lower keywords)%nat.
Qed.

(** The loop that fills [category_scores], started from [scores]. *)
Lemma category_scores_loop description_lower mapping scores :
  NoDup mapping.*1 →
  (∀ k, k ∈ scores.*1 → k ∉ mapping.*1) →
  foldl (λ scores entry,
           let score := category_score description_lower entry.2 in
           if (0 <? score)%nat then dict_set entry.1 score scores
           else scores)
        scores mapping
  = scores ++ scoring_entries description_lower mapping.
Proof.
  revert scores.
  induction mapping as [|[category keywords] mapping IH];
    intros scores Hnodup Hfresh.
  { by rewrite app_nil_r. }
  rewrite fmap_cons in Hnodup. apply NoDup_cons in Hnodup as [Hnew Hnodup].
  rewrite scoring_entries_cons. cbn [foldl fst snd].
  cbv zeta.
  destruct (0 <? category_score description_lower keywords)%nat.
  - rewrite dict_set_fresh.
    2: { intros Hin. apply (Hfresh _ Hin). rewrite fmap_cons. set_solver. }
    rewrite IH; [by rewrite <- app_assoc | done |].
    intros k Hk. rewrite fmap_app, elem_of_app in Hk.
    destruct Hk as [Hk|Hk].
    + specialize (Hfresh _ Hk). rewrite fmap_cons in Hfresh. set_solver.
    + cbn in Hk. apply list_elem_of_singleton in Hk as ->. exact Hnew.
  - apply IH; [done|]. intros k Hk. specialize (Hfresh _ Hk).
    rewrite fmap_cons in Hfresh. set_solver.
Qed.

Lemma category_scores_scoring description_lower :
  category_scores description_lower
  = scoring_entries description_lower category_mapping.
Proof.
  unfold category_scores.
  rewrite category_scores_loop; [done | | by intros k ?%elem_of_nil].
  apply (bool_decide_unpack _). by vm_compute.
Qed.

(** [max] keeps the first of the largest: everything before the result
    is strictly smaller, everything after it is no larger. *)
Lemma max_by_score_first (before : list (string * nat)) best seen rest :
  Forall (λ e, e.2 < best.2) before →
  Forall (λ e, e.2 ≤ best.2) seen →
  ∃ before' after',
    before ++ best :: seen ++ rest
    = before' ++ max_by_score best rest :: after'
    ∧ Forall (λ e, e.2 < (max_by_score best rest).2) before'
    ∧ Forall (λ e, e.2 ≤ (max_by_score best rest).2) after'.
Proof.
  revert before best seen.
  induction rest as [|e rest IH]; intros before best seen Hbefore Hseen.
  { exists before, seen. by rewrite app_nil_r. }
  cbn [max_by_score]. destruct (Nat.ltb_spec best.2 e.2) as [Hlt|Hge].
  - destruct (IH (before ++ best :: seen) e []) as (b' & a' & Heq & Hb & Ha).
    + rewrite Forall_app, Forall_cons. split_and!; [| done |].
      * eapply Forall_impl; [exact Hbefore|]. intros; simpl in *; lia.
      * eapply Forall_impl; [exact Hseen|]. intros; simpl in *; lia.
    + done.
    + exists b', a'. split; [|done]. rewrite <- Heq.
      by rewrite <- !app_assoc.
  - destruct (IH before best (seen ++ [e])) as (b' & a' & Heq & Hb & Ha).
    + done.
    + rewrite Forall_app, Forall_singleton. done.
    + exists b', a'. split; [|done]. rewrite <- Heq.
      by rewrite <- !app_assoc.
Qed.

(** A split of the scoring entries is a split of the mapping. *)
Lemma scoring_entries_split description_lower mapping before label score
    after :
  scoring_entries description_lower mapping
  = before ++ (label, score) :: after →
  ∃ mbefore keywords mafter,
    mapping = mbefore ++ (label, keywords) :: mafter
    ∧ category_score description_lower keywords = score
    ∧ 0 < score
    ∧ scoring_entries description_lower mbefore = before
    ∧ scoring_entries description_lower mafter = after.
Proof.
  revert before.
  induction mapping as [|[category keywords] mapping IH]; intros before Heq.
  { by destruct before. }
  rewrite scoring_entries_cons in Heq.
  destruct (Nat.ltb_spec 0 (category_score description_lower keywords))
    as [Hpos|Hzero].
  - destruct before as [|b before]; simplify_eq/=.
    + exists [], keywords, mapping. done.
    + destruct (IH before) as (mb & kws & ma & -> & Hs & Hp & Hb & Ha);
        [done|].
      exists ((category, keywords) :: mb), kws, ma.
      split_and!; try done.
      rewrite scoring_entries_cons, Hb.
      by destruct (Nat.ltb_spec 0
                     (category_score description_lower keywords)); [|lia].
  - destruct (IH before) as (mb & kws & ma & -> & Hs & Hp & Hb & Ha);
      [done|].
    exists ((category, keywords) :: mb), kws, ma.
    split_and!; try done.
    rewrite scoring_entries_cons, Hb.
    by destruct (Nat.ltb_spec 0
                   (category_score description_lower keywords)); [lia|].
Qed.

Lemma scoring_entries_bound description_lower mapping (bound : nat)
    (R : nat → nat → Prop) :
  R 0 bound →
  Forall (λ e, R e.2 bound) (scoring_entries description_lower mapping) →
  Forall (λ entry, R (category_score description_lower entry.2) bound)
         mapping.
Proof.
  intros Hzero.
  induction mapping as [|[category keywords] mapping IH]; intros Hall;
    [done|].
  rewrite scoring_entries_cons in Hall.
  destruct (Nat.ltb_spec 0 (category_score description_lower keywords))
    as [Hpos|Hz].
  - apply Forall_cons in Hall as [Hhead Hall].
    constructor; [done | by apply IH].
  - constructor; [|by apply IH].
    cbn [snd]. by replace (category_score description_lower keywords) with 0
      by lia.
Qed.

Lemma category_labels_nonempty label :
  label ∈ category_labels → label ≠ "".
Proof.
  intros Hin.
  assert (Forall (λ l, l ≠ "") category_labels) as Hall
    by (apply (bool_decide_unpack _); by vm_compute).
  rewrite Forall_forall in Hall. by apply Hall.
Qed.

Lemma category_mapping_labels label keywords :
  (label, keywords) ∈ category_mapping → label ∈ category_labels.
Proof.
  intros Hin.
  assert (Forall (λ entry, entry.1 ∈ category_labels) category_mapping)
    as Hall by (apply (bool_decide_unpack _); by vm_compute).
  rewrite Forall_forall in Hall. exact (Hall _ Hin).
Qed.

(** C10: whatever the description, the detected category is one of the
    ten labels and is not empty. When no keyword of the mapping occurs
    the label is "clothing" or "general"; otherwise it is the category
    with the highest score, and among equals the one inserted first:
    every category before it in the mapping scores strictly less, every
    category after it scores no more. *)
Theorem C10_detected_category_label description :
  let description_lower := PyStr.lower description in
  let label := detect_product_category description in
  label ∈ category_labels
  ∧ label ≠ ""
  ∧ ((Forall (λ entry, category_score description_lower entry.2 = 0)
             category_mapping
      ∧ (label = "clothing" ∨ label = "general"))
     ∨ (∃ before keywords after,
          category_mapping = before ++ (label, keywords) :: after
          ∧ 0 < category_score description_lower keywords
          ∧ Forall (λ entry,
                      category_score description_lower entry.2
                      < category_score description_lower keywords)
                   before
          ∧ Forall (λ entry,
                      category_score description_lower entry.2
                      ≤ category_score description_lower keywords)
                   after)).
Proof.
  intros description_lower label.
  assert ((Forall (λ entry, category_score description_lower entry.2 = 0)
             category_mapping
           ∧ (label = "clothing" ∨ label = "general"))
          ∨ (∃ before keywords after,
               category_mapping = before ++ (label, keywords) :: after
               ∧ 0 < category_score description_lower keywords
               ∧ Forall (λ entry,
                           category_score description_lower entry.2
                           < category_score description_lower keywords)
                        before
               ∧ Forall (λ entry,
                           category_score description_lower entry.2
                           ≤ category_score description_lower keywords)
                        after)) as Hcases.
  { unfold label, detect_product_category.
    fold description_lower. rewrite category_scores_scoring.
    destruct (scoring_entries description_lower category_mapping)
      as [|first rest] eqn:Hscoring.
    - left. split.
      + apply (scoring_entries_bound _ _ 0 eq); [done|].
        rewrite Hscoring. constructor.
      + destruct (existsb _ _); auto.
    - right.
      destruct (max_by_score_first [] first [] rest)
        as (sbefore & safter & Heq & Hlt & Hle); [constructor..|].
      cbn [app] in Heq.
      destruct (max_by_score first rest) as [winner score] eqn:Hmax.
      cbn [fst snd] in *.
      rewrite Heq in Hscoring.
      apply scoring_entries_split in Hscoring
        as (before & keywords & after & Hmap & <- & Hpos & <- & <-).
      exists before, keywords, after. split_and!; [done | done | |].
      + by apply (scoring_entries_bound _ _ _ lt).
      + apply (scoring_entries_bound _ _ _ le); [lia | done]. }
  assert (label ∈ category_labels) as Hlabel.
  { destruct Hcases as [[_ [-> | ->]] | (before & keywords & after & Hmap & _)].
    - apply (bool_decide_unpack _). by vm_compute.
    - apply (bool_decide_unpack _). by vm_compute.
    - apply (category_mapping_labels label keywords).
      rewrite Hmap. apply elem_of_app. right. apply list_elem_of_here. }
  split_and!; [done | by apply category_labels_nonempty | done].
Qed.

End category_detection.

(** ** Stable descending sort *)

Section sort_desc.
Context {A : Type} (geb : A → A → bool).

Lemma insert_desc_perm x l : PyList.insert_desc geb x l ≡ₚ x :: l.
Proof.
  induction l as [|y l IH]; [done|]. cbn [PyList.insert_desc].
  destruct (geb x y); [done|]. rewrite IH. apply Permutation_swap.
Qed.

Lemma sort_desc_perm l : PyList.sort_desc geb l ≡ₚ l.
Proof.
  induction l as [|x l IH]; [done|].
  unfold PyList.sort_desc in *. cbn [foldr].
  by rewrite insert_desc_perm, IH.
Qed.

Hypothesis geb_total : ∀ x y, geb x y = true ∨ geb y x = true.
Hypothesis geb_trans :
  ∀ x y z, geb x y = true → geb y z = true → geb x z = true.

Lemma insert_desc_sorted x l :
  StronglySorted (λ x y, geb x y = true) l →
  StronglySorted (λ x y, geb x y = true) (PyList.insert_desc geb x l).
Proof.
  induction l as [|y l IH]; intros Hsorted; cbn [PyList.insert_desc].
  { repeat constructor. }
  apply StronglySorted_cons in Hsorted as [Hy Hsorted].
  destruct (geb x y) eqn:Hxy.
  - apply StronglySorted_cons. split.
    + constructor; [done|].
      eapply Forall_impl; [exact Hy|]. intros z Hz. by eapply geb_trans.
    + by apply StronglySorted_cons.
  - apply StronglySorted_cons. split; [|by apply IH].
    rewrite insert_desc_perm. constructor; [|done].
    by destruct (geb_total x y) as [Hyes|Hyes]; [congruence|].
Qed.

Lemma sort_desc_sorted l : StronglySorted (λ x y, geb x y = true) (PyList.sort_desc geb l).
Proof.
  induction l as [|x l IH]; [constructor|].
  by apply insert_desc_sorted.
Qed.

End sort_desc.

Lemma top_of_sorted {A} (R : relation A) (k : nat) (l : list A) (x : A) :
  StronglySorted R l →
  x ∈ l →
  x ∈ take k l ∨ (length (take k l) = k ∧ Forall (λ b, R b x) (take k l)).
Proof.
  intros Hsorted Hx. rewrite <- (take_drop k l) in Hsorted, Hx.
  apply elem_of_app in Hx as [Hx|Hx]; [by left|]. right. split.
  - apply length_take_le. destruct (decide (k ≤ length l)) as [|Hlt]; [done|].
    rewrite drop_ge in Hx by lia. by apply elem_of_nil in Hx.
  - apply Forall_forall. intros b Hb.
    by eapply StronglySorted_app_1_elem_of.
Qed.

Lemma StronglySorted_mono {A} (R1 R2 : relation A) (l : list A) :
  (∀ x y, R1 x y → R2 x y) → StronglySorted R1 l → StronglySorted R2 l.
Proof.
  intros Himpl Hsorted. rewrite <- (list_fmap_id l).
  by apply (StronglySorted_fmap id R1 R2).
Qed.

Lemma StronglySorted_take {A} (R : relation A) (k : nat) (l : list A) :
  StronglySorted R l → StronglySorted R (take k l).
Proof.
  intros Hsorted. rewrite <- (take_drop k l) in Hsorted.
  by apply StronglySorted_app_1_l in Hsorted.
Qed.

Lemma submseteq_NoDup {A} (l1 l2 : list A) : l1 ⊆+ l2 → NoDup l2 → NoDup l1.
Proof.
  intros (l & Hperm & Hsub)%submseteq_sublist_r Hnodup.
  rewrite Hperm. by eapply sublist_NoDup.
Qed.

(** Two filters that never keep the same item keep, together, no more
    than the list has. *)
Lemma filter_disjoint_submseteq {A} (P Q : A → bool) (l : list A) :
  (∀ x, P x = true → Q x = true → False) →
  List.filter P l ++ List.filter Q l ⊆+ l.
Proof.
  intros Hdisj. induction l as [|x l IH]; [done|]. cbn [List.filter].
  destruct (P x) eqn:HP, (Q x) eqn:HQ.
  - by destruct (Hdisj x).
  - cbn. by constructor.
  - rewrite <- Permutation_middle. by constructor.
  - by constructor.
Qed.

Lemma slice_to_fmap {A B} (f : A → B) (stop : Z) (l : list A) :
  f <$> PyList.slice_to stop l = PyList.slice_to stop (f <$> l).
Proof.
  unfold PyList.slice_to. rewrite length_fmap.
  destruct (0 <=? stop)%Z; apply fmap_take.
Qed.

Lemma slice_to_take {A} (stop : Z) (l : list A) :
  ∃ n, PyList.slice_to stop l = take n l.
Proof. unfold PyList.slice_to. destruct (0 <=? stop)%Z; eauto. Qed.

Lemma for_each_Forall2 {A B} (body : A → outcome B) l l' :
  for_each body l = Returns l' →
  Forall2 (λ x y, body x = Returns y) l l'.
Proof.
  revert l'. induction l as [|x l IH]; intros l' Heq; cbn in Heq.
  { by injection Heq as <-. }
  destruct (body x) as [y|] eqn:Hx; [|done]. cbn in Heq.
  destruct (for_each body l) as [ys|]; [|done]. cbn in Heq.
  injection Heq as <-. constructor; [done | by apply IH].
Qed.

(** ** Ranking the candidates of an uploaded image *)

Section image_ranking.
Import ImageSearch.

Local Open Scope Q_scope.

Lemma above_threshold_iff similarity :
  above_threshold similarity = true ↔ 0.3 < similarity.
Proof.
  unfold above_threshold. rewrite negb_true_iff.
  rewrite <- not_true_iff_false, Qle_bool_iff. split.
  - apply Qnot_le_lt.
  - apply Qlt_not_le.
Qed.

Lemma find_similar_products_visual db description uploaded limit
    all_products similarities :
  visual_path db uploaded all_products similarities →
  find_similar_products (Some db) description uploaded limit
  = match rank_candidates similarities
            (detect_product_category description) all_products limit with
    | Returns final_products => final_products
    | Raises _ => []
    end.
Proof.
  intros (bytes & -> & Hbytes & Hcursor & Hquery & Hsome & Himages & ->).
  unfold find_similar_products, visual_search.
  rewrite Hcursor, Hquery.
  destruct (String.eqb_spec bytes "") as [|_]; [done|].
  destruct all_products as [|p ps]; [done|].
  rewrite bool_decide_eq_false_2 by done.
  cbn [mbind outcome_bind].
  by destruct (rank_candidates _ _ _ _).
Qed.

Lemma rank_candidates_Returns similarities detected all_products limit out :
  rank_candidates similarities detected all_products limit = Returns out →
  ∃ candidates ranked,
    for_each (annotate similarities detected) all_products
    = Returns candidates
    ∧ sort_by_ranking (List.filter is_category candidates) = Returns ranked
    ∧ out = display detected
            <$> PyList.slice_to limit
                  (take 3 (PyList.sort_desc similarity_geb
                             (List.filter is_visual candidates))
                   ++ take 3 ranked).
Proof.
  unfold rank_candidates. intros Hout.
  destruct (for_each _ all_products) as [candidates|]; [|done].
  cbn [mbind outcome_bind] in Hout.
  destruct (sort_by_ranking _) as [ranked|] eqn:Hranked; [|done].
  cbn [mbind outcome_bind] in Hout. injection Hout as <-.
  by exists candidates, ranked.
Qed.

Lemma sort_by_ranking_Returns l ranked :
  sort_by_ranking l = Returns ranked →
  ranked = PyList.sort_desc ranking_geb l.
Proof.
  unfold sort_by_ranking. destruct (_ && _); [done|]. by intros [= <-].
Qed.

Lemma annotate_Returns similarities detected product a :
  annotate similarities detected product = Returns a →
  item a = product
  ∧ similarity_score a = default 0 (similarities !! product_id product)
  ∧ visual_match a = above_threshold (similarity_score a)
  ∧ is_visual a = visual_match a
  ∧ (is_category a = true →
     visual_match a = false ∧ match_reason a = Some (CategoryMatch detected)).
Proof.
  unfold annotate. destruct (product_type product) as [t|]; [|done].
  cbn [mbind outcome_bind]. intros [= <-]. cbn.
  unfold is_visual, is_category. cbn.
  destruct (above_threshold _); [done|].
  by destruct (_ || _).
Qed.

(** Every row of the visual branch is a candidate, annotated by the loop
    and then prepared for display. *)
Lemma visual_rows_are_candidates similarities detected all_products limit
    out a :
  rank_candidates similarities detected all_products limit = Returns out →
  a ∈ out →
  ∃ product a0,
    product ∈ all_products
    ∧ annotate similarities detected product = Returns a0
    ∧ a = display detected a0.
Proof.
  intros (candidates & ranked & Hloop & Hrank & ->)%rank_candidates_Returns.
  intros (a0 & -> & Hin)%list_elem_of_fmap.
  destruct (slice_to_take limit
              (take 3 (PyList.sort_desc similarity_geb
                         (List.filter is_visual candidates))
               ++ take 3 ranked)) as [n Hn].
  rewrite Hn in Hin. apply (subseteq_take n) in Hin.
  apply sort_by_ranking_Returns in Hrank as ->.
  assert (a0 ∈ candidates) as Hcand.
  { apply elem_of_app in Hin as [Hin|Hin]; apply subseteq_take in Hin.
    - rewrite sort_desc_perm in Hin.
      apply list_elem_of_In, filter_In in Hin as [Hin _].
      by apply list_elem_of_In.
    - rewrite sort_desc_perm in Hin.
      apply list_elem_of_In, filter_In in Hin as [Hin _].
      by apply list_elem_of_In. }
  apply for_each_Forall2 in Hloop.
  apply list_elem_of_lookup in Hcand as [i Hi].
  destruct (Forall2_lookup_r _ _ _ _ _ Hloop Hi) as (product & Hp & Ha0).
  exists product, a0. split_and!; [|done..].
  apply list_elem_of_lookup. by exists i.
Qed.

Lemma demo_visual_path all_products similarities :
  all_products ≠ [] →
  visual_path (demo_catalogue all_products similarities) (Some "png")
    all_products similarities.
Proof.
  intros Hne. exists "png"%string. split_and!; try done.
  destruct all_products as [|p ps]; [done|]. cbn. apply insert_non_empty.
Defined.

(** C3: on the image-similarity path, a candidate is tagged
    [visual_match] exactly when its cosine similarity to the uploaded
    image is strictly greater than 0.3. The similarity of a candidate is
    the one the models computed for its id, 0 when they computed none. A
    similarity of exactly 0.3 is not a match. *)
Theorem C3_visual_match_strictly_above_threshold
    db description uploaded limit all_products similarities :
  visual_path db uploaded all_products similarities →
  (∀ product a,
     product ∈ all_products →
     annotate similarities (detect_product_category description) product
     = Returns a →
     (visual_match a = true
      ↔ 0.3 < default 0 (similarities !! product_id product))
     ∧ (default 0 (similarities !! product_id product) == 0.3 →
        visual_match a = false))
  ∧ (∀ a,
       a ∈ find_similar_products (Some db) description uploaded limit →
       similarity_score a
       = default 0 (similarities !! product_id (item a))
       ∧ (visual_match a = true ↔ 0.3 < similarity_score a)).
Proof.
  intros Hpath. split.
  - intros product a _ Ha.
    apply annotate_Returns in Ha as (_ & Hscore & Hmatch & _).
    rewrite Hmatch, Hscore. split; [apply above_threshold_iff|].
    intros Heq. apply not_true_iff_false.
    rewrite above_threshold_iff, Heq. apply Qlt_irrefl.
  - intros a Ha. rewrite (find_similar_products_visual _ _ _ _ _ _ Hpath) in Ha.
    destruct (rank_candidates _ _ _ _) as [out|] eqn:Hout;
      [|by apply elem_of_nil in Ha].
    destruct (visual_rows_are_candidates _ _ _ _ _ _ Hout Ha)
      as (product & a0 & _ & Ha0 & ->).
    apply annotate_Returns in Ha0 as (Hitem & Hscore & Hmatch & _).
    cbn. rewrite Hitem. split; [done|].
    rewrite Hmatch. apply above_threshold_iff.
Qed.

Lemma C3_witness :
  visual_match
    <$> find_similar_products
          (Some (demo_catalogue threshold_products threshold_similarities))
          "a shirt" (Some "png") default_limit
  = [true; false]
  ∧ ∀ a,
      a ∈ find_similar_products
            (Some (demo_catalogue threshold_products threshold_similarities))
            "a shirt" (Some "png") default_limit →
      similarity_score a
      = default 0 (threshold_similarities !! product_id (item a))
      ∧ (visual_match a = true ↔ 0.3 < similarity_score a).
Proof.
  split; [by vm_compute|].
  apply (C3_visual_match_strictly_above_threshold
           (demo_catalogue threshold_products threshold_similarities)
           "a shirt" (Some "png"%string) default_limit
           threshold_products threshold_similarities).
  by apply demo_visual_path.
Defined.

Lemma similarity_geb_iff x y :
  similarity_geb x y = true ↔ similarity_score y <= similarity_score x.
Proof. apply Qle_bool_iff. Qed.

Lemma ranking_geb_iff x y :
  ranking_geb x y = true ↔ (ranking_key y ≤ ranking_key x)%Z.
Proof. apply Z.leb_le. Qed.

Lemma sorted_by_similarity l :
  StronglySorted (λ a b, similarity_score b <= similarity_score a)
    (PyList.sort_desc similarity_geb l).
Proof.
  apply (StronglySorted_mono (λ x y, similarity_geb x y = true)).
  { intros x y. apply similarity_geb_iff. }
  apply sort_desc_sorted.
  - intros x y. rewrite !similarity_geb_iff.
    destruct (Qlt_le_dec (similarity_score x) (similarity_score y));
      [right; by apply Qlt_le_weak | by left].
  - intros x y z. rewrite !similarity_geb_iff. intros ??.
    by eapply Qle_trans.
Qed.

Lemma sorted_by_ranking l :
  StronglySorted (λ a b, (ranking_key b ≤ ranking_key a)%Z)
    (PyList.sort_desc ranking_geb l).
Proof.
  apply (StronglySorted_mono (λ x y, ranking_geb x y = true)).
  { intros x y. apply ranking_geb_iff. }
  apply sort_desc_sorted.
  - intros x y. rewrite !ranking_geb_iff. lia.
  - intros x y z. rewrite !ranking_geb_iff. lia.
Qed.

Lemma visual_or_category a :
  is_visual a = true → is_category a = true → False.
Proof.
  unfold is_visual, is_category.
  by destruct (match_reason a) as [[]|].
Qed.

(** The loop annotates every product when no category is NULL. *)
Lemma for_each_annotate_total similarities detected all_products :
  Forall (λ p, is_Some (product_type p)) all_products →
  ∃ candidates,
    for_each (annotate similarities detected) all_products
    = Returns candidates.
Proof.
  induction 1 as [|p ps [t Ht] _ [candidates IH]]; [by eexists|].
  cbn [for_each]. rewrite IH.
  destruct (annotate similarities detected p) as [a|e] eqn:Ha.
  - by eexists.
  - unfold annotate in Ha. by rewrite Ht in Ha.
Qed.

Lemma candidates_items similarities detected all_products candidates :
  for_each (annotate similarities detected) all_products
  = Returns candidates →
  item <$> candidates = all_products.
Proof.
  intros Hloop%for_each_Forall2.
  induction Hloop as [|p a ps cs Ha _ IH]; [done|].
  apply annotate_Returns in Ha as [Hitem _]. cbn. by rewrite Hitem, IH.
Qed.

Lemma sort_by_ranking_total l :
  Forall (λ a, is_Some (product_ranking (item a))) l →
  sort_by_ranking l = Returns (PyList.sort_desc ranking_geb l).
Proof.
  intros Hall. unfold sort_by_ranking.
  replace (existsb _ l) with false; [by rewrite andb_false_r|].
  symmetry. apply not_true_iff_false. rewrite existsb_exists.
  intros (a & Hin & Hnull). apply list_elem_of_In in Hin.
  rewrite Forall_forall in Hall. destruct (Hall a Hin) as [r Hr].
  by rewrite Hr in Hnull.
Qed.

Lemma rank_candidates_total similarities detected all_products limit :
  Forall (λ p, is_Some (product_type p) ∧ is_Some (product_ranking p))
         all_products →
  ∃ out,
    rank_candidates similarities detected all_products limit = Returns out.
Proof.
  intros Hwf.
  destruct (for_each_annotate_total similarities detected all_products)
    as [candidates Hloop].
  { eapply Forall_impl; [exact Hwf|]. by intros p [? _]. }
  unfold rank_candidates. rewrite Hloop. cbn [mbind outcome_bind].
  rewrite sort_by_ranking_total; [by eexists|].
  apply Forall_forall. intros a Ha.
  apply list_elem_of_In, filter_In in Ha as [Ha _].
  apply list_elem_of_In in Ha.
  assert (item a ∈ all_products) as Hitem.
  { rewrite <- (candidates_items _ _ _ _ Hloop).
    by apply list_elem_of_fmap_2. }
  rewrite Forall_forall in Hwf. by destruct (Hwf _ Hitem).
Qed.

Lemma candidate_of_product similarities detected all_products candidates
    p a :
  for_each (annotate similarities detected) all_products
  = Returns candidates →
  p ∈ all_products →
  annotate similarities detected p = Returns a →
  a ∈ candidates.
Proof.
  intros Hloop%for_each_Forall2 [i Hi]%list_elem_of_lookup Ha.
  destruct (Forall2_lookup_l _ _ _ _ _ Hloop Hi) as (a' & Ha' & Heq).
  rewrite Ha in Heq. injection Heq as <-.
  apply list_elem_of_lookup. by exists i.
Qed.

Lemma product_of_candidate similarities detected all_products candidates a :
  for_each (annotate similarities detected) all_products
  = Returns candidates →
  a ∈ candidates →
  ∃ p, p ∈ all_products ∧ annotate similarities detected p = Returns a.
Proof.
  intros Hloop%for_each_Forall2 [i Hi]%list_elem_of_lookup.
  destruct (Forall2_lookup_r _ _ _ _ _ Hloop Hi) as (p & Hp & Ha).
  exists p. split; [|done]. apply list_elem_of_lookup. by exists i.
Qed.

Lemma elem_of_filter_bool {A} (P : A → bool) (l : list A) (x : A) :
  x ∈ List.filter P l ↔ x ∈ l ∧ P x = true.
Proof. by rewrite !list_elem_of_In, filter_In. Qed.

(** What the loop files under the category matches: the candidates that
    are not visual matches and whose category contains the detected
    one or is contained in it. *)
Lemma annotate_category similarities detected product a :
  annotate similarities detected product = Returns a →
  ∃ t, product_type product = Some t
       ∧ (is_category a = true
          ↔ (similarity_score a <= 0.3
             ∧ PyStr.contains detected (PyStr.lower t)
               || PyStr.contains (PyStr.lower t) detected = true)%Q).
Proof.
  unfold annotate. destruct (product_type product) as [t|]; [|done].
  cbn [mbind outcome_bind]. intros [= <-]. exists t. split; [done|].
  unfold is_category. cbn.
  destruct (above_threshold _) eqn:Habove.
  - apply above_threshold_iff in Habove. split; [done|].
    intros [Hle _]. by apply Qlt_not_le in Habove.
  - assert (default 0 (similarities !! product_id product) <= 0.3) as Hle.
    { apply Qnot_lt_le. intros Hlt%above_threshold_iff. congruence. }
    destruct (_ || _); [by split | split; [done | by intros [_ ?]]].
Qed.

(** C5 as the code has it. On the image path the visual matches come
    first, by similarity descending and at most three; then come the
    candidates that are not visual matches and whose category matches the
    detected one (the lower-cased category contains the detected label
    or is contained in it), by [product_ranking] descending and at most
    three; the concatenation is cut by the slice [[:limit]], which cuts
    nothing at the default limit of 6. The code ranks the second group
    by ranking, never by composite score, and removes no duplicates: ids
    are distinct in the output when they are distinct among the
    candidate rows. When no candidate has a NULL category or ranking,
    the rows listed are the best of their group, and a candidate that is
    neither a visual match nor of a matching category is in no group. *)
Theorem C5_visual_first_then_category_by_ranking
    db description uploaded limit all_products similarities :
  visual_path db uploaded all_products similarities →
  let detected := detect_product_category description in
  let output := find_similar_products (Some db) description uploaded limit in
  ∃ visual others,
    output = PyList.slice_to limit (visual ++ others)
    ∧ (length visual ≤ 3 ∧ length others ≤ 3)%nat
    ∧ Forall (λ a, visual_match a = true ∧ 0.3 < similarity_score a) visual
    ∧ Forall (λ a, visual_match a = false
                   ∧ match_reason a = Some (CategoryMatch detected)
                   ∧ similarity_score a <= 0.3
                   ∧ ∃ t, product_type (item a) = Some t
                          ∧ PyStr.contains detected (PyStr.lower t)
                            || PyStr.contains (PyStr.lower t) detected
                            = true) others
    ∧ StronglySorted (λ a b, similarity_score b <= similarity_score a) visual
    ∧ StronglySorted (λ a b, (ranking_key b ≤ ranking_key a)%Z) others
    ∧ ((0 ≤ limit)%Z → (length output ≤ Z.to_nat limit)%nat)
    ∧ ((default_limit ≤ limit)%Z → output = visual ++ others)
    ∧ (NoDup (product_id <$> all_products) →
       NoDup (product_id ∘ item <$> output))
    ∧ (Forall (λ p, is_Some (product_type p) ∧ is_Some (product_ranking p))
              all_products →
       ∀ p a,
         p ∈ all_products →
         annotate similarities detected p = Returns a →
         (visual_match a = true →
          display detected a ∈ visual
          ∨ (length visual = 3%nat
             ∧ Forall (λ b, similarity_score a <= similarity_score b)
                      visual))
         ∧ (similarity_score a <= 0.3 →
            (∃ t, product_type p = Some t
                  ∧ PyStr.contains detected (PyStr.lower t)
                    || PyStr.contains (PyStr.lower t) detected = true) →
            display detected a ∈ others
            ∨ (length others = 3%nat
               ∧ Forall (λ b, (ranking_key a ≤ ranking_key b)%Z) others))
         ∧ (similarity_score a <= 0.3 →
            (∀ t, product_type p = Some t →
               PyStr.contains detected (PyStr.lower t)
               || PyStr.contains (PyStr.lower t) detected = false) →
            match_reason a = None)).
Proof.
  intros Hpath detected output. unfold output.
  rewrite (find_similar_products_visual _ _ _ _ _ _ Hpath).
  fold detected.
  destruct (rank_candidates similarities detected all_products limit)
    as [out|e] eqn:Hout.
  2: { exists [], []. split_and!.
       - unfold PyList.slice_to. cbn [app].
         destruct (0 <=? limit)%Z; by rewrite take_nil.
       - cbn; lia.
       - cbn; lia.
       - constructor.
       - constructor.
       - constructor.
       - constructor.
       - intros _. cbn; lia.
       - done.
       - intros _. constructor.
       - intros Hwf.
         destruct (rank_candidates_total similarities detected all_products
                     limit Hwf) as [out Hout'].
         congruence. }
  destruct (rank_candidates_Returns _ _ _ _ _ Hout)
    as (candidates & ranked & Hloop & Hrank & ->).
  apply sort_by_ranking_Returns in Hrank as ->.
  set (matched := PyList.sort_desc similarity_geb
                    (List.filter is_visual candidates)).
  set (category := PyList.sort_desc ranking_geb
                     (List.filter is_category candidates)).
  exists (display detected <$> take 3 matched),
         (display detected <$> take 3 category).
  split_and!.
  - by rewrite slice_to_fmap, fmap_app.
  - rewrite length_fmap, length_take. lia.
  - rewrite length_fmap, length_take. lia.
  - apply Forall_fmap, Forall_forall. intros a Ha.
    apply subseteq_take in Ha. unfold matched in Ha.
    rewrite sort_desc_perm in Ha.
    apply elem_of_filter_bool in Ha as [Ha Hvis].
    destruct (product_of_candidate _ _ _ _ _ Hloop Ha) as (p & _ & Hp).
    apply annotate_Returns in Hp as (_ & _ & Hmatch & Heq & _).
    cbn. rewrite <- Heq. split; [done|].
    apply above_threshold_iff. congruence.
  - apply Forall_fmap, Forall_forall. intros a Ha.
    apply subseteq_take in Ha. unfold category in Ha.
    rewrite sort_desc_perm in Ha.
    apply elem_of_filter_bool in Ha as [Ha Hcat].
    destruct (product_of_candidate _ _ _ _ _ Hloop Ha) as (p & _ & Hp).
    destruct (annotate_category _ _ _ _ Hp) as (t & Ht & Hiff).
    apply annotate_Returns in Hp as (Hitem & _ & _ & _ & Hc).
    destruct (Hc Hcat) as [Hvisual Hreason].
    destruct (proj1 Hiff Hcat) as [Hle Htest].
    cbn. split_and!; [done | done | done |].
    exists t. by rewrite Hitem, Ht.
  - apply (StronglySorted_fmap _
             (λ a b, similarity_score b <= similarity_score a)); [done|].
    apply StronglySorted_take, sorted_by_similarity.
  - apply (StronglySorted_fmap _
             (λ a b, (ranking_key b ≤ ranking_key a)%Z)); [done|].
    apply StronglySorted_take, sorted_by_ranking.
  - intros Hlimit. rewrite length_fmap. unfold PyList.slice_to.
    rewrite (proj2 (Z.leb_le 0 limit) Hlimit), length_take. lia.
  - unfold default_limit. intros Hlimit.
    rewrite <- fmap_app. f_equal. unfold PyList.slice_to.
    rewrite (proj2 (Z.leb_le 0 limit)) by lia.
    apply take_ge. rewrite length_app, !length_take. lia.
  - intros Hnodup. rewrite <- list_fmap_compose.
    destruct (slice_to_take limit (take 3 matched ++ take 3 category))
      as [n ->].
    apply (submseteq_NoDup _ (product_id <$> all_products)); [|done].
    rewrite <- (candidates_items _ _ _ _ Hloop), <- list_fmap_compose.
    apply (fmap_submseteq (product_id ∘ item)).
    etrans; [apply sublist_submseteq, sublist_take|].
    etrans; [|apply (filter_disjoint_submseteq is_visual is_category),
                visual_or_category].
    apply submseteq_app.
    + etrans; [apply sublist_submseteq, sublist_take|].
      apply Permutation_submseteq, sort_desc_perm.
    + etrans; [apply sublist_submseteq, sublist_take|].
      apply Permutation_submseteq, sort_desc_perm.
  - intros _ p a Hp Ha.
    pose proof (candidate_of_product _ _ _ _ _ _ Hloop Hp Ha) as Hcand.
    pose proof (annotate_category _ _ _ _ Ha) as Hcategory.
    pose proof Ha as Hannotated.
    apply annotate_Returns in Ha as (_ & Hscore & Hthreshold & Hvis & _).
    split_and!.
    + intros Hmatch.
      assert (a ∈ matched) as Hin.
      { unfold matched. rewrite sort_desc_perm.
        apply elem_of_filter_bool. split; [done | congruence]. }
      destruct (top_of_sorted _ 3 _ _ (sorted_by_similarity _) Hin)
        as [Htop | [Hlen Hall]].
      * left. by apply list_elem_of_fmap_2.
      * right. rewrite length_fmap. split; [done|].
        by apply Forall_fmap.
    + intros Hle (t & Ht & Htest).
      assert (a ∈ category) as Hin.
      { unfold category. rewrite sort_desc_perm.
        apply elem_of_filter_bool. split; [done|].
        destruct Hcategory as (t' & Ht' & Hiff).
        apply Hiff. split; [done|]. congruence. }
      destruct (top_of_sorted _ 3 _ _ (sorted_by_ranking _) Hin)
        as [Htop | [Hlen Hall]].
      * left. by apply list_elem_of_fmap_2.
      * right. rewrite length_fmap. split; [done|].
        by apply Forall_fmap.
    + intros Hle Hnone.
      destruct Hcategory as (t & Ht & Hiff).
      destruct (match_reason a) as [[similarity | detected' | detected']|]
        eqn:Hreason; [| | |done].
      * assert (similarity_score a <= 0.3 → False) as Habsurd; [|by destruct Habsurd].
        unfold is_visual in Hvis. rewrite Hreason in Hvis.
        intros _. apply Qle_not_lt in Hle. apply Hle.
        apply above_threshold_iff. congruence.
      * assert (is_category a = true) as Hcat
          by (unfold is_category; by rewrite Hreason).
        apply Hiff in Hcat as [_ Htest].
        rewrite (Hnone t Ht) in Htest. done.
      * exfalso. revert Hreason. clear -Hannotated.
        unfold annotate in Hannotated.
        destruct (product_type p); [|done].
        cbn [mbind outcome_bind] in Hannotated. injection Hannotated as <-.
        cbn. by repeat case_match.
Qed.

Lemma C5_witness :
  let output :=
    find_similar_products
      (Some (demo_catalogue crowded_products crowded_similarities))
      "a shirt" (Some "png") default_limit in
  product_id ∘ item <$> output = [1; 3; 2; 6; 8; 5]%Z
  ∧ visual_match <$> output = [true; true; true; false; false; false]
  ∧ product_type ∘ item <$> output = replicate 6 (Some "shirt")
  ∧ ∃ visual others,
      output = visual ++ others
      ∧ (length visual ≤ 3 ∧ length others ≤ 3)%nat
      ∧ Forall (λ a, visual_match a = true ∧ 0.3 < similarity_score a) visual
      ∧ Forall (λ a, visual_match a = false
                     ∧ match_reason a = Some (CategoryMatch "shirt")) others
      ∧ StronglySorted (λ a b, similarity_score b <= similarity_score a)
          visual
      ∧ StronglySorted (λ a b, (ranking_key b ≤ ranking_key a)%Z) others.
Proof.
  intros output. split; [by vm_compute|]. split; [by vm_compute|].
  split; [by vm_compute|].
  destruct (C5_visual_first_then_category_by_ranking
              (demo_catalogue crowded_products crowded_similarities)
              "a shirt" (Some "png"%string) default_limit
              crowded_products crowded_similarities)
    as (visual & others & _ & Hlen & Hvisual & Hothers & Hsimilarity
        & Hranking & _ & Hall & _).
  - by apply demo_visual_path.
  - exists visual, others. split_and!; [by apply Hall | apply Hlen.. | done
      | | done | done].
    eapply Forall_impl; [exact Hothers|].
    intros a (Hmatch & Hreason & _). by split.
Defined.

Lemma first_seen_iteration_order : iteration_order first_seen_order.
Proof.
  split; [apply NoDup_remove_dups|].
  intros keyword. apply elem_of_remove_dups.
Qed.

(** Two shirts stay below the visual threshold for the description
    "red cotton shirt". The code lists product 1 before product 2, by
    ranking 5 over 1, although the composite score of product 1 is the
    lower one. And when the candidate rows repeat product 7, the output
    lists id 7 twice. *)
Lemma C5_counterexample :
  let composite :=
    calculate_advanced_similarity silent_embedder first_seen_order
      "red cotton shirt" in
  let ranked :=
    find_similar_products
      (Some (demo_catalogue ranked_products ranked_similarities))
      "red cotton shirt" (Some "png") default_limit in
  let twins :=
    find_similar_products
      (Some (demo_catalogue twin_products twin_similarities))
      "blue shirt" (Some "png") default_limit in
  item <$> ranked = ranked_products
  ∧ visual_match <$> ranked = [false; false]
  ∧ composite (shirt 1 5 "Plain tee")
    < composite (shirt 2 1 "Red cotton shirt")
  ∧ product_id ∘ item <$> twins = [7%Z; 7%Z].
Proof. by vm_compute. Qed.

End image_ranking.

(** ** Knowledge index *)

Section knowledge_queries.
Import Knowledge.

Variable embed : string → outcome (list Q).
Variable coll_query : gmap string entry → list Q → Z → outcome query_result.

(** A query that lists no document gives no result. *)
Lemma search_knowledge_no_documents c query k q results :
  embed query = Returns q →
  coll_query c q k = Returns results →
  documents results = None
  ∨ documents results = Some []
  ∨ (∃ rows, documents results = Some ([] :: rows)) →
  search_knowledge embed coll_query (Some c) query k = [].
Proof.
  intros Hembed Hquery Hdocs. unfold search_knowledge.
  rewrite Hembed. cbn [mbind outcome_bind]. rewrite Hquery.
  cbn [mbind outcome_bind].
  destruct Hdocs as [-> | [-> | [rows ->]]]; done.
Qed.

(** C6: the knowledge query gives the empty sequence, and raises
    nothing, when the vector collection is unavailable, when it is
    empty, and when the embedding or the lookup fails. *)
Theorem C6_search_knowledge_degrades_to_empty vector_db query k :
  query_sound coll_query →
  (vector_db = None →
   search_knowledge embed coll_query vector_db query k = [])
  ∧ (vector_db = Some ∅ →
     search_knowledge embed coll_query vector_db query k = [])
  ∧ (∀ c e,
       vector_db = Some c → embed query = Raises e →
       search_knowledge embed coll_query vector_db query k = [])
  ∧ (∀ c q e,
       vector_db = Some c → embed query = Returns q →
       coll_query c q k = Raises e →
       search_knowledge embed coll_query vector_db query k = []).
Proof.
  intros Hsound. split_and!.
  - by intros ->.
  - intros ->.
    destruct (embed query) as [q|e] eqn:Hembed.
    2: { unfold search_knowledge. by rewrite Hembed. }
    destruct (coll_query ∅ q k) as [results|e] eqn:Hquery.
    2: { unfold search_knowledge. rewrite Hembed.
         cbn [mbind outcome_bind]. by rewrite Hquery. }
    apply (search_knowledge_no_documents _ _ _ q results); [done..|].
    destruct (documents results) as [[|row rows]|] eqn:Hdocs; auto.
    right. right. exists rows. f_equal. f_equal.
    destruct row as [|doc row]; [done|].
    destruct (Hsound ∅ q k results (doc :: row) rows doc Hquery Hdocs)
      as (id & e & Hlookup & _); [apply list_elem_of_here|].
    by rewrite lookup_empty in Hlookup.
  - intros c e -> Hembed. unfold search_knowledge. by rewrite Hembed.
  - intros c q e -> Hembed Hquery. unfold search_knowledge.
    rewrite Hembed. cbn [mbind outcome_bind]. by rewrite Hquery.
Qed.

End knowledge_queries.

Lemma scan_query_sound : Knowledge.query_sound Knowledge.scan_query.
Proof.
  intros c q k results row rows doc [= <-] [= <- <-] Hdoc.
  apply list_elem_of_fmap in Hdoc as ([id e] & -> & Hin).
  apply subseteq_take, elem_of_map_to_list in Hin. by exists id, e.
Defined.

Lemma C6_witness :
  Knowledge.search_knowledge Knowledge.length_embed Knowledge.scan_query
    (Some ∅) "return policy" 5 = [].
Proof.
  apply (C6_search_knowledge_degrades_to_empty
           Knowledge.length_embed Knowledge.scan_query
           (Some ∅) "return policy" 5 scan_query_sound).
  reflexivity.
Defined.

(** ** Rebuilding the knowledge index *)

Section knowledge_rebuild.
Import Knowledge.

Variable semantics : store_semantics.
Variable embed : string → outcome (list Q).

(** Replacing entries: the batch wins over the collection. *)
Lemma overwrite_union (batch : list (string * entry)) :
  ∃ m : gmap string entry,
    ∀ c, foldl (λ c doc, <[doc.1 := doc.2]> c) c batch = m ∪ c.
Proof.
  induction batch as [|doc batch [m IH]].
  { exists ∅. intros c. by rewrite (left_id_L ∅ (∪)). }
  exists (m ∪ {[doc.1 := doc.2]}). intros c. cbn [foldl].
  by rewrite IH, insert_union_singleton_l, (assoc_L (∪)).
Qed.

(** Keeping entries: the collection wins over the batch. *)
Lemma skip_union (batch : list (string * entry)) :
  ∃ m : gmap string entry,
    ∀ c, foldl (λ c doc,
                  match c !! doc.1 with
                  | Some _ => c
                  | None => <[doc.1 := doc.2]> c
                  end) c batch
         = c ∪ m.
Proof.
  induction batch as [|doc batch [m IH]].
  { exists ∅. intros c. by rewrite (right_id_L ∅ (∪)). }
  exists ({[doc.1 := doc.2]} ∪ m). intros c. cbn [foldl].
  rewrite IH, (assoc_L (∪)). f_equal.
  destruct (c !! doc.1) as [e|] eqn:Hc.
  - apply map_eq. intros j. rewrite lookup_union.
    destruct (decide (j = doc.1)) as [->|Hne].
    + by rewrite Hc, lookup_singleton_eq.
    + rewrite lookup_singleton_ne by done. by destruct (c !! j).
  - by apply insert_union_singleton_r.
Qed.

Lemma inserted_ids (batch : list (string * entry)) (c : gmap string entry)
    doc :
  (doc ∈ batch ∨ doc.1 ∈ dom c) →
  doc.1 ∈ dom (foldl (λ c doc, <[doc.1 := doc.2]> c) c batch).
Proof.
  revert c. induction batch as [|d batch IH]; intros c [Hin|Hin].
  - by apply elem_of_nil in Hin.
  - done.
  - cbn [foldl]. apply IH. apply elem_of_cons in Hin as [->|Hin]; [|by left].
    right. rewrite dom_insert. set_solver.
  - cbn [foldl]. apply IH. right. rewrite dom_insert. set_solver.
Qed.

(** Under the policy that rejects existing ids, what [add] accepted
    stays in the collection through the later batches. *)
Lemma add_batches_keeps_ids batches (c : gmap string entry) id :
  on_existing semantics = Reject →
  id ∈ dom c →
  id ∈ dom (add_batches semantics batches c).1.
Proof.
  intros Hpolicy. revert c.
  induction batches as [|batch batches IH]; intros c Hid; [done|].
  cbn [add_batches]. unfold coll_add. rewrite Hpolicy.
  destruct (_ && _); [done|].
  destruct (_ && _); [done|].
  destruct (existsb _ batch); [done|].
  apply IH.
  change id with ((id, {| document := ""; embedding := [];
                          meta := PageMeta "" |}).1).
  apply inserted_ids. by right.
Qed.

Lemma add_batches_overwrite batches :
  on_existing semantics = Overwrite →
  ∃ m : gmap string entry,
    ∀ c, (add_batches semantics batches c).1 = m ∪ c.
Proof.
  intros Hpolicy. induction batches as [|batch batches [m IH]].
  { exists ∅. intros c. by rewrite (left_id_L ∅ (∪)). }
  cbn [add_batches]. unfold coll_add. rewrite Hpolicy.
  destruct (_ && _).
  { exists ∅. intros c. by rewrite (left_id_L ∅ (∪)). }
  destruct (_ && _).
  { exists ∅. intros c. by rewrite (left_id_L ∅ (∪)). }
  destruct (overwrite_union batch) as [mb Hmb].
  exists (m ∪ mb). intros c. by rewrite IH, Hmb, (assoc_L (∪)).
Qed.

Lemma add_batches_skip batches :
  on_existing semantics = Skip →
  ∃ m : gmap string entry,
    ∀ c, (add_batches semantics batches c).1 = c ∪ m.
Proof.
  intros Hpolicy. induction batches as [|batch batches [m IH]].
  { exists ∅. intros c. by rewrite (right_id_L ∅ (∪)). }
  cbn [add_batches]. unfold coll_add. rewrite Hpolicy.
  destruct (_ && _).
  { exists ∅. intros c. by rewrite (right_id_L ∅ (∪)). }
  destruct (_ && _).
  { exists ∅. intros c. by rewrite (right_id_L ∅ (∪)). }
  destruct (skip_union batch) as [mb Hmb].
  exists (mb ∪ m). intros c. by rewrite IH, Hmb, (assoc_L (∪)).
Qed.

(** Adding the same batches to the collection they produced changes
    nothing, whatever the collection does with ids it already holds. *)
Lemma add_batches_idempotent batches (c : gmap string entry) :
  Forall (λ batch, batch ≠ []) batches →
  (add_batches semantics batches (add_batches semantics batches c).1).1
  = (add_batches semantics batches c).1.
Proof.
  intros Hfull. destruct (on_existing semantics) eqn:Hpolicy.
  - destruct (add_batches_overwrite batches Hpolicy) as [m Hm].
    by rewrite !Hm, (assoc_L (∪)), (idemp_L (∪)).
  - destruct (add_batches_skip batches Hpolicy) as [m Hm].
    by rewrite !Hm, <- (assoc_L (∪)), (idemp_L (∪)).
  - destruct batches as [|batch batches]; [done|].
    apply Forall_cons in Hfull as [Hbatch _].
    cbn [add_batches].
    destruct (coll_add semantics batch c) as [c1|e] eqn:Hadd.
    2: { cbn [fst add_batches]. by rewrite Hadd. }
    set (final := (add_batches semantics batches c1).1).
    assert (∃ e, coll_add semantics batch final = Raises e) as [e Hagain].
    { unfold coll_add in *. rewrite Hpolicy in *.
      destruct (_ && _); [by eexists|].
      destruct (_ && _); [by eexists|].
      destruct (existsb _ batch) eqn:Hknown in Hadd; [done|].
      injection Hadd as <-.
      destruct batch as [|doc batch]; [done|].
      replace (existsb _ (doc :: batch)) with true; [by eexists|].
      symmetry. cbn [existsb]. apply orb_true_intro. left.
      apply bool_decide_eq_true, elem_of_dom.
      apply add_batches_keeps_ids; [done|].
      apply inserted_ids. left. apply list_elem_of_here. }
    by rewrite Hagain.
Qed.

Lemma batches_go_nonempty {A} fuel size (l : list A) :
  0 < size → Forall (λ batch, batch ≠ []) (PyList.batches_go fuel size l).
Proof.
  intros Hsize. revert l.
  induction fuel as [|fuel IH]; intros l; [constructor|].
  destruct l as [|x l]; [constructor|]. cbn [PyList.batches_go].
  constructor; [|apply IH]. destruct size; [lia | done].
Qed.

(** The slices cover the list: the fuel of [batches] is enough. *)
Lemma batches_cover {A} size (l : list A) :
  0 < size → concat (PyList.batches size l) = l.
Proof.
  intros Hsize. unfold PyList.batches.
  assert (∀ fuel (k : list A),
            length k ≤ fuel → concat (PyList.batches_go fuel size k) = k)
    as Hgo; [|by apply Hgo].
  induction fuel as [|fuel IH]; intros k Hlen.
  { by destruct k; [|cbn in Hlen; lia]. }
  destruct k as [|x k]; [done|]. cbn [PyList.batches_go concat].
  rewrite IH; [apply take_drop|].
  rewrite length_drop. cbn [length] in *. lia.
Qed.

Lemma for_each_ids {A} (body : A → outcome (string * entry))
    (id_of : A → string) (l : list A) docs :
  for_each body l = Returns docs →
  (∀ x doc, body x = Returns doc → doc.1 = id_of x) →
  docs.*1 = id_of <$> l.
Proof.
  intros Hloop%for_each_Forall2 Hid.
  induction Hloop as [|x doc l docs Hx _ IH]; [done|].
  cbn. by rewrite (Hid _ _ Hx), IH.
Qed.

Lemma build_state_Some (c : gmap string entry) content :
  (build_knowledge_embeddings semantics embed (Some c) content).1
  = Some
      match render_documents embed content with
      | Returns docs =>
          (add_batches semantics (PyList.batches 100 docs)
             match coll_delete semantics c with
             | Returns c' => c'
             | Raises _ => c
             end).1
      | Raises _ =>
          match coll_delete semantics c with
          | Returns c' => c'
          | Raises _ => c
          end
      end.
Proof.
  unfold build_knowledge_embeddings.
  destruct (render_documents embed content) as [docs|e]; [|done].
  by destruct (add_batches _ _ _).
Qed.

Lemma rendered_ids content docs :
  render_documents embed content = Returns docs →
  docs.*1
  = (page_id ∘ fst <$> pages)
    ++ (feature_id <$> seq 0 (length features))
    ++ (policy_id ∘ fst <$> policies)
    ++ (product_doc_id ∘ product_id <$> products content)
    ++ (category_id <$> categories content).
Proof.
  unfold render_documents. intros Hrender.
  destruct (for_each (page_doc embed) pages) as [page_docs|] eqn:Hpages;
    [|done].
  cbn [mbind outcome_bind] in Hrender.
  destruct (for_each (feature_doc embed) _) as [feature_docs|] eqn:Hfeatures;
    [|done].
  cbn [mbind outcome_bind] in Hrender.
  destruct (for_each (policy_doc embed) policies) as [policy_docs|]
    eqn:Hpolicies; [|done].
  cbn [mbind outcome_bind] in Hrender.
  destruct (for_each (product_doc embed) _) as [product_docs|] eqn:Hproducts;
    [|done].
  cbn [mbind outcome_bind] in Hrender.
  destruct (for_each (category_doc embed) _) as [category_docs|]
    eqn:Hcategories; [|done].
  cbn [mbind outcome_bind] in Hrender. injection Hrender as <-.
  rewrite !fmap_app.
  rewrite (for_each_ids _ (page_id ∘ fst) _ _ Hpages).
  2: { intros page doc. unfold page_doc.
       destruct (embed _); [|done]. by intros [= <-]. }
  rewrite (for_each_ids _ (feature_id ∘ fst) _ _ Hfeatures).
  2: { intros feature doc. unfold feature_doc.
       destruct (embed _); [|done]. by intros [= <-]. }
  rewrite (for_each_ids _ (policy_id ∘ fst) _ _ Hpolicies).
  2: { intros policy doc. unfold policy_doc.
       destruct (embed _); [|done]. by intros [= <-]. }
  rewrite (for_each_ids _ (product_doc_id ∘ product_id) _ _ Hproducts).
  2: { intros product doc. unfold product_doc.
       destruct (embed _); [|done]. cbn [mbind outcome_bind].
       destruct (product_price product); [|done]. by intros [= <-]. }
  rewrite (for_each_ids _ category_id _ _ Hcategories).
  2: { intros category doc. unfold category_doc.
       destruct (embed _); [|done]. by intros [= <-]. }
  replace (feature_id ∘ fst <$> PyList.enumerate features)
    with (feature_id <$> seq 0 (length features)); [done|].
  unfold PyList.enumerate. rewrite list_fmap_compose.
  rewrite fst_zip; [done|]. by rewrite length_seq.
Qed.

Variable coll_query : gmap string entry → list Q → Z → outcome query_result.

(** C8: rebuilding twice from the same sources leaves the collection
    the first rebuild left, so every query is answered as after the
    first rebuild, with the same documents in the same order. This holds
    whether the collection clears on the empty filter or refuses it, and
    whether it replaces, keeps or rejects ids it already holds. And the
    id of a document is computed from the key of its entity alone: the
    page path, the position of the feature, the policy type, the product
    id, the category name. *)
Theorem C8_rebuild_is_idempotent vector_db content query k :
  let once :=
    (build_knowledge_embeddings semantics embed vector_db content).1 in
  let twice :=
    (build_knowledge_embeddings semantics embed once content).1 in
  twice = once
  ∧ search_knowledge embed coll_query twice query k
    = search_knowledge embed coll_query once query k
  ∧ ∀ docs,
      render_documents embed content = Returns docs →
      docs.*1
      = (page_id ∘ fst <$> pages)
        ++ (feature_id <$> seq 0 (length features))
        ++ (policy_id ∘ fst <$> policies)
        ++ (product_doc_id ∘ product_id <$> products content)
        ++ (category_id <$> categories content).
Proof.
  intros once twice.
  assert (twice = once) as Hsame.
  { unfold twice, once. destruct vector_db as [c|]; [|done].
    rewrite (build_state_Some c), build_state_Some. f_equal.
    unfold coll_delete.
    destruct (render_documents embed content) as [docs|e];
      destruct (delete_all_clears semantics); try done.
    apply add_batches_idempotent, batches_go_nonempty. lia. }
  split_and!; [done | by rewrite Hsame | apply rendered_ids].
Qed.

End knowledge_rebuild.

Lemma C8_witness :
  let once :=
    (Knowledge.build_knowledge_embeddings Knowledge.keep_existing
       Knowledge.length_embed (Some ∅) Knowledge.snapshot).1 in
  (Knowledge.build_knowledge_embeddings Knowledge.keep_existing
     Knowledge.length_embed once Knowledge.snapshot).1 = once.
Proof.
  intros once.
  apply (C8_rebuild_is_idempotent Knowledge.keep_existing
           Knowledge.length_embed Knowledge.scan_query (Some ∅)
           Knowledge.snapshot "return policy" 5).
Defined.

(** * Further properties of the code *)

(** ** Loops that can raise *)

Lemma for_each_Raises {A B} (body : A → outcome B) (l : list A) x e :
  x ∈ l → body x = Raises e → ∃ e', for_each body l = Raises e'.
Proof.
  intros Hx Hraise. induction l as [|y l IH]; [by apply elem_of_nil in Hx|].
  cbn [for_each]. apply elem_of_cons in Hx as [<- | Hx].
  - rewrite Hraise. by eexists.
  - destruct (body y) as [b|e0]; [|by eexists]. cbn [mbind outcome_bind].
    destruct (IH Hx) as [e' ->]. by eexists.
Qed.

Lemma for_each_total {A B} (body : A → outcome B) (l : list A) :
  (∀ x, x ∈ l → ∃ y, body x = Returns y) →
  ∃ ys, for_each body l = Returns ys.
Proof.
  induction l as [|x l IH]; intros Hbody; [by eexists|].
  cbn [for_each]. destruct (Hbody x) as [y ->]; [left|].
  destruct IH as [ys ->]; [|by eexists].
  intros z Hz. apply Hbody. by right.
Qed.

Lemma for_each_Raises_only {A B} (body : A → outcome B) (l : list A) e0 e :
  (∀ x e, body x = Raises e → e = e0) →
  for_each body l = Raises e → e = e0.
Proof.
  intros Honly. induction l as [|x l IH]; [done|]. cbn [for_each].
  destruct (body x) as [y|e1] eqn:Hx; cbn [mbind outcome_bind].
  - destruct (for_each body l) as [ys|e2]; cbn [mbind outcome_bind];
      [done|]. intros [= <-]. by apply IH.
  - intros [= <-]. by eapply Honly.
Qed.

(** ** Substrings *)

Lemma append_cons c (a b : string) : String c a +:+ b = String c (a +:+ b).
Proof. reflexivity. Qed.

Lemma append_nil_r (a : string) : a +:+ "" = a.
Proof. induction a as [|c a IH]; [done|]. by rewrite append_cons, IH. Qed.

Lemma append_assoc (a b c : string) : (a +:+ b) +:+ c = a +:+ (b +:+ c).
Proof.
  induction a as [|x a IH]; [done|]. by rewrite !append_cons, IH.
Qed.

Lemma rev_app_append (cur acc : string) :
  String.rev_app cur acc = String.rev cur +:+ acc.
Proof.
  unfold String.rev. revert acc.
  induction cur as [|c cur IH]; intros acc; [done|]. cbn [String.rev_app].
  rewrite (IH (String c acc)), (IH (String c "")).
  by rewrite append_assoc.
Qed.

Lemma prefix_iff (needle hay : string) :
  String.prefix needle hay = true ↔ ∃ rest, hay = needle +:+ rest.
Proof.
  revert hay. induction needle as [|c needle IH]; intros hay.
  - destruct hay; (split; [by eexists|done]).
  - destruct hay as [|c' hay]; cbn [String.prefix].
    + split; [done|]. by intros [rest ?].
    + destruct (ascii_dec c c') as [->|Hne].
      * rewrite IH. split; intros [rest Hrest]; exists rest.
        -- by rewrite append_cons, <- Hrest.
        -- rewrite append_cons in Hrest. by injection Hrest.
      * split; [done|]. intros [rest Hrest].
        rewrite append_cons in Hrest. by injection Hrest.
Qed.

(** [needle in hay] holds exactly when [hay] is [needle] with some text
    before and some text after. *)
Lemma contains_iff (needle hay : string) :
  PyStr.contains needle hay = true
  ↔ ∃ before after, hay = before +:+ needle +:+ after.
Proof.
  induction hay as [|c hay IH].
  - cbn [PyStr.contains]. rewrite orb_false_r, prefix_iff. split.
    + intros [rest ->]. by exists "", rest.
    + intros ([|? ?] & after & Heq); [by exists after | done].
  - cbn [PyStr.contains]. rewrite orb_true_iff, prefix_iff, IH. split.
    + intros [[rest ->] | (before & after & ->)].
      * by exists "", rest.
      * by exists (String c before), after.
    + intros ([|c' before] & after & Heq).
      * left. by exists after.
      * right. rewrite append_cons in Heq. injection Heq as _ ->.
        by exists before, after.
Qed.

(** Every word [re.findall] returns is a piece of the text it read. *)
Lemma findall_words_go_contains (cur s w : string) :
  w ∈ PyStr.findall_words_go cur s →
  PyStr.contains w (String.rev_app cur s) = true.
Proof.
  revert cur. induction s as [|c s IH]; intros cur Hw.
  - destruct cur as [|x cur]; cbn in Hw; [by apply elem_of_nil in Hw|].
    apply list_elem_of_singleton in Hw as ->.
    apply contains_iff. exists "", "". by rewrite append_nil_r.
  - cbn [PyStr.findall_words_go] in Hw. destruct (PyStr.is_word c).
    { by apply (IH (String c cur)). }
    assert (w ∈ PyStr.findall_words_go "" s →
            PyStr.contains w (String.rev_app cur (String c s)) = true)
      as Hrest.
    { intros Hin. apply (IH "") in Hin. cbn [String.rev_app] in Hin.
      apply contains_iff in Hin as (before & after & ->).
      apply contains_iff.
      exists (String.rev cur +:+ String c before), after.
      by rewrite rev_app_append, append_assoc, append_cons. }
    destruct cur as [|x cur]; [by apply Hrest|].
    apply elem_of_cons in Hw as [->|Hw]; [|by apply Hrest].
    apply contains_iff. exists "", (String c s).
    by rewrite rev_app_append.
Qed.

Lemma findall_words_contains (s w : string) :
  w ∈ PyStr.findall_words s → PyStr.contains w s = true.
Proof. apply (findall_words_go_contains ""). Qed.

(** ** Order tracking: what the lookups write and what they leave *)

Section order_lookups.
Import Orders OrderLookups.

Local Open Scope Z_scope.

Ltac tracking_cases :=
  repeat match goal with
    | H : datetime_or_null _ |- _ => destruct H as [? | [? ?]]
    | H : dict_get ?r ?k = _ |- context [dict_get ?r ?k] => rewrite H
    | |- context [(?a >=? ?b)%Z] => rewrite (Z.geb_leb a b)
    | |- context [(?a <=? ?b)%Z] => destruct (Z.leb_spec a b)
    | |- context [(?a =? ?b)%Z] => destruct (Z.eqb_spec a b)
    | |- context [truthy (dict_get ?r "tracking_number")] =>
        destruct (truthy (dict_get r "tracking_number")) eqn:?
    end; cbn [truthy].

Ltac by_age :=
  repeat match goal with
    | H : context [Datetime.days_between ?a ?b] |- _ =>
        lazymatch goal with
        | _ : (Datetime.days_between a b * _ ≤ _ < _)%Z |- _ => fail
        | _ => pose proof (days_between_bounds a b)
        end
    end;
  unfold Datetime.us_per_day in *; lia.

(** The two estimates of a placement date that leaves room for them. *)
Lemma estimates_Return od :
  Datetime.representable od = true →
  Datetime.representable (Datetime.add_days od 7) = true →
  Datetime.add_timedelta_days od 3 = Returns (Datetime.add_days od 3)
  ∧ Datetime.add_timedelta_days od 7 = Returns (Datetime.add_days od 7).
Proof.
  intros Hod Hweek. split; apply add_timedelta_days_Returns; [|done].
  apply (representable_between od 3 7); [lia | done..].
Qed.

(** The tracking block on an order whose two date columns are well typed
    and whose placement date leaves room for the estimates: it returns,
    and it writes the six tracking fields only. *)
Lemma tracking_block_frame clean_order_id now_order now_ship
    (order : gmap string value) :
  datetime_or_null (dict_get order "order_date") →
  datetime_or_null (dict_get order "shipping_date") →
  estimates_representable (dict_get order "order_date") →
  ∃ result,
    Orders.tracking_status_logic clean_order_id now_order now_ship order
    = Returns result
    ∧ ∀ k, k ∉ tracking_fields → result !! k = order !! k.
Proof.
  intros Hod Hsd Hroom. unfold Orders.tracking_status_logic.
  destruct Hod as [Hod | [od Hod]].
  - rewrite Hod. cbn [truthy]. by eexists.
  - destruct (Hroom od Hod) as [Hin Hweek].
    rewrite Hod. cbn [truthy].
    destruct (estimates_Return od Hin Hweek) as [-> ->].
    cbn [mbind outcome_bind].
    tracking_cases;
      (eexists; split; [reflexivity|]);
      intros k Hk; unfold tracking_fields in Hk;
      rewrite !not_elem_of_union, !not_elem_of_singleton in Hk;
      destruct_and!; by rewrite ?lookup_insert_ne.
Qed.

Lemma well_typed_after_inputs (row : gmap string value) items payment k :
  k ≠ "payment" → k ≠ "items" →
  datetime_or_null (dict_get row k) →
  datetime_or_null
    (dict_get (<["payment" := payment]> (<["items" := items]> row)) k).
Proof. intros. by rewrite dict_get_tracking_inputs. Qed.

(** X1: on a row whose [order_date] and [shipping_date] are each a
    datetime or NULL, and whose [order_date] leaves room for the estimate
    seven days later, [get_order_by_id] does not raise, attaches the
    items and the payment, and leaves every column other than the six
    tracking fields as the query returned it. *)
Theorem X1_order_lookup_keeps_the_other_columns
    db now_order now_ship order_id row items payment :
  order_found db order_id row items payment →
  datetime_or_null (dict_get row "order_date") →
  datetime_or_null (dict_get row "shipping_date") →
  estimates_representable (dict_get row "order_date") →
  ∃ result,
    get_order_by_id (Some db) now_order now_ship order_id
    = Returns (Some result)
    ∧ (∀ k, k ∉ tracking_fields →
         result !! k
         = (<["payment" := payment]>
              (<["items" := if truthy items then items else VList []]> row))
           !! k)
    ∧ (∀ k, k ∉ tracking_fields → k ≠ "items" → k ≠ "payment" →
         result !! k = row !! k).
Proof.
  intros Hfound Hod Hsd Hroom.
  rewrite (found_get_order_by_id _ _ _ _ _ _ _ Hfound).
  destruct (tracking_block_frame
              (PyStr.strip (PyStr.remove_char "#" order_id))
              now_order now_ship
              (<["payment" := payment]>
                 (<["items" := if truthy items then items else VList []]> row)))
    as (result & -> & Hframe);
    [by apply well_typed_after_inputs.. | by rewrite dict_get_tracking_inputs |].
  exists result. split_and!; [done | done |].
  intros k Hk Hitems Hpayment. rewrite (Hframe k Hk).
  by rewrite !lookup_insert_ne.
Qed.

Lemma X1_witness :
  ∃ result,
    get_order_by_id (Some (single_order_db "77" row_77)) 0 0 "#77"
    = Returns (Some result)
    ∧ result !! "order_id" = Some (VInt 77).
Proof.
  destruct (X1_order_lookup_keeps_the_other_columns
              (single_order_db "77" row_77) 0 0 "#77" row_77 (VList []) VNone)
    as (result & Hget & _ & Hframe).
  - apply single_order_found; [reflexivity | apply insert_non_empty].
  - right. by exists placed_77.
  - by left.
  - intros od [= <-]. split; reflexivity.
  - exists result. split; [exact Hget|].
    rewrite Hframe; [reflexivity | | discriminate | discriminate].
    apply (bool_decide_unpack _). by vm_compute.
Defined.

(** The status and the tracking number the block of [get_order_by_id]
    writes for a placed order. *)
Lemma tracking_block_status clean_order_id now_order now_ship
    (order : gmap string value) od :
  dict_get order "order_date" = VDatetime od →
  datetime_or_null (dict_get order "shipping_date") →
  Datetime.representable od = true →
  Datetime.representable (Datetime.add_days od 7) = true →
  ∃ result label message,
    Orders.tracking_status_logic clean_order_id now_order now_ship order
    = Returns result
    ∧ label ∈ status_labels
    ∧ result !! "tracking_status" = Some (VStr label)
    ∧ result !! "tracking_message" = Some (VStr message)
    ∧ (if truthy (dict_get order "tracking_number")
       then result !! "tracking_number"
            = Some (dict_get order "tracking_number")
            ∧ result !! "has_tracking" = Some (VBool true)
       else result !! "tracking_number"
            = Some (VStr ("TRK" +:+ clean_order_id
                          +:+ Datetime.strftime_md od))
            ∧ result !! "has_tracking" = Some (VBool false)).
Proof.
  intros Hod Hsd Hin Hweek. unfold Orders.tracking_status_logic.
  rewrite Hod. cbn [truthy].
  destruct (estimates_Return od Hin Hweek) as [-> ->].
  cbn [mbind outcome_bind].
  tracking_cases;
    (eexists _, _, _; split; [reflexivity|]);
    (split; [|split_and!; by simplify_map_eq]);
    apply (bool_decide_unpack _); by vm_compute.
Qed.

(** X2: for an order whose placement date leaves room for the estimate
    seven days later, the status is one of the six labels and comes with
    a message; a stored tracking number is passed on with [has_tracking]
    true, and without one the placeholder "TRK", the cleaned order id
    and the month and day of the placement is written with
    [has_tracking] false. *)
Theorem X2_status_label_and_tracking_number
    db now_order now_ship order_id row items payment od :
  order_found db order_id row items payment →
  dict_get row "order_date" = VDatetime od →
  datetime_or_null (dict_get row "shipping_date") →
  Datetime.representable od = true →
  Datetime.representable (Datetime.add_days od 7) = true →
  ∃ result label message,
    get_order_by_id (Some db) now_order now_ship order_id
    = Returns (Some result)
    ∧ label ∈ status_labels
    ∧ result !! "tracking_status" = Some (VStr label)
    ∧ result !! "tracking_message" = Some (VStr message)
    ∧ (if truthy (dict_get row "tracking_number")
       then result !! "tracking_number" = Some (dict_get row "tracking_number")
            ∧ result !! "has_tracking" = Some (VBool true)
       else result !! "tracking_number"
            = Some (VStr ("TRK"
                          +:+ PyStr.strip (PyStr.remove_char "#" order_id)
                          +:+ Datetime.strftime_md od))
            ∧ result !! "has_tracking" = Some (VBool false)).
Proof.
  intros Hfound Hod Hsd Hin Hweek.
  rewrite (found_get_order_by_id _ _ _ _ _ _ _ Hfound).
  destruct (tracking_block_status
              (PyStr.strip (PyStr.remove_char "#" order_id))
              now_order now_ship
              (<["payment" := payment]>
                 (<["items" := if truthy items then items else VList []]> row))
              od)
    as (result & label & message & -> & Hlabel & Hstatus & Hmessage & Hnumber).
  - by rewrite dict_get_tracking_inputs.
  - by apply well_typed_after_inputs.
  - done.
  - done.
  - rewrite dict_get_tracking_inputs in Hnumber by done.
    by exists result, label, message.
Qed.

Lemma X2_witness :
  ∃ result,
    get_order_by_id (Some (single_order_db "77" row_77))
      (Datetime.make 2024 3 10 15 0 0) (Datetime.make 2024 3 10 15 0 0) " #77 "
    = Returns (Some result)
    ∧ result !! "tracking_number" = Some (VStr "TRK770310")
    ∧ result !! "has_tracking" = Some (VBool false).
Proof.
  destruct (X2_status_label_and_tracking_number
              (single_order_db "77" row_77)
              (Datetime.make 2024 3 10 15 0 0) (Datetime.make 2024 3 10 15 0 0)
              " #77 " row_77 (VList []) VNone placed_77)
    as (result & label & message & Hget & _ & _ & _ & Hnumber).
  - apply single_order_found; [reflexivity | apply insert_non_empty].
  - reflexivity.
  - by left.
  - reflexivity.
  - reflexivity.
  - exists result. split; [exact Hget|].
    change (truthy (dict_get row_77 "tracking_number")) with false in Hnumber.
    destruct Hnumber as [Hnumber Hflag]. split; [|exact Hflag].
    etransitivity; [exact Hnumber|]. by vm_compute.
Defined.

Lemma found_get_order_by_tracking_number
    db now_order now_ship tracking_number row items payment :
  found_by_tracking db tracking_number row items payment →
  get_order_by_tracking_number (Some db) now_order now_ship tracking_number
  = match OrderLookups.tracking_status_logic now_order now_ship
            (<["payment" := payment]>
               (<["items" := if truthy items then items else VList []]> row))
    with
    | Returns order => Returns (Some order)
    | Raises e => Raises e
    end.
Proof.
  intros (order_id & Hcursor & Horder & Hrow & Hid & Hitems & Hpayment).
  unfold get_order_by_tracking_number.
  rewrite Hcursor, Horder, Hid, Hitems, Hpayment.
  by rewrite bool_decide_eq_false_2.
Qed.

(** The two blocks on the same placed order: both return, and the rows
    differ in the tracking number only, or both raise [OverflowError]. *)
Lemma tracking_blocks_agree clean_order_id now_order now_ship
    (order : gmap string value) od :
  dict_get order "order_date" = VDatetime od →
  datetime_or_null (dict_get order "shipping_date") →
  (∃ by_id by_tracking,
     Orders.tracking_status_logic clean_order_id now_order now_ship order
     = Returns by_id
     ∧ OrderLookups.tracking_status_logic now_order now_ship order
       = Returns by_tracking
     ∧ by_tracking !! "tracking_number"
       = Some (dict_get order "tracking_number")
     ∧ by_tracking !! "has_tracking" = Some (VBool true)
     ∧ ∀ k, k ≠ "tracking_number" → k ≠ "has_tracking" →
         by_id !! k = by_tracking !! k)
  ∨ (Orders.tracking_status_logic clean_order_id now_order now_ship order
     = Raises OverflowError
     ∧ OrderLookups.tracking_status_logic now_order now_ship order
       = Raises OverflowError
     ∧ Datetime.representable (Datetime.add_days od 3)
       && Datetime.representable (Datetime.add_days od 7) = false).
Proof.
  intros Hod Hsd.
  unfold Orders.tracking_status_logic, OrderLookups.tracking_status_logic.
  rewrite Hod. cbn [truthy].
  unfold Datetime.add_timedelta_days.
  tracking_cases;
    try destruct (Datetime.representable (Datetime.add_days od 3)) eqn:Hthree;
    try destruct (Datetime.representable (Datetime.add_days od 7)) eqn:Hweek;
    cbn [mbind outcome_bind];
    try (right; split_and!; done);
    try (left; eexists _, _; split_and!;
         [reflexivity | reflexivity | by simplify_map_eq
         | by simplify_map_eq
         | intros k Hnumber Hflag;
           repeat match goal with
             | |- context [<[?j := _]> _ !! k] =>
                 destruct (decide (j = k)) as [<- | ?];
                 [rewrite ?lookup_insert_eq; try done
                 | rewrite !(lookup_insert_ne _ j k) by done]
             end; done]).
Qed.

(** X3: when the same placed order is found by its id and by its
    tracking number, the two lookups behave alike. Either both return,
    with rows that agree on every field except [tracking_number] and
    [has_tracking], the lookup by tracking number reporting
    [has_tracking] true and passing on the stored number; or both raise
    [OverflowError], which happens only when an estimate made from the
    placement date is past the last datetime. *)
Theorem X3_lookup_by_tracking_number_agrees_with_lookup_by_id
    db tdb now_order now_ship order_id tracking_number row items payment od :
  order_found db order_id row items payment →
  found_by_tracking tdb tracking_number row items payment →
  dict_get row "order_date" = VDatetime od →
  datetime_or_null (dict_get row "shipping_date") →
  (∃ by_id by_tracking,
     get_order_by_id (Some db) now_order now_ship order_id
     = Returns (Some by_id)
     ∧ get_order_by_tracking_number (Some tdb) now_order now_ship
         tracking_number
       = Returns (Some by_tracking)
     ∧ by_tracking !! "tracking_number"
       = Some (dict_get row "tracking_number")
     ∧ by_tracking !! "has_tracking" = Some (VBool true)
     ∧ ∀ k, k ≠ "tracking_number" → k ≠ "has_tracking" →
         by_id !! k = by_tracking !! k)
  ∨ (get_order_by_id (Some db) now_order now_ship order_id
     = Raises OverflowError
     ∧ get_order_by_tracking_number (Some tdb) now_order now_ship
         tracking_number
       = Raises OverflowError
     ∧ Datetime.representable (Datetime.add_days od 3)
       && Datetime.representable (Datetime.add_days od 7) = false).
Proof.
  intros Hfound Htracked Hod Hsd.
  rewrite (found_get_order_by_id _ _ _ _ _ _ _ Hfound).
  rewrite (found_get_order_by_tracking_number _ _ _ _ _ _ _ Htracked).
  destruct (tracking_blocks_agree
              (PyStr.strip (PyStr.remove_char "#" order_id))
              now_order now_ship
              (<["payment" := payment]>
                 (<["items" := if truthy items then items else VList []]> row))
              od)
    as [(by_id & by_tracking & -> & -> & Hnumber & Hflag & Hagree)
       | (-> & -> & Hroom)].
  - by rewrite dict_get_tracking_inputs.
  - by apply well_typed_after_inputs.
  - rewrite dict_get_tracking_inputs in Hnumber by done.
    left. by exists by_id, by_tracking.
  - by right.
Qed.

Lemma single_tracking_found tracking row tracking_number order_id :
  PyStr.strip tracking_number = tracking →
  row ≠ ∅ →
  row !! "order_id" = Some order_id →
  found_by_tracking (single_tracking_db tracking row) tracking_number row
    (VList []) VNone.
Proof.
  intros Htracking Hrow Hid. exists order_id.
  unfold single_tracking_db. simpl.
  rewrite Htracking, String.eqb_refl. done.
Defined.

Lemma X3_witness :
  ∃ by_id by_tracking,
    get_order_by_id (Some (single_order_db "77" row_77_tracked)) 0 0 "#77"
    = Returns (Some by_id)
    ∧ get_order_by_tracking_number
        (Some (single_tracking_db "TRK770310" row_77_tracked)) 0 0
        " TRK770310 "
      = Returns (Some by_tracking)
    ∧ by_id !! "tracking_status" = by_tracking !! "tracking_status".
Proof.
  destruct (X3_lookup_by_tracking_number_agrees_with_lookup_by_id
              (single_order_db "77" row_77_tracked)
              (single_tracking_db "TRK770310" row_77_tracked)
              0 0 "#77" " TRK770310 " row_77_tracked (VList []) VNone
              placed_77)
    as [(by_id & by_tracking & Hid & Htracking & _ & _ & Hagree)
       | (_ & _ & Hroom)].
  - apply single_order_found; [reflexivity | apply insert_non_empty].
  - apply (single_tracking_found _ _ _ (VInt 77));
      [reflexivity | apply insert_non_empty | reflexivity].
  - reflexivity.
  - right. by eexists.
  - exists by_id, by_tracking.
    split; [exact Hid|]. split; [exact Htracking|].
    apply Hagree; discriminate.
  - exfalso. vm_compute in Hroom. discriminate Hroom.
Defined.

(** X4: an order without a shipping date whose placement lies after the
    clock reading has a negative age in days, which is neither 0 nor 1
    and is at most 3. When the instant three days after the placement is
    a datetime, the order is reported as Ready to Ship with that instant
    as the estimated shipping; when it is not, as for an order dated in
    the last three days of year 9999, the lookup raises
    [OverflowError]. *)
Theorem X4_order_placed_after_the_clock
    db now_order now_ship order_id row items payment od :
  order_found db order_id row items payment →
  row !! "order_date" = Some (VDatetime od) →
  dict_get row "shipping_date" = VNone →
  now_order < od →
  if Datetime.representable (Datetime.add_days od 3)
  then
    ∃ result,
      get_order_by_id (Some db) now_order now_ship order_id
      = Returns (Some result)
      ∧ result !! "tracking_status" = Some (VStr "Ready to Ship")
      ∧ result !! "estimated_shipping"
        = Some (VStr (Datetime.strftime_ymd (Datetime.add_days od 3)))
      ∧ result !! "estimated_delivery" = row !! "estimated_delivery"
  else
    get_order_by_id (Some db) now_order now_ship order_id
    = Raises OverflowError.
Proof.
  intros Hfound Hdate Hship Hlate.
  rewrite (found_get_order_by_id _ _ _ _ _ _ _ Hfound).
  unfold Orders.tracking_status_logic.
  rewrite !dict_get_tracking_inputs by done.
  rewrite (dict_get_Some _ _ _ Hdate), Hship. cbn [truthy].
  unfold Datetime.add_timedelta_days.
  destruct (Datetime.representable (Datetime.add_days od 3));
    tracking_cases; try by_age; cbn [mbind outcome_bind]; try done;
    (eexists; split; [reflexivity|]); by simplify_map_eq.
Qed.

Lemma X4_witness :
  get_order_by_id (Some (single_order_db "77" row_77_last_days))
    (Datetime.make 2024 3 10 15 0 0) (Datetime.make 2024 3 10 15 0 0) "77"
  = Raises OverflowError
  ∧ ∃ result,
      get_order_by_id (Some (single_order_db "77" row_77))
        (placed_77 - 1) (placed_77 - 1) "77"
      = Returns (Some result)
      ∧ result !! "tracking_status" = Some (VStr "Ready to Ship").
Proof.
  split.
  - pose proof (X4_order_placed_after_the_clock
                  (single_order_db "77" row_77_last_days)
                  (Datetime.make 2024 3 10 15 0 0)
                  (Datetime.make 2024 3 10 15 0 0)
                  "77" row_77_last_days (VList []) VNone
                  (Datetime.make 9999 12 30 10 0 0)) as Hlate.
    replace (Datetime.representable
               (Datetime.add_days (Datetime.make 9999 12 30 10 0 0) 3))
      with false in Hlate by (by vm_compute).
    apply Hlate.
    + apply single_order_found; [reflexivity | apply insert_non_empty].
    + reflexivity.
    + reflexivity.
    + by vm_compute.
  - pose proof (X4_order_placed_after_the_clock
                  (single_order_db "77" row_77) (placed_77 - 1)
                  (placed_77 - 1) "77" row_77 (VList []) VNone placed_77)
      as Hsoon.
    replace (Datetime.representable (Datetime.add_days placed_77 3))
      with true in Hsoon by (by vm_compute).
    destruct Hsoon as (result & Hget & Hstatus & _).
    + apply single_order_found; [reflexivity | apply insert_non_empty].
    + reflexivity.
    + reflexivity.
    + lia.
    + exists result. split; [exact Hget | exact Hstatus].
Defined.

End order_lookups.

(** ** Keyword extraction *)

Section keyword_extraction.
Import ImageSearch SearchPaths.

Variable fashion_order : list string.

Lemma direct_matching_loop (description_lower : string)
    (found order : list string) :
  foldl (λ found keyword,
           if PyStr.contains keyword description_lower
           then found ++ [keyword] else found)
        found order
  = found ++ List.filter (λ keyword, PyStr.contains keyword description_lower)
                         order.
Proof.
  revert found. induction order as [|k order IH]; intros found.
  - by rewrite app_nil_r.
  - cbn [foldl List.filter]. rewrite IH.
    destruct (PyStr.contains k description_lower); [|done].
    by rewrite <- app_assoc.
Qed.

Lemma word_boundary_loop (found words : list string) :
  (∀ word, word ∈ words → word ∈ fashion_keywords → word ∈ found) →
  foldl (λ found word,
           if PyStr.mem word fashion_keywords && negb (PyStr.mem word found)
           then found ++ [word] else found)
        found words
  = found.
Proof.
  induction words as [|w words IH]; intros Hseen; [done|].
  cbn [foldl].
  destruct (PyStr.mem w fashion_keywords) eqn:Hw; cbn [andb].
  - apply mem_elem_of in Hw.
    assert (PyStr.mem w found = true) as ->.
    { apply mem_elem_of, Hseen; [left | done]. }
    cbn [negb]. apply IH. intros word Hin. apply Hseen. by right.
  - apply IH. intros word Hin. apply Hseen. by right.
Qed.

Lemma descriptor_loop (found words : list string) :
  ∃ rest,
    foldl (λ found word,
             if (3 <? String.length word)%nat && negb (PyStr.mem word found)
             then if existsb (λ fashion_word,
                                PyStr.contains fashion_word word)
                             descriptor_stems
                  then found ++ [word] else found
             else found)
          found words
    = found ++ rest
    ∧ Forall (λ word, word ∈ words ∧ (word ∉ found) ∧ is_descriptor word) rest
    ∧ (NoDup found → NoDup (found ++ rest)).
Proof.
  revert found. induction words as [|w words IH]; intros found.
  { exists []. by rewrite app_nil_r. }
  cbn [foldl].
  assert (∀ found' : list string,
            (∀ x, x ∉ found' → x ∉ found) →
            (NoDup found → NoDup found') →
            (∃ rest0, found' = found ++ rest0
                      ∧ Forall (λ word, word ∈ w :: words ∧ (word ∉ found)
                                        ∧ is_descriptor word) rest0) →
            ∃ rest,
              foldl (λ found word,
                       if (3 <? String.length word)%nat
                          && negb (PyStr.mem word found)
                       then if existsb (λ fashion_word,
                                          PyStr.contains fashion_word word)
                                       descriptor_stems
                            then found ++ [word] else found
                       else found)
                    found' words
              = found ++ rest
              ∧ Forall (λ word, word ∈ w :: words ∧ (word ∉ found)
                                ∧ is_descriptor word) rest
              ∧ (NoDup found → NoDup (found ++ rest))) as Hstep.
  { intros found' Hsub Hnodup (rest0 & -> & Hrest0).
    destruct (IH (found ++ rest0)) as (rest & -> & Hrest & Hnd).
    exists (rest0 ++ rest). split; [by rewrite app_assoc|]. split.
    - apply Forall_app. split; [done|].
      eapply Forall_impl; [exact Hrest|]. intros x (Hx & Hnot & Hdesc).
      split_and!; [by right | by apply Hsub | done].
    - intros Hfound. rewrite app_assoc. by apply Hnd, Hnodup. }
  destruct (3 <? String.length w)%nat eqn:Hlen; cbn [andb];
    [|apply Hstep; [done | done | exists []; by rewrite app_nil_r]].
  destruct (PyStr.mem w found) eqn:Hmem; cbn [negb];
    [apply Hstep; [done | done | exists []; by rewrite app_nil_r]|].
  destruct (existsb _ descriptor_stems) eqn:Hstem;
    [|apply Hstep; [done | done | exists []; by rewrite app_nil_r]].
  assert (w ∉ found) as Hnew.
  { rewrite <- mem_elem_of. by rewrite Hmem. }
  apply Hstep.
  - intros x Hx Hin. apply Hx, elem_of_app. by left.
  - intros Hfound. apply NoDup_app. split_and!; [done | | apply NoDup_singleton].
    intros x Hx ->%list_elem_of_singleton. done.
  - exists [w]. split; [done|]. apply Forall_singleton.
    split_and!; [by left | done |].
    split; [by apply Nat.ltb_lt|]. by apply existsb_elem_of.
Qed.

(** X5: the keywords extracted from a description are the fashion
    keywords that occur in its lower-cased text, in the order in which
    the set is iterated, followed by descriptor words of the text that
    are no fashion keywords, the whole cut to eight. The pass over the
    whole words adds nothing. No keyword is listed twice and every
    keyword occurs in the lower-cased description. *)
Theorem X5_extracted_keywords
    (description : string) :
  iteration_order fashion_order →
  let description_lower := PyStr.lower description in
  let keywords := extract_keywords fashion_order description in
  (∃ descriptors,
     keywords
     = take 8 (List.filter (λ keyword,
                              PyStr.contains keyword description_lower)
                           fashion_order
               ++ descriptors)
     ∧ Forall (λ word, word ∈ PyStr.findall_words description_lower
                       ∧ (word ∉ fashion_keywords)
                       ∧ is_descriptor word) descriptors)
  ∧ NoDup keywords
  ∧ (length keywords ≤ 8)%nat
  ∧ ∀ keyword, keyword ∈ keywords →
      PyStr.contains keyword description_lower = true.
Proof.
  intros [Hnodup Hcover] description_lower keywords.
  subst keywords. unfold extract_keywords. fold description_lower.
  rewrite direct_matching_loop. rewrite app_nil_l.
  set (direct := List.filter _ fashion_order).
  assert (∀ keyword, keyword ∈ direct ↔
            keyword ∈ fashion_order
            ∧ PyStr.contains keyword description_lower = true) as Hdirect.
  { intros keyword. unfold direct. by rewrite !list_elem_of_In, filter_In. }
  rewrite word_boundary_loop.
  2:{ intros word Hword Hfashion. apply Hdirect. split.
      - by apply Hcover.
      - by apply findall_words_contains. }
  destruct (descriptor_loop direct (PyStr.findall_words description_lower))
    as (descriptors & -> & Hdescriptors & Hnd).
  assert (Forall (λ word, word ∈ PyStr.findall_words description_lower
                          ∧ (word ∉ fashion_keywords)
                          ∧ is_descriptor word) descriptors) as Hrest.
  { eapply Forall_impl; [exact Hdescriptors|].
    intros word (Hword & Hnot & Hdesc). split_and!; [done | | done].
    intros Hfashion. apply Hnot, Hdirect. split.
    - by apply Hcover.
    - by apply findall_words_contains. }
  split_and!.
  - by exists descriptors.
  - eapply sublist_NoDup; [|apply sublist_take]. apply Hnd.
    unfold direct. by apply NoDup_ListNoDup, List.NoDup_filter, NoDup_ListNoDup.
  - rewrite length_take. lia.
  - intros keyword Hin%subseteq_take.
    apply elem_of_app in Hin as [Hin | Hin].
    + by apply Hdirect in Hin as [_ ?].
    + rewrite Forall_forall in Hrest. destruct (Hrest _ Hin) as (Hword & _).
      by apply findall_words_contains.
Qed.

End keyword_extraction.

Lemma X5_witness :
  ImageSearch.extract_keywords ImageSearch.first_seen_order
    "Red summer Sundress"
  = ["dress"; "red"; "sundress"]
  ∧ NoDup (ImageSearch.extract_keywords ImageSearch.first_seen_order
             "Red summer Sundress").
Proof.
  split; [by vm_compute|].
  apply (X5_extracted_keywords ImageSearch.first_seen_order
           "Red summer Sundress" first_seen_iteration_order).
Defined.

(** ** Every path of the product search *)

Section product_search.
Import ImageSearch SearchPaths.
Local Open Scope Q_scope.

Lemma visual_search_Returns db detected uploaded limit out :
  visual_search db detected uploaded limit = Returns (Some out) →
  ∃ similarities all_products,
    rank_candidates similarities detected all_products limit = Returns out.
Proof.
  unfold visual_search. intros Hout.
  destruct uploaded as [bytes|]; [|done].
  destruct (String.eqb bytes ""); [done|].
  destruct (products_with_images db) as [all_products|]; [|done].
  destruct all_products as [|p ps]; [done|].
  destruct (bool_decide _); [done|].
  cbn [mbind outcome_bind] in Hout.
  destruct (rank_candidates _ _ _ _) as [final|] eqn:Hfinal; [|done].
  injection Hout as <-. eauto.
Qed.

(** A row of the visual branch was kept for its similarity or for its
    category. *)
Lemma ranked_rows_have_reason similarities detected all_products limit
    out a :
  rank_candidates similarities detected all_products limit = Returns out →
  a ∈ out →
  ∃ product a0,
    annotate similarities detected product = Returns a0
    ∧ a = display detected a0
    ∧ (is_visual a0 = true ∨ is_category a0 = true).
Proof.
  intros (candidates & ranked & Hloop & Hrank & ->)%rank_candidates_Returns.
  intros (a0 & -> & Hin)%list_elem_of_fmap.
  destruct (slice_to_take limit
              (take 3 (PyList.sort_desc similarity_geb
                         (List.filter is_visual candidates))
               ++ take 3 ranked)) as [n Hn].
  rewrite Hn in Hin. apply (subseteq_take n) in Hin.
  apply sort_by_ranking_Returns in Hrank as ->.
  assert (a0 ∈ candidates ∧ (is_visual a0 = true ∨ is_category a0 = true))
    as [Hcand Hreason].
  { apply elem_of_app in Hin as [Hin|Hin]; apply subseteq_take in Hin;
      rewrite sort_desc_perm in Hin;
      apply elem_of_filter_bool in Hin as [Hin Hkind]; eauto. }
  destruct (product_of_candidate _ _ _ _ _ Hloop Hcand) as (p & _ & Hp).
  by exists p, a0.
Qed.

(** X6: whatever path the search takes, every row it returns carries the
    link to its product page, the detected category and a stock
    quantity (10 where the inventory has none); a visual match carries
    its similarity as the reason, and any other row is a category match
    of the visual branch or a category row of the fallback with
    similarity 0. *)
Theorem X6_returned_rows_are_ready_for_display
    mysql_db description uploaded limit :
  let detected := detect_product_category description in
  Forall
    (λ a,
       product_link a
       = Some ("/sproductpage.html?id="
               +:+ PyStr.of_int (product_id (item a)))
       ∧ detected_category a = Some detected
       ∧ is_Some (stock_quantity (item a))
       ∧ (if visual_match a
          then match_reason a = Some (VisualSimilarity (similarity_score a))
               ∧ 0.3 < similarity_score a
          else match_reason a = Some (CategoryMatch detected)
               ∨ (match_reason a = Some (Category detected)
                  ∧ similarity_score a = 0)))
    (find_similar_products mysql_db description uploaded limit).
Proof.
  intros detected. apply Forall_forall. intros a Hin.
  unfold find_similar_products in Hin.
  destruct mysql_db as [db|]; [|by apply elem_of_nil in Hin].
  fold detected in Hin.
  destruct (cursor db) as [[]|]; [|by apply elem_of_nil in Hin].
  destruct (visual_search db detected uploaded limit) as [[out|]|] eqn:Hvisual;
    cbn [mbind outcome_bind] in Hin; [| |by apply elem_of_nil in Hin].
  - apply visual_search_Returns in Hvisual
      as (similarities & all_products & Hout).
    destruct (ranked_rows_have_reason _ _ _ _ _ _ Hout Hin)
      as (product & a0 & Ha0 & -> & Hreason).
    unfold annotate in Ha0.
    destruct (product_type product) as [t|]; [|done].
    cbn [mbind outcome_bind] in Ha0. injection Ha0 as <-.
    unfold is_visual, is_category in Hreason. cbn in Hreason |- *.
    split_and!; [done | done | by destruct (stock_quantity product) |].
    destruct (above_threshold _) eqn:Habove.
    + split; [done|]. by apply above_threshold_iff.
    + left. destruct (_ || _); [done|]. by destruct Hreason.
  - unfold fallback_search in Hin.
    destruct (if negb _ then _ else _) as [products|];
      [|by apply elem_of_nil in Hin].
    apply list_elem_of_fmap in Hin as (p & -> & _). cbn.
    split_and!; [done | done | by destruct (stock_quantity p) | by right].
Qed.

Lemma visual_search_skipped db detected uploaded limit :
  no_visual_branch db uploaded →
  visual_search db detected uploaded limit = Returns None.
Proof.
  unfold visual_search.
  intros [-> | [-> | [Hnone | (all_products & Hrows & Himages)]]];
    [done | done | |].
  - destruct uploaded as [bytes|]; [|done].
    destruct (String.eqb bytes ""); [done|]. by rewrite Hnone.
  - destruct uploaded as [bytes|]; [|done].
    destruct (String.eqb bytes ""); [done|]. rewrite Hrows.
    destruct all_products as [|p ps]; [done|].
    by rewrite Himages, bool_decide_eq_true_2.
Qed.

(** X7: when the visual branch is not taken, the search answers with
    the rows of the category query (of the ranking query when the
    category is general), in the order of the query; none of them is a
    visual match, each has similarity 0 and the detected category as
    reason. A failing query gives the empty list. *)
Theorem X7_search_without_image_lists_the_category
    db description uploaded limit :
  no_visual_branch db uploaded →
  cursor db = Rows () →
  let detected := detect_product_category description in
  let answer :=
    if String.eqb detected "general" then products_by_ranking db limit
    else products_of_types db (category_terms detected) limit in
  let found := find_similar_products (Some db) description uploaded limit in
  match answer with
  | SqlError => found = []
  | Rows products =>
      item <$> found = with_default_stock <$> products
      ∧ Forall (λ a, visual_match a = false
                     ∧ similarity_score a = 0
                     ∧ match_reason a = Some (Category detected)) found
  end.
Proof.
  intros Hskip Hcursor detected answer found. subst found answer.
  unfold find_similar_products. fold detected. rewrite Hcursor.
  rewrite (visual_search_skipped _ _ _ _ Hskip).
  cbn [mbind outcome_bind]. unfold fallback_search.
  destruct (String.eqb detected "general"); cbn [negb].
  - destruct (products_by_ranking db limit) as [products|]; [|done].
    split; [by rewrite <- list_fmap_compose|].
    apply Forall_fmap, Forall_forall. by intros p _.
  - destruct (products_of_types db _ limit) as [products|]; [|done].
    split; [by rewrite <- list_fmap_compose|].
    apply Forall_fmap, Forall_forall. by intros p _.
Qed.

Lemma X7_witness :
  find_similar_products
    (Some (demo_catalogue threshold_products threshold_similarities))
    "a shirt" (Some "") default_limit
  = [].
Proof.
  pose proof (X7_search_without_image_lists_the_category
                (demo_catalogue threshold_products threshold_similarities)
                "a shirt" (Some ""%string) default_limit) as Hfound.
  cbv zeta in Hfound.
  destruct Hfound as [Hitems _]; [right; by left | reflexivity |].
  by apply fmap_nil_inv in Hitems.
Defined.

(** X8: on the visual path, one candidate row whose [product_type] is
    NULL makes the whole search return the empty list: calling [lower]
    on it raises, and the handler of the search returns []. *)
Theorem X8_null_category_empties_the_visual_search
    db description uploaded limit all_products similarities product :
  visual_path db uploaded all_products similarities →
  product ∈ all_products →
  product_type product = None →
  find_similar_products (Some db) description uploaded limit = [].
Proof.
  intros Hpath Hin Hnull.
  rewrite (find_similar_products_visual _ _ _ _ _ _ Hpath).
  unfold rank_candidates.
  destruct (for_each_Raises
              (annotate similarities (detect_product_category description))
              all_products product AttributeError Hin) as [e ->]; [|done].
  unfold annotate. by rewrite Hnull.
Qed.

Lemma X8_witness :
  find_similar_products
    (Some (demo_catalogue
             [shirt 1 4 "Plain shirt";
              {| product_id := 2; product_name := Some "Untyped";
                 product_discription := None; product_type := None;
                 product_ranking := Some 1%Z; stock_quantity := None |}]
             threshold_similarities))
    "a shirt" (Some "png") default_limit
  = [].
Proof.
  eapply X8_null_category_empties_the_visual_search.
  - by apply demo_visual_path.
  - right. left.
  - reflexivity.
Defined.

Lemma category_candidate_annotate similarities detected p a :
  category_candidate similarities detected p →
  annotate similarities detected p = Returns a →
  is_category a = true ∧ item a = p.
Proof.
  intros (t & Ht & Hbelow & Hmatch). unfold annotate. rewrite Ht.
  cbn [mbind outcome_bind]. intros [= <-]. unfold is_category. cbn.
  by rewrite Hbelow, Hmatch.
Qed.

Lemma filter_two_positions {A} (P : A → bool) (l : list A) i j x y :
  i ≠ j → l !! i = Some x → l !! j = Some y →
  P x = true → P y = true →
  (2 ≤ length (List.filter P l))%nat.
Proof.
  assert (∀ i j x y, (i < j)%nat → l !! i = Some x → l !! j = Some y →
            P x = true → P y = true →
            (2 ≤ length (List.filter P l))%nat) as Hordered.
  { clear. intros i j x y Hlt Hi Hj Hx Hy.
    rewrite <- (take_drop_middle l i x Hi), List.filter_app.
    cbn [List.filter]. rewrite Hx, length_app. cbn [length].
    assert (y ∈ List.filter P (drop (S i) l)) as Hin.
    { apply elem_of_filter_bool. split; [|done].
      apply list_elem_of_lookup. exists (j - S i)%nat.
      rewrite lookup_drop. by replace (S i + (j - S i))%nat with j by lia. }
    destruct (List.filter P (drop (S i) l)); [by apply elem_of_nil in Hin|].
    cbn [length]. lia. }
  intros Hne Hi Hj Hx Hy.
  destruct (decide (i < j)%nat); [by eapply (Hordered i j)|].
  eapply (Hordered j i); [lia | done..].
Qed.

(** X9: on the visual path, when two or more candidates are category
    matches and one of them has a NULL [product_ranking], sorting them
    raises and the search returns the empty list, visual matches
    included. *)
Theorem X9_null_ranking_empties_the_visual_search
    db description uploaded limit all_products similarities i j p q :
  visual_path db uploaded all_products similarities →
  let detected := detect_product_category description in
  i ≠ j →
  all_products !! i = Some p →
  all_products !! j = Some q →
  category_candidate similarities detected p →
  category_candidate similarities detected q →
  product_ranking p = None →
  find_similar_products (Some db) description uploaded limit = [].
Proof.
  intros Hpath detected Hne Hi Hj Hp Hq Hnull.
  rewrite (find_similar_products_visual _ _ _ _ _ _ Hpath). fold detected.
  unfold rank_candidates.
  destruct (for_each (annotate similarities detected) all_products)
    as [candidates|] eqn:Hloop; [|done].
  cbn [mbind outcome_bind].
  pose proof (for_each_Forall2 _ _ _ Hloop) as Hall.
  destruct (Forall2_lookup_l _ _ _ _ _ Hall Hi) as (a & Ha & Hannotated_p).
  destruct (Forall2_lookup_l _ _ _ _ _ Hall Hj) as (b & Hb & Hannotated_q).
  destruct (category_candidate_annotate _ _ _ _ Hp Hannotated_p)
    as [Hcat_a Hitem_a].
  destruct (category_candidate_annotate _ _ _ _ Hq Hannotated_q)
    as [Hcat_b _].
  unfold sort_by_ranking.
  assert ((2 <=? length (List.filter is_category candidates))%nat = true)
    as ->.
  { apply Nat.leb_le. by eapply (filter_two_positions _ _ i j a b). }
  assert (existsb (λ a, match product_ranking (item a) with
                        | None => true
                        | Some _ => false
                        end) (List.filter is_category candidates) = true)
    as ->; [|done].
  apply existsb_elem_of. exists a. split.
  - apply elem_of_filter_bool. split; [|done].
    apply list_elem_of_lookup. by exists i.
  - by rewrite Hitem_a, Hnull.
Qed.

Lemma X9_witness :
  find_similar_products
    (Some (demo_catalogue
             [shirt 1 4 "Plain shirt";
              {| product_id := 2; product_name := Some "Unranked shirt";
                 product_discription := None; product_type := Some "Shirt";
                 product_ranking := None; stock_quantity := None |};
              shirt 3 1 "Best match"]
             (<[3%Z := 0.9]> ∅)))
    "a shirt" (Some "png") default_limit
  = [].
Proof.
  eapply (X9_null_ranking_empties_the_visual_search _ _ _ _ _ _ 1%nat 0%nat).
  - by apply demo_visual_path.
  - done.
  - reflexivity.
  - reflexivity.
  - eexists. split; [reflexivity|]. split; by vm_compute.
  - eexists. split; [reflexivity|]. split; by vm_compute.
  - reflexivity.
Defined.

End product_search.

(** ** The knowledge index: what a rebuild stores and what a query gives *)

Section knowledge_index.
Import Knowledge.

Variable semantics : store_semantics.
Variable embed : string → outcome (list Q).
Variable coll_query : gmap string entry → list Q → Z → outcome query_result.

Lemma enumerate_lookup {A} (l : list A) i x :
  l !! i = Some x → PyList.enumerate l !! i = Some (i, x).
Proof.
  intros Hi. unfold PyList.enumerate. apply lookup_zip_with_Some.
  exists i, x. split_and!; [done | | done].
  apply lookup_seq. split; [done|]. by eapply lookup_lt_Some.
Qed.

Lemma enumerate_snd {A} (l : list A) : (PyList.enumerate l).*2 = l.
Proof.
  unfold PyList.enumerate. apply snd_zip. by rewrite length_seq.
Qed.

(** X10: a knowledge query answers with all documents of the first row
    of the store's answer, in the order of that row and each with the
    metadata at its own position, or with nothing at all: when the
    metadata or the distance of one document is missing, the documents
    before it are dropped too. *)
Theorem X10_search_knowledge_is_all_or_nothing
    c query k q results first rest :
  embed query = Returns q →
  coll_query c q k = Returns results →
  documents results = Some (first :: rest) →
  let found := search_knowledge embed coll_query (Some c) query k in
  found = []
  ∨ (content <$> found = first
     ∧ ∀ i r, found !! i = Some r →
         first_row_at (metadatas results) i = Returns (metadata_of r)
         ∧ match distances results with
           | Some rows => first_row_at rows i = Returns (distance r)
           | None => distance r = 0%Q
           end).
Proof.
  intros Hembed Hquery Hdocs found. subst found. unfold search_knowledge.
  rewrite Hembed. cbn [mbind outcome_bind]. rewrite Hquery.
  cbn [mbind outcome_bind]. rewrite Hdocs.
  destruct (for_each _ (PyList.enumerate first)) as [found|] eqn:Hloop;
    [|by left].
  right. apply for_each_Forall2 in Hloop. split.
  - rewrite <- (enumerate_snd first).
    induction Hloop as [|doc r docs found Hdoc _ IH]; [done|].
    cbn [fmap list_fmap]. rewrite <- IH. f_equal.
    destruct (first_row_at (metadatas results) doc.1); [|done].
    cbn [mbind outcome_bind] in Hdoc.
    destruct (match distances results with
              | Some rows => first_row_at rows doc.1
              | None => Returns 0%Q
              end); [|done].
    cbn [mbind outcome_bind] in Hdoc. by injection Hdoc as <-.
  - intros i r Hi.
    destruct (Forall2_lookup_r _ _ _ _ _ Hloop Hi) as ([j doc] & Hj & Hr).
    assert (j = i) as ->.
    { unfold PyList.enumerate in Hj.
      apply lookup_zip_with_Some in Hj as (j' & doc' & [= -> ->] & Hseq & _).
      apply lookup_seq in Hseq. lia. }
    cbn [fst snd] in Hr.
    destruct (first_row_at (metadatas results) i) as [m|]; [|done].
    cbn [mbind outcome_bind] in Hr.
    destruct (distances results) as [rows|].
    + destruct (first_row_at rows i) as [d|]; [|done].
      cbn [mbind outcome_bind] in Hr. by injection Hr as <-.
    + cbn [mbind outcome_bind] in Hr. by injection Hr as <-.
Qed.

(** *** A rebuild into an emptied collection *)

Lemma insert_all_fresh (batch : list (string * entry))
    (c : gmap string entry) :
  NoDup batch.*1 →
  foldl (λ c doc, <[doc.1 := doc.2]> c) c batch = list_to_map batch ∪ c.
Proof.
  revert c. induction batch as [|[id e] batch IH]; intros c Hnodup.
  { symmetry. apply (left_id_L ∅ (∪)). }
  apply NoDup_cons in Hnodup as [Hid Hnodup].
  cbn [foldl fst snd]. rewrite IH by done. cbn [list_to_map foldr].
  rewrite <- insert_union_l. symmetry. apply insert_union_r.
  by apply not_elem_of_list_to_map_1.
Qed.

Lemma skip_all_fresh (batch : list (string * entry))
    (c : gmap string entry) :
  NoDup batch.*1 →
  (∀ id, id ∈ batch.*1 → c !! id = None) →
  foldl (λ c doc,
           match c !! doc.1 with
           | Some _ => c
           | None => <[doc.1 := doc.2]> c
           end) c batch
  = list_to_map batch ∪ c.
Proof.
  revert c. induction batch as [|[id e] batch IH]; intros c Hnodup Hfresh.
  { symmetry. apply (left_id_L ∅ (∪)). }
  apply NoDup_cons in Hnodup as [Hid Hnodup].
  cbn [foldl fst snd]. rewrite (Hfresh id) by left.
  rewrite IH; [|done|].
  - cbn [list_to_map foldr].
    rewrite <- insert_union_l. symmetry. apply insert_union_r.
    by apply not_elem_of_list_to_map_1.
  - intros id' Hin. rewrite lookup_insert_ne.
    + apply Hfresh. by right.
    + by intros ->.
Qed.

(** Whatever the collection does with ids it already holds, a batch of
    distinct ids that are all new, with metadata the collection takes,
    is stored as it is. *)
Lemma coll_add_fresh (batch : list (string * entry))
    (c : gmap string entry) :
  rejects_none_metadata semantics && has_none_metadata batch = false →
  NoDup batch.*1 →
  (∀ id, id ∈ batch.*1 → c !! id = None) →
  coll_add semantics batch c = Returns (list_to_map batch ∪ c).
Proof.
  intros Hmeta Hnodup Hfresh. unfold coll_add, has_repeated_ids.
  rewrite Hmeta, (bool_decide_eq_true_2 _ Hnodup), andb_false_r.
  destruct (on_existing semantics).
  - by rewrite insert_all_fresh.
  - by rewrite skip_all_fresh.
  - replace (existsb _ batch) with false; [by rewrite insert_all_fresh|].
    symmetry. apply not_true_iff_false. rewrite existsb_elem_of.
    intros ([id e] & Hin & Hknown). apply bool_decide_eq_true in Hknown.
    cbn [fst] in Hknown. rewrite (Hfresh id) in Hknown; [by destruct Hknown|].
    apply list_elem_of_fmap. by exists (id, e).
Qed.

Lemma has_none_metadata_app (a b : list (string * entry)) :
  has_none_metadata (a ++ b) = has_none_metadata a || has_none_metadata b.
Proof. apply existsb_app. Qed.

Lemma add_batches_fresh (batches : list (list (string * entry)))
    (c : gmap string entry) :
  rejects_none_metadata semantics && has_none_metadata (concat batches)
  = false →
  NoDup (concat batches).*1 →
  (∀ id, id ∈ (concat batches).*1 → c !! id = None) →
  add_batches semantics batches c
  = (list_to_map (concat batches) ∪ c, Returns ()).
Proof.
  revert c.
  induction batches as [|batch batches IH]; intros c Hmeta Hnodup Hfresh.
  { cbn [add_batches]. f_equal. symmetry. apply (left_id_L ∅ (∪)). }
  cbn [concat] in Hmeta, Hnodup, Hfresh.
  rewrite has_none_metadata_app in Hmeta.
  rewrite fmap_app in Hnodup, Hfresh.
  apply NoDup_app in Hnodup as (Hbatch & Hdisjoint & Hrest).
  assert (rejects_none_metadata semantics && has_none_metadata batch = false
          ∧ rejects_none_metadata semantics
            && has_none_metadata (concat batches) = false)
    as [Hhere Hlater].
  { destruct (rejects_none_metadata semantics); [|done].
    cbn [andb] in *. by apply orb_false_elim in Hmeta. }
  cbn [add_batches]. rewrite coll_add_fresh; [|done|done|].
  - rewrite IH; [|done|done|].
    + cbn [concat]. rewrite list_to_map_app.
      rewrite (assoc_L (∪)). f_equal. f_equal.
      apply map_union_comm, map_disjoint_spec.
      intros id e1 e2 H1 H2.
      apply (Hdisjoint id).
      * apply list_elem_of_fmap. exists (id, e2). split; [done|].
        by apply elem_of_list_to_map_2.
      * apply list_elem_of_fmap. exists (id, e1). split; [done|].
        by apply elem_of_list_to_map_2.
    + intros id Hin. apply lookup_union_None. split.
      * apply not_elem_of_list_to_map_1. intros Hb. by apply (Hdisjoint id).
      * apply Hfresh, elem_of_app. by right.
  - intros id Hin. apply Hfresh, elem_of_app. by left.
Qed.

Lemma for_each_metadata {A} (body : A → outcome (string * entry))
    (l : list A) docs :
  for_each body l = Returns docs →
  Forall (λ x, ∀ doc, body x = Returns doc →
                 none_in_metadata (meta doc.2) = false) l →
  has_none_metadata docs = false.
Proof.
  intros Hloop%for_each_Forall2 Hall.
  induction Hloop as [|x doc l docs Hx _ IH]; [done|].
  apply Forall_cons in Hall as [Hhere Hall].
  unfold has_none_metadata in *. cbn [existsb].
  by rewrite (Hhere _ Hx), IH.
Qed.


(** The five parts of the documents of a rebuild. *)
Lemma render_documents_parts content docs :
  render_documents embed content = Returns docs →
  ∃ page_docs feature_docs policy_docs product_docs category_docs,
    for_each (page_doc embed) pages = Returns page_docs
    ∧ for_each (feature_doc embed) (PyList.enumerate features)
      = Returns feature_docs
    ∧ for_each (policy_doc embed) policies = Returns policy_docs
    ∧ for_each (product_doc embed) (products content) = Returns product_docs
    ∧ for_each (category_doc embed) (categories content)
      = Returns category_docs
    ∧ docs = page_docs ++ feature_docs ++ policy_docs ++ product_docs
             ++ category_docs.
Proof.
  unfold render_documents. intros Hrender.
  destruct (for_each (page_doc embed) pages) as [page_docs|]; [|done].
  cbn [mbind outcome_bind] in Hrender.
  destruct (for_each (feature_doc embed) _) as [feature_docs|]; [|done].
  cbn [mbind outcome_bind] in Hrender.
  destruct (for_each (policy_doc embed) policies) as [policy_docs|]; [|done].
  cbn [mbind outcome_bind] in Hrender.
  destruct (for_each (product_doc embed) _) as [product_docs|]; [|done].
  cbn [mbind outcome_bind] in Hrender.
  destruct (for_each (category_doc embed) _) as [category_docs|]; [|done].
  cbn [mbind outcome_bind] in Hrender. injection Hrender as <-.
  by eexists _, _, _, _, _.
Qed.

(** Only a product row without id or category puts a [None] into the
    metadata. *)
Lemma rendered_metadata content docs :
  render_documents embed content = Returns docs →
  Forall (λ p, is_Some (product_id p) ∧ is_Some (product_type p))
    (products content) →
  has_none_metadata docs = false.
Proof.
  intros (page_docs & feature_docs & policy_docs & product_docs
          & category_docs & Hpages & Hfeatures & Hpolicies & Hproducts
          & Hcategories & ->)%render_documents_parts Hrows.
  rewrite !has_none_metadata_app.
  rewrite (for_each_metadata _ _ _ Hpages).
  2: { apply Forall_forall. intros page _ doc. unfold page_doc.
       destruct (embed _); [|done]. by intros [= <-]. }
  rewrite (for_each_metadata _ _ _ Hfeatures).
  2: { apply Forall_forall. intros feature _ doc. unfold feature_doc.
       destruct (embed _); [|done]. by intros [= <-]. }
  rewrite (for_each_metadata _ _ _ Hpolicies).
  2: { apply Forall_forall. intros policy _ doc. unfold policy_doc.
       destruct (embed _); [|done]. by intros [= <-]. }
  rewrite (for_each_metadata _ _ _ Hproducts).
  2: { eapply Forall_impl; [exact Hrows|].
       intros product [[id Hid] [type Htype]] doc. unfold product_doc.
       destruct (embed _); [|done]. cbn [mbind outcome_bind].
       destruct (product_price product); [|done]. intros [= <-].
       cbn [snd meta]. by rewrite Hid, Htype. }
  rewrite (for_each_metadata _ _ _ Hcategories); [done|].
  apply Forall_forall. intros category _ doc. unfold category_doc.
  destruct (embed _); [|done]. by intros [= <-].
Qed.

(** X11: when the collection clears on the empty filter, the documents
    of a rebuild have distinct ids and, for a collection that takes no
    [None] in the metadata, every product row has an id and a category,
    the rebuild raises nothing and leaves exactly those documents:
    looking up the id of a document gives its text, embedding and
    metadata, nothing else is stored, and the collection holds the 29
    fixed documents plus one per product row and one per category. This
    holds for every way the collection treats ids it already holds. *)
Theorem X11_rebuild_stores_exactly_the_rendered_documents
    (c : gmap string entry) content docs :
  delete_all_clears semantics = true →
  render_documents embed content = Returns docs →
  NoDup docs.*1 →
  (rejects_none_metadata semantics = true →
   Forall (λ p, is_Some (product_id p) ∧ is_Some (product_type p))
     (products content)) →
  ∃ index,
    build_knowledge_embeddings semantics embed (Some c) content
    = (Some index, Returns ())
    ∧ (∀ id e, index !! id = Some e ↔ (id, e) ∈ docs)
    ∧ size index
      = (29 + length (products content) + length (categories content))%nat.
Proof.
  intros Hclear Hrender Hnodup Hrows.
  exists (list_to_map docs). unfold build_knowledge_embeddings, coll_delete.
  rewrite Hclear, Hrender.
  rewrite add_batches_fresh; rewrite batches_cover by lia; [|  |done|].
  - rewrite (right_id_L ∅ (∪)). split_and!; [done | |].
    + intros id e. symmetry. by apply elem_of_list_to_map.
    + rewrite map_size_list_to_map by done.
      rewrite <- (length_fmap fst docs), (rendered_ids embed content docs)
        by done.
      rewrite !length_app, !length_fmap, length_seq. cbn [length pages
        features policies]. lia.
  - destruct (rejects_none_metadata semantics); [|done].
    cbn [andb]. by apply (rendered_metadata content), Hrows.
  - intros id _. apply lookup_empty.
Qed.

(** X12: one product row whose price is NULL makes the rebuild raise
    [TypeError] before anything is added: with an embedder that does not
    fail, the collection is left as the clearing step left it, without
    the pages, features and policies. *)
Theorem X12_null_price_aborts_the_rebuild
    (c : gmap string entry) content product :
  (∀ text, ∃ vector, embed text = Returns vector) →
  product ∈ products content →
  product_price product = None →
  build_knowledge_embeddings semantics embed (Some c) content
  = (Some (if delete_all_clears semantics then ∅ else c), Raises TypeError).
Proof.
  intros Hembed Hin Hnull.
  assert (∃ e, for_each (product_doc embed) (products content) = Raises e)
    as [e Hraise].
  { apply (for_each_Raises _ _ product TypeError Hin).
    unfold product_doc. destruct (Hembed (product_text product)) as [v ->].
    cbn [mbind outcome_bind]. by rewrite Hnull. }
  assert (e = TypeError) as ->.
  { eapply for_each_Raises_only; [|exact Hraise].
    intros x e'. unfold product_doc.
    destruct (Hembed (product_text x)) as [v ->].
    cbn [mbind outcome_bind].
    destruct (product_price x); [done | by intros [= <-]]. }
  unfold build_knowledge_embeddings, coll_delete, render_documents.
  destruct (for_each_total (page_doc embed) pages) as [page_docs ->].
  { intros page _. unfold page_doc. destruct (Hembed ("Page " +:+ page.1 +:+ ": " +:+ page.2)) as [v ->]. by eexists. }
  destruct (for_each_total (feature_doc embed) (PyList.enumerate features))
    as [feature_docs ->].
  { intros feature _. unfold feature_doc.
    destruct (Hembed ("Website feature: " +:+ feature.2)) as [v ->].
    by eexists. }
  destruct (for_each_total (policy_doc embed) policies) as [policy_docs ->].
  { intros policy _. unfold policy_doc.
    destruct (Hembed (PyStr.title policy.1 +:+ " Policy: " +:+ policy.2))
      as [v ->]. by eexists. }
  cbn [mbind outcome_bind]. rewrite Hraise. cbn [mbind outcome_bind].
  by destruct (delete_all_clears semantics).
Qed.

(** *** A product row without category *)





End knowledge_index.

Lemma X10_witness :
  Knowledge.content
    <$> Knowledge.search_knowledge Knowledge.length_embed Knowledge.scan_query
          (Some {[ "policy_returns" :=
                     {| Knowledge.document := "Returns Policy: 30 days";
                        Knowledge.embedding := [];
                        Knowledge.meta := Knowledge.PolicyMeta "returns" |} ]})
          "can I send it back" 5
  = ["Returns Policy: 30 days"].
Proof.
  destruct (X10_search_knowledge_is_all_or_nothing
              Knowledge.length_embed Knowledge.scan_query
              {[ "policy_returns" :=
                   {| Knowledge.document := "Returns Policy: 30 days";
                      Knowledge.embedding := [];
                      Knowledge.meta := Knowledge.PolicyMeta "returns" |} ]}
              "can I send it back" 5 [18%Q]
              {| Knowledge.documents := Some [["Returns Policy: 30 days"]];
                 Knowledge.metadatas :=
                   Some [[Knowledge.PolicyMeta "returns"]];
                 Knowledge.distances := Some (Some [[0%Q]]) |}
              ["Returns Policy: 30 days"] [])
    as [Hnone | [Hcontent _]].
  - reflexivity.
  - by vm_compute.
  - reflexivity.
  - exfalso. vm_compute in Hnone. discriminate Hnone.
  - exact Hcontent.
Defined.

Lemma X11_witness :
  ∃ index,
    Knowledge.build_knowledge_embeddings Knowledge.strict_store
      Knowledge.length_embed (Some ∅) Knowledge.snapshot
    = (Some index, Returns ())
    ∧ size index = 33%nat.
Proof.
  destruct (Knowledge.render_documents Knowledge.length_embed
              Knowledge.snapshot) as [docs|e] eqn:Hrender.
  2: { exfalso. vm_compute in Hrender. discriminate Hrender. }
  destruct (X11_rebuild_stores_exactly_the_rendered_documents
              Knowledge.strict_store
              Knowledge.length_embed ∅ Knowledge.snapshot docs)
    as (index & Hbuild & _ & Hsize).
  - reflexivity.
  - exact Hrender.
  - rewrite (rendered_ids _ _ _ Hrender).
    apply (bool_decide_unpack _). by vm_compute.
  - intros _. repeat constructor; by eexists.
  - exists index. split; [exact Hbuild | exact Hsize].
Defined.

Lemma X12_witness :
  Knowledge.build_knowledge_embeddings Knowledge.keep_existing
    Knowledge.length_embed (Some ∅)
    {| Knowledge.products :=
         [ {| Knowledge.product_id := Some 3%Z;
              Knowledge.product_name := Some "Scarf";
              Knowledge.product_discription := None;
              Knowledge.product_type := Some "accessories";
              Knowledge.product_price := None;
              Knowledge.stock_quantity := None |} ];
       Knowledge.categories := ["accessories"] |}
  = (Some ∅, Raises TypeError).
Proof.
  eapply (X12_null_price_aborts_the_rebuild Knowledge.keep_existing
            Knowledge.length_embed ∅).
  - intros text. by eexists.
  - left.
  - reflexivity.
Defined.


(** ** The message cache of the engine *)

Section message_cache.
Import ChatHistory.

Lemma slice_from_last {A} (n : nat) (l : list A) :
  (0 < n)%nat →
  slice_from (- Z.of_nat n) l = drop (length l - n) l.
Proof.
  intros Hn. unfold slice_from.
  replace (0 <=? - Z.of_nat n)%Z with false by (symmetry; apply Z.leb_gt; lia).
  do 2 f_equal. lia.
Qed.

Lemma slice_from_length {A} (n : nat) (l : list A) :
  (0 < n)%nat →
  length (slice_from (- Z.of_nat n) l) = (length l `min` n)%nat.
Proof. intros. rewrite slice_from_last, length_drop by done. lia. Qed.

Lemma slice_from_all {A} (n : nat) (l : list A) :
  (length l ≤ n)%nat → (0 < n)%nat → slice_from (- Z.of_nat n) l = l.
Proof.
  intros. rewrite slice_from_last by done.
  replace (length l - n)%nat with 0%nat by lia. apply drop_0.
Qed.

(** X13: the cache never holds more than five messages of a session:
    saving a message and reading a history both keep that bound. *)
Theorem X13_cache_holds_at_most_five_messages
    db now cache session_id sender message intent confidence user_email
    current_page response_time_ms limit :
  cache_bounded cache →
  cache_bounded
    (save_message_to_history db now cache session_id sender message intent
       confidence user_email current_page response_time_ms).2
  ∧ cache_bounded (get_conversation_history db cache session_id limit).2.
Proof.
  intros Hbounded. split.
  - unfold save_message_to_history.
    destruct (save_message _ _ _ _ _ _ _ _ _); [|done]. cbn [snd].
    set (message_obj := {| sender := sender |}).
    set (cache1 := match cache !! session_id with
                   | None => <[session_id := []]> cache
                   | Some _ => cache
                   end).
    assert (∃ cached, default [] (cache1 !! session_id) = cached
                      ∧ (length cached ≤ 5)%nat) as (cached & -> & Hlen).
    { unfold cache1. destruct (cache !! session_id) as [cached|] eqn:Hc.
      - exists cached. rewrite Hc. split; [done|]. by eapply Hbounded.
      - exists []. rewrite lookup_insert_eq. split; [done|]. cbn. lia. }
    rewrite lookup_insert_eq. cbn [default from_option id].
    assert (cache_bounded cache1) as Hbounded1.
    { unfold cache1. destruct (cache !! session_id); [done|].
      intros sid l. destruct (decide (sid = session_id)) as [->|Hne].
      - rewrite lookup_insert_eq. intros [= <-]. cbn. lia.
      - rewrite lookup_insert_ne by done. apply Hbounded. }
    intros sid l. destruct (5 <? length (cached ++ [message_obj]))%nat eqn:Hfull.
    + destruct (decide (sid = session_id)) as [->|Hne].
      * rewrite lookup_insert_eq. intros [= <-].
        rewrite (slice_from_length 5) by lia. lia.
      * rewrite !lookup_insert_ne by done. apply Hbounded1.
    + apply Nat.ltb_ge in Hfull.
      destruct (decide (sid = session_id)) as [->|Hne].
      * rewrite lookup_insert_eq. by intros [= <-].
      * rewrite lookup_insert_ne by done. apply Hbounded1.
  - unfold get_conversation_history.
    destruct (match cache !! session_id with
              | Some cached_messages => _
              | None => None
              end); [done|].
    cbn [snd]. intros sid l.
    destruct (decide (sid = session_id)) as [->|Hne].
    + rewrite lookup_insert_eq. intros [= <-].
      destruct (get_session_history db session_id limit) as [|m history];
        [cbn; lia|].
      rewrite (slice_from_length 5) by lia. lia.
    + rewrite lookup_insert_ne by done. apply Hbounded.
Qed.

Lemma X13_witness :
  cache_bounded
    (save_message_to_history (Some accepting_db) 0 ∅ "s1" "user" "hello"
       None None None None None).2.
Proof.
  apply (X13_cache_holds_at_most_five_messages (Some accepting_db) 0 ∅ "s1"
           "user" "hello" None None None None None 10).
  intros session_id cached_messages Hlookup.
  by rewrite lookup_empty in Hlookup.
Defined.

(** The cached list of a session after a successful save ends with the
    saved message. *)
Lemma saved_message_is_cached
    db now cache session_id sender message intent confidence user_email
    current_page response_time_ms cache' :
  save_message_to_history db now cache session_id sender message intent
    confidence user_email current_page response_time_ms
  = (true, cache') →
  ∃ earlier,
    cache' !! session_id
    = Some (earlier
            ++ [{| sender := sender; message := message; intent := intent;
                   confidence := confidence; current_page := current_page;
                   timestamp := Some (isoformat now) |}]).
Proof.
  unfold save_message_to_history.
  destruct (save_message _ _ _ _ _ _ _ _ _); [|done]. intros [= <-].
  set (message_obj := {| sender := sender |}).
  set (cache1 := match cache !! session_id with
                 | None => <[session_id := []]> cache
                 | Some _ => cache
                 end).
  rewrite lookup_insert_eq. cbn [default from_option id].
  destruct (5 <? length _)%nat.
  - rewrite lookup_insert_eq.
    change (-5)%Z with (- Z.of_nat 5)%Z. rewrite slice_from_last by lia.
    rewrite length_app. cbn [length].
    rewrite drop_app_le by lia. by eexists.
  - rewrite lookup_insert_eq. by eexists.
Qed.

(** X14: after a message was saved, a request for the last message of
    the session returns the saved message, with the reading of the
    clock as its timestamp, and leaves the cache as it is; it is answered
    from the cache, whatever the database holds or whether it is
    reachable at all. *)
Theorem X14_saved_message_is_read_back
    db db' now cache session_id sender message intent confidence user_email
    current_page response_time_ms cache' :
  save_message_to_history db now cache session_id sender message intent
    confidence user_email current_page response_time_ms
  = (true, cache') →
  get_conversation_history db' cache' session_id 1
  = ([{| sender := sender; message := message; intent := intent;
         confidence := confidence; current_page := current_page;
         timestamp := Some (isoformat now) |}],
     cache').
Proof.
  intros (earlier & Hcached)%saved_message_is_cached.
  unfold get_conversation_history. rewrite Hcached.
  rewrite length_app. cbn [length].
  replace (_ >=? _)%Z with true by (symmetry; apply Z.geb_le; lia).
  f_equal. rewrite (slice_from_last 1) by lia.
  rewrite length_app. cbn [length].
  rewrite drop_app_le by lia.
  replace (length earlier + 1 - 1)%nat with (length earlier) by lia.
  by rewrite drop_all.
Qed.

Lemma X14_witness :
  (get_conversation_history None
     (save_message_to_history (Some accepting_db) 0 ∅ "s1" "user" "hello"
        None None None None None).2
     "s1" 1).1
  = [{| sender := "user"; message := "hello"; intent := None;
        confidence := None; current_page := None;
        timestamp := Some "1970-01-01T00:00:00" |}].
Proof.
  rewrite (X14_saved_message_is_read_back (Some accepting_db) None 0 ∅ "s1"
             "user" "hello" None None None None None
             (save_message_to_history (Some accepting_db) 0 ∅ "s1" "user"
                "hello" None None None None None).2 eq_refl).
  reflexivity.
Defined.

(** X15: once five messages of a session are cached, every request
    with a limit of five or more is answered with exactly those five,
    however many messages the database holds; and a request with limit 0
    is answered with everything that is cached for the session, not with
    nothing. Neither request reaches the database. *)
Theorem X15_cache_answers_before_the_database
    db cache session_id cached_messages limit :
  cache !! session_id = Some cached_messages →
  (length cached_messages = 5%nat →
   (5 ≤ limit)%Z →
   get_conversation_history db cache session_id limit
   = (cached_messages, cache))
  ∧ get_conversation_history db cache session_id 0 = (cached_messages, cache).
Proof.
  intros Hcached. unfold get_conversation_history. rewrite Hcached. split.
  - intros Hlen Hlimit. rewrite Hlen.
    replace (_ >=? _)%Z with true by (symmetry; apply Z.geb_le; lia).
    f_equal. unfold slice_from.
    replace (0 <=? - limit)%Z with false by (symmetry; apply Z.leb_gt; lia).
    replace (length cached_messages - Z.to_nat (- - limit))%nat with 0%nat
      by lia.
    apply drop_0.
  - replace (_ >=? _)%Z with true by (symmetry; apply Z.geb_le; lia).
    done.
Qed.

Lemma X15_witness :
  get_conversation_history None
    {[ "s1" := [{| sender := "bot"; message := "hi"; intent := None;
                   confidence := None; current_page := None;
                   timestamp := None |}] ]}
    "s1" 0
  = ([{| sender := "bot"; message := "hi"; intent := None;
         confidence := None; current_page := None; timestamp := None |}],
     {[ "s1" := [{| sender := "bot"; message := "hi"; intent := None;
                    confidence := None; current_page := None;
                    timestamp := None |}] ]}).
Proof.
  apply (X15_cache_answers_before_the_database None _ "s1" _ 0).
  apply lookup_singleton_eq.
Defined.

(** X16: reading a history is not repeatable. When a session is not
    cached and the database returns five messages or more for a limit of
    five or more, the first request returns them all, oldest first, and
    the same request made again returns only the last five of them. *)
Theorem X16_second_read_returns_the_last_five
    db db' cache session_id limit rows :
  cache !! session_id = None →
  cursor db = Rows () →
  select_history db session_id limit = Rows rows →
  (5 ≤ length rows)%nat →
  (5 ≤ limit)%Z →
  let first := get_conversation_history (Some db) cache session_id limit in
  let second := get_conversation_history db' first.2 session_id limit in
  first.1 = reverse (with_iso_timestamp <$> rows)
  ∧ second.1 = drop (length rows - 5) first.1
  ∧ second.2 = first.2.
Proof.
  intros Hmiss Hcursor Hrows Hlen Hlimit first second.
  set (history := reverse (with_iso_timestamp <$> rows)).
  assert (length history = length rows) as Hhistory.
  { unfold history. by rewrite length_reverse, length_fmap. }
  assert (first = (history, <[session_id := slice_from (-5) history]> cache))
    as Hfirst.
  { unfold first, get_conversation_history, get_session_history.
    rewrite Hmiss, Hcursor, Hrows. fold history.
    destruct history; [cbn in Hhistory; lia | done]. }
  subst second. rewrite Hfirst. cbn [fst snd]. split; [done|].
  unfold get_conversation_history. rewrite lookup_insert_eq.
  rewrite (slice_from_length 5) by lia.
  replace (_ >=? _)%Z with true by (symmetry; apply Z.geb_le; lia).
  cbn [fst snd]. split; [|done].
  rewrite (slice_from_last 5) by lia. unfold slice_from.
  replace (0 <=? - limit)%Z with false by (symmetry; apply Z.leb_gt; lia).
  rewrite length_drop.
  replace (length history - (length history - 5) - Z.to_nat (- - limit))%nat
    with 0%nat by lia.
  by rewrite drop_0, Hhistory.
Qed.

Lemma X16_witness :
  let db := talkative_db (note <$> [6; 5; 4; 3; 2; 1]%Z) in
  let first := get_conversation_history (Some db) ∅ "s1" 10 in
  let second := get_conversation_history None first.2 "s1" 10 in
  length first.1 = 6%nat ∧ length second.1 = 5%nat.
Proof.
  destruct (X16_second_read_returns_the_last_five
              (talkative_db (note <$> [6; 5; 4; 3; 2; 1]%Z)) None ∅ "s1" 10
              (note <$> [6; 5; 4; 3; 2; 1]%Z))
    as (Hfirst & Hsecond & _).
  - apply lookup_empty.
  - reflexivity.
  - reflexivity.
  - cbn. lia.
  - lia.
  - cbv zeta. rewrite Hsecond, length_drop, Hfirst.
    rewrite length_reverse, !length_fmap. split; reflexivity.
Defined.

End message_cache.

(** ** Intent analysis *)

Section intent_analysis.
Import Intent.

Lemma lookup_set_field_eq k v fields :
  lookup_field (set_field k v fields) k = Some v.
Proof.
  induction fields as [|[k' v'] fields IH]; cbn [set_field lookup_field].
  - by rewrite String.eqb_refl.
  - destruct (String.eqb k' k) eqn:Hk; cbn [lookup_field].
    + by rewrite String.eqb_refl.
    + by rewrite Hk.
Qed.

Lemma lookup_set_field_ne k k0 v fields :
  k ≠ k0 → lookup_field (set_field k v fields) k0 = lookup_field fields k0.
Proof.
  intros Hne.
  induction fields as [|[k' v'] fields IH]; cbn [set_field lookup_field].
  - by apply String.eqb_neq in Hne as ->.
  - destruct (String.eqb_spec k' k) as [->|Hk]; cbn [lookup_field].
    + by apply String.eqb_neq in Hne as ->.
    + by rewrite IH.
Qed.

Lemma take_digits_Some n s digits :
  take_digits n s = Some digits →
  String.length digits = n ∧ all_digits digits = true
  ∧ ∃ rest, s = digits +:+ rest.
Proof.
  revert s digits. induction n as [|n IH]; intros s digits; cbn.
  - intros [= <-]. split_and!; [done | done | by exists s].
  - destruct s as [|c s]; [done|].
    destruct (PyStr.is_digit c) eqn:Hc; [|done].
    destruct (take_digits n s) as [d|] eqn:Hd; [|done].
    intros [= <-]. destruct (IH _ _ Hd) as (Hlen & Hall & rest & ->).
    cbn. rewrite Hc, Hall, Hlen. split_and!; [done | done | by exists rest].
Qed.

Lemma match_tracking_Some s found :
  match_tracking s = Some found →
  ∃ digits rest,
    found = "TRK" +:+ digits
    ∧ String.length digits = 6%nat ∧ all_digits digits = true
    ∧ s = found +:+ rest.
Proof.
  unfold match_tracking. intros Hfound.
  repeat match type of Hfound with
    | match ?x with _ => _ end = _ => destruct x; try done
    end.
  destruct (take_digits 6 s) as [digits|] eqn:Hdigits; [|done].
  injection Hfound as <-.
  destruct (take_digits_Some _ _ _ Hdigits) as (Hlen & Hall & rest & ->).
  by exists digits, rest.
Qed.

(** What the tracking pattern finds is [TRK] and six digits, and it
    stands in the text. *)
Lemma search_tracking_Some s found :
  search_tracking s = Some found →
  (∃ digits,
     found = "TRK" +:+ digits
     ∧ String.length digits = 6%nat ∧ all_digits digits = true)
  ∧ PyStr.contains found s = true.
Proof.
  revert found. induction s as [|c s IH]; intros found.
  - cbn. done.
  - cbn [search_tracking].
    destruct (match_tracking (String c s)) as [m|] eqn:Hm.
    + intros [= <-].
      destruct (match_tracking_Some _ _ Hm) as (digits & rest & Hm' & ? & ? & Hs).
      split; [by exists digits|].
      apply contains_iff. exists "", rest. by rewrite Hs.
    + intros [Hshape Hin]%IH. split; [done|].
      apply contains_iff in Hin as (before & after & ->).
      apply contains_iff. by exists (String c before), after.
Qed.

Lemma digits_run_all_digits s : all_digits (digits_run s) = true.
Proof.
  induction s as [|c s IH]; [done|]. cbn.
  destruct (PyStr.is_digit c) eqn:Hc; [|done]. cbn. by rewrite Hc, IH.
Qed.

Lemma digits_run_prefix s : ∃ rest, s = digits_run s +:+ rest.
Proof.
  induction s as [|c s [rest IH]]; [by exists ""|]. cbn.
  destruct (PyStr.is_digit c); [|by eexists].
  exists rest. by rewrite append_cons, <- IH.
Qed.

Lemma after_hash_eq c s :
  match String c s with
  | String "#" s' => digits_run s'
  | _ => EmptyString
  end
  = if Ascii.eqb c "#" then digits_run s else EmptyString.
Proof. by destruct c as [[] [] [] [] [] [] [] []]. Qed.

Lemma search_order_id_Some s found :
  search_order_id s = Some found →
  found ≠ "" ∧ all_digits found = true ∧ PyStr.contains found s = true.
Proof.
  revert found. induction s as [|c s IH]; intros found.
  - cbn. done.
  - cbn [search_order_id].
    destruct (match_order_id (String c s)) as [m|] eqn:Hm.
    + intros [= <-]. unfold match_order_id in Hm.
      rewrite after_hash_eq in Hm.
      destruct (Ascii.eqb_spec c "#") as [->|Hc].
      * destruct (negb (String.eqb (digits_run s) "")) eqn:Hhash.
        -- injection Hm as <-.
           apply negb_true_iff, String.eqb_neq in Hhash.
           split_and!; [done | apply digits_run_all_digits |].
           destruct (digits_run_prefix s) as [rest Hrest].
           apply contains_iff. exists "#", rest. by rewrite <- Hrest.
        -- done.
      * cbn [String.eqb negb] in Hm.
        destruct (negb (String.eqb (digits_run (String c s)) "")) eqn:Hrun;
          [|done].
        injection Hm as <-.
        apply negb_true_iff, String.eqb_neq in Hrun.
        split_and!;
          [done | apply (digits_run_all_digits (String c s)) |].
        destruct (digits_run_prefix (String c s)) as [rest Hrest].
        apply contains_iff. exists "", rest. exact Hrest.
    + intros (Hne & Hall & Hin)%IH. split_and!; [done..|].
      apply contains_iff in Hin as (before & after & ->).
      apply contains_iff. by exists (String c before), after.
Qed.

Lemma override_object fields entities k v :
  lookup_field fields "entities" = Some (JObject entities) →
  override (JObject fields) k v
  = Returns
      (JObject
         (set_field "entities" (JObject (set_field k (JString v) entities))
            (set_field "intent" (JString "order_status") fields))).
Proof.
  intros Hentities. unfold override. cbn [setitem mbind outcome_bind getitem].
  rewrite lookup_set_field_ne by done. by rewrite Hentities.
Qed.

Lemma entity_missing_object fields entities k :
  lookup_field fields "entities" = Some (JObject entities) →
  entity_missing (JObject fields) k
  = Returns (negb (truthy (default JNull (lookup_field entities k)))).
Proof.
  intros Hentities. unfold entity_missing, py_get.
  cbn [mbind outcome_bind]. rewrite Hentities. cbn [mbind outcome_bind].
  by destruct (lookup_field entities k).
Qed.

(** What an override leaves of the answer. *)
Lemma overridden_fields fields entities k v :
  let result :=
    JObject
      (set_field "entities" (JObject (set_field k (JString v) entities))
         (set_field "intent" (JString "order_status") fields)) in
  top_field result "intent" = Some (JString "order_status")
  ∧ entity result k = Some (JString v)
  ∧ (∀ k', k' ≠ k → entity result k' = lookup_field entities k')
  ∧ (∀ k', k' ≠ "intent" → k' ≠ "entities" →
       top_field result k' = lookup_field fields k').
Proof.
  intros result. subst result. unfold entity, top_field. split_and!.
  - rewrite lookup_set_field_ne by done. apply lookup_set_field_eq.
  - rewrite lookup_set_field_eq. apply lookup_set_field_eq.
  - intros k' Hk'. rewrite lookup_set_field_eq.
    by apply lookup_set_field_ne.
  - intros k' Hintent Hentities.
    by rewrite !lookup_set_field_ne.
Qed.

(** X17: when the message holds a tracking number, in any letter case,
    and the answer of the model names none, the intent becomes
    [order_status] and the tracking number found, upper-cased, [TRK] and
    six digits, is stored among the entities; every other entity and
    every other field of the answer stays as the model gave it. *)
Theorem X17_tracking_number_overrides_the_model
    answer message fields entities group_0 :
  answer = Returns (JObject fields) →
  lookup_field fields "entities" = Some (JObject entities) →
  truthy (default JNull (lookup_field entities "tracking_number")) = false →
  search_tracking (upper message) = Some group_0 →
  let result := analyze_intent answer message in
  top_field result "intent" = Some (JString "order_status")
  ∧ entity result "tracking_number" = Some (JString group_0)
  ∧ (∀ k, k ≠ "tracking_number" →
       entity result k = lookup_field entities k)
  ∧ (∀ k, k ≠ "intent" → k ≠ "entities" →
       top_field result k = lookup_field fields k)
  ∧ (∃ digits,
       group_0 = "TRK" +:+ digits
       ∧ String.length digits = 6%nat ∧ all_digits digits = true)
  ∧ PyStr.contains group_0 (upper message) = true.
Proof.
  intros -> Hentities Hmissing Hmatch result. subst result.
  unfold analyze_intent. rewrite Hmatch. cbn [mbind outcome_bind].
  rewrite (entity_missing_object _ _ "tracking_number" Hentities), Hmissing.
  cbn [mbind outcome_bind negb].
  rewrite (override_object _ _ _ _ Hentities).
  destruct (overridden_fields fields entities "tracking_number" group_0)
    as (? & ? & ? & ?).
  destruct (search_tracking_Some _ _ Hmatch) as [? ?].
  by split_and!.
Qed.

Lemma X17_witness :
  entity
    (analyze_intent
       (Returns (JObject [("intent", JString "general_chat");
                          ("entities", JObject [("category", JNull)]);
                          ("confidence", JNumber 0.8%Q)]))
       "where is trk647975?")
    "tracking_number"
  = Some (JString "TRK647975").
Proof.
  apply (X17_tracking_number_overrides_the_model
           (Returns (JObject [("intent", JString "general_chat");
                              ("entities", JObject [("category", JNull)]);
                              ("confidence", JNumber 0.8%Q)]))
           "where is trk647975?"
           [("intent", JString "general_chat");
            ("entities", JObject [("category", JNull)]);
            ("confidence", JNumber 0.8%Q)]
           [("category", JNull)] "TRK647975");
    reflexivity.
Defined.

(** X18: when the message holds a tracking number and the answer of
    the model is a dictionary without the key [entities], writing the
    number raises [KeyError] and the handler answers with the keyword
    fallback: confidence 0.3 and no entities, so the tracking number
    that was found is not passed on. *)
Theorem X18_missing_entities_loses_the_tracking_number
    answer message fields group_0 :
  answer = Returns (JObject fields) →
  lookup_field fields "entities" = None →
  search_tracking (upper message) = Some group_0 →
  analyze_intent answer message = fallback message
  ∧ entity (analyze_intent answer message) "tracking_number" = None
  ∧ top_field (analyze_intent answer message) "confidence"
    = Some (JNumber 0.3%Q).
Proof.
  intros -> Hentities Hmatch.
  assert (analyze_intent (Returns (JObject fields)) message
          = fallback message) as ->; [|done].
  unfold analyze_intent. rewrite Hmatch. cbn [mbind outcome_bind].
  unfold entity_missing, py_get. rewrite Hentities.
  cbn [mbind outcome_bind lookup_field truthy negb].
  unfold override. cbn [setitem mbind outcome_bind getitem].
  rewrite lookup_set_field_ne by done. by rewrite Hentities.
Qed.

Lemma X18_witness :
  analyze_intent
    (Returns (JObject [("intent", JString "order_status")]))
    "Track TRK647975"
  = JObject [ ("intent", JString "order_status");
              ("entities", JObject []);
              ("confidence", JNumber 0.3%Q) ].
Proof.
  apply (X18_missing_entities_loses_the_tracking_number
           (Returns (JObject [("intent", JString "order_status")]))
           "Track TRK647975" [("intent", JString "order_status")]
           "TRK647975");
    reflexivity.
Defined.

(** X19: when the model already named the tracking number, or the
    message holds none, a message that says "track" and holds digits
    gets the first run of digits of the message as [order_id], unless
    the model named an order id; the run is taken wherever it stands,
    also inside a tracking number. *)
Theorem X19_first_digits_become_the_order_id
    answer message fields entities group_1 :
  answer = Returns (JObject fields) →
  lookup_field fields "entities" = Some (JObject entities) →
  (search_tracking (upper message) = None
   ∨ truthy (default JNull (lookup_field entities "tracking_number")) = true) →
  truthy (default JNull (lookup_field entities "order_id")) = false →
  PyStr.contains "track" (PyStr.lower message) = true →
  search_order_id message = Some group_1 →
  let result := analyze_intent answer message in
  top_field result "intent" = Some (JString "order_status")
  ∧ entity result "order_id" = Some (JString group_1)
  ∧ (∀ k, k ≠ "order_id" → entity result k = lookup_field entities k)
  ∧ group_1 ≠ "" ∧ all_digits group_1 = true
  ∧ PyStr.contains group_1 message = true.
Proof.
  intros -> Hentities Htracking Hmissing Htrack Hmatch result. subst result.
  unfold analyze_intent. rewrite Hmatch. cbn [mbind outcome_bind].
  assert (∀ found : option string,
            found = search_tracking (upper message) →
            match
              (by_tracking ← match found with
                             | Some _ =>
                                 entity_missing (JObject fields)
                                   "tracking_number"
                             | None => Returns false
                             end;
               match found, by_tracking with
               | Some group_0, true =>
                   override (JObject fields) "tracking_number" group_0
               | _, _ =>
                   by_order_id ← (missing ← entity_missing (JObject fields)
                                              "order_id";
                                  Returns
                                    (missing
                                     && PyStr.contains "track"
                                          (PyStr.lower message)));
                   match by_order_id with
                   | true => override (JObject fields) "order_id" group_1
                   | false => Returns (JObject fields)
                   end
               end)
            with
            | Returns intent_data => intent_data
            | Raises _ => fallback message
            end
            = JObject
                (set_field "entities"
                   (JObject (set_field "order_id" (JString group_1) entities))
                   (set_field "intent" (JString "order_status") fields)))
    as Hbody.
  { intros found Hfound.
    rewrite !(entity_missing_object _ _ _ Hentities), Hmissing, Htrack.
    cbn [negb andb].
    destruct found as [group_0|]; cbn [mbind outcome_bind].
    - destruct Htracking as [Hnone | ->]; [congruence|].
      cbn [negb mbind outcome_bind].
      by rewrite (override_object _ _ _ _ Hentities).
    - by rewrite (override_object _ _ _ _ Hentities). }
  rewrite (Hbody _ eq_refl).
  destruct (overridden_fields fields entities "order_id" group_1)
    as (? & ? & ? & ?).
  destruct (search_order_id_Some _ _ Hmatch) as (? & ? & ?).
  by split_and!.
Qed.

Lemma X19_witness :
  entity
    (analyze_intent
       (Returns
          (JObject [("intent", JString "order_status");
                    ("entities",
                     JObject [("tracking_number", JString "TRK647975")])]))
       "Track TRK647975")
    "order_id"
  = Some (JString "647975").
Proof.
  apply (X19_first_digits_become_the_order_id
           (Returns
              (JObject [("intent", JString "order_status");
                        ("entities",
                         JObject [("tracking_number",
                                   JString "TRK647975")])]))
           "Track TRK647975"
           [("intent", JString "order_status");
            ("entities", JObject [("tracking_number", JString "TRK647975")])]
           [("tracking_number", JString "TRK647975")] "647975");
    try reflexivity.
  right. reflexivity.
Defined.

End intent_analysis.

(** ** The statement of the product search *)

Section product_query.
Import Intent ProductSearch.

Variable Row : Type.
Variable str_other : json → string.

Lemma count_placeholders_app (a b : string) :
  ends_with_percent a = false →
  count_placeholders (a +:+ b)
  = (count_placeholders a + count_placeholders b)%nat.
Proof.
  induction a as [|c a IH]; [done|]. intros Hend.
  rewrite append_cons. cbn [count_placeholders].
  destruct a as [|c' a].
  - cbn [ends_with_percent] in Hend. rewrite Hend. cbn. done.
  - rewrite IH by done. rewrite append_cons.
    replace (String.prefix "s" (String c' (a +:+ b)))
      with (String.prefix "s" (String c' a)); [lia|].
    cbn [String.prefix]. destruct (ascii_dec _ c'); [|done].
    by destruct (a +:+ b), a.
Qed.

Lemma ends_with_percent_app (a b : string) :
  b ≠ "" → ends_with_percent (a +:+ b) = ends_with_percent b.
Proof.
  intros Hb. induction a as [|c a IH]; [done|].
  rewrite append_cons. cbn [ends_with_percent]. rewrite IH.
  destruct (a +:+ b) eqn:Hab; [|done].
  destruct a, b; done.
Qed.

Lemma join_conditions (n : nat) :
  count_placeholders (join " OR " (replicate (S n) keyword_condition))
  = (2 * S n)%nat
  ∧ ends_with_percent (join " OR " (replicate (S n) keyword_condition))
    = false.
Proof.
  induction n as [|n [IHcount IHend]]; [done|].
  change (join " OR " (replicate (S (S n)) keyword_condition))
    with (keyword_condition +:+ " OR "
          +:+ join " OR " (replicate (S n) keyword_condition)).
  split.
  - rewrite !count_placeholders_app, IHcount by done.
    change (count_placeholders keyword_condition) with 2%nat.
    change (count_placeholders " OR ") with 0%nat. lia.
  - rewrite !ends_with_percent_app; [done | |done].
    by destruct n.
Qed.

Lemma keywords_text_placeholders n :
  count_placeholders (keywords_text n) = (2 * n)%nat
  ∧ ends_with_percent (keywords_text n) = false.
Proof.
  destruct n as [|n]; [done|]. unfold keywords_text.
  destruct (join_conditions n) as [Hjoin Hjoin_end]. split.
  - rewrite !count_placeholders_app, Hjoin; [done | exact Hjoin_end | done].
  - rewrite ends_with_percent_app.
    + by rewrite ends_with_percent_app.
    + by destruct (join " OR " (replicate (S n) keyword_condition)).
Qed.

Lemma ends_with_percent_pieces (a b : string) :
  ends_with_percent a = false → ends_with_percent b = false →
  ends_with_percent (a +:+ b) = false.
Proof.
  intros Ha Hb. destruct b as [|c b]; [by rewrite append_nil_r|].
  by rewrite ends_with_percent_app.
Qed.

(** Every statement the search can send has one [%s] for each of its
    keywords twice, one for the category and two for the price range. *)
Lemma query_text_placeholders keywords category price_range :
  count_placeholders (query_text keywords category price_range)
  = (2 * keywords + (if category then 1 else 0)
     + (if price_range then 2 else 0))%nat.
Proof.
  unfold query_text.
  destruct (keywords_text_placeholders keywords) as [Hcount Hend].
  assert (ends_with_percent (category_text category) = false) as Hcat
    by by destruct category.
  assert (ends_with_percent (price_range_text price_range) = false) as Hprice
    by by destruct price_range.
  rewrite !count_placeholders_app; [| done..].
  rewrite Hcount.
  change (count_placeholders select_products) with 0%nat.
  change (count_placeholders " ORDER BY p.product_ranking DESC LIMIT 10")
    with 0%nat.
  destruct category, price_range; cbn; lia.
Qed.

Lemma fmap_constant_replicate {A B} (b : B) (l : list A) :
  (λ _, b) <$> l = replicate (length l) b.
Proof. induction l as [|x l IH]; [done|]. cbn. by rewrite IH. Qed.

Lemma add_keywords_Returns entities query params query' params' :
  add_keywords str_other entities query params = Returns (query', params') →
  ∃ n, query' = query +:+ keywords_text n
       ∧ length params' = (length params + 2 * n)%nat.
Proof.
  unfold add_keywords.
  destruct (py_get entities "product_keywords" (JArray [])) as [keywords|];
    [|done].
  cbn [mbind outcome_bind]. destruct (truthy keywords).
  2:{ intros [= <- <-]. exists 0%nat. rewrite append_nil_r. split; [done|lia]. }
  destruct (iterate keywords) as [items|]; [|done].
  cbn [mbind outcome_bind]. intros Hbuilt. exists (length items).
  assert (length (params
                  ++ concat ((λ keyword,
                                [ JString ("%" +:+ fmt str_other keyword
                                           +:+ "%");
                                  JString ("%" +:+ fmt str_other keyword
                                           +:+ "%") ])
                             <$> items))
          = (length params + 2 * length items)%nat) as Hlen.
  { rewrite length_app. f_equal. clear.
    induction items as [|item items IH]; [done|]. cbn. rewrite IH. lia. }
  destruct items as [|item items].
  - cbn in Hbuilt. injection Hbuilt as <- <-.
    rewrite append_nil_r. split; [done|]. cbn. rewrite length_app. cbn. lia.
  - rewrite fmap_constant_replicate in Hbuilt.
    cbn [length replicate] in Hbuilt. injection Hbuilt as <- <-.
    split; [done | exact Hlen].
Qed.

Lemma add_category_Returns entities query params query' params' :
  add_category entities query params = Returns (query', params') →
  ∃ category : bool,
    query' = query +:+ category_text category
    ∧ length params' = (length params + if category then 1 else 0)%nat.
Proof.
  unfold add_category.
  destruct (py_get entities "category" JNull) as [category|]; [|done].
  cbn [mbind outcome_bind]. destruct (truthy category).
  - destruct (getitem entities "category") as [value|]; [|done].
    cbn [mbind outcome_bind]. intros [= <- <-]. exists true.
    split; [done|]. rewrite length_app. cbn. lia.
  - intros [= <- <-]. exists false. rewrite append_nil_r. split; [done|lia].
Qed.

Lemma add_price_range_Returns entities query params query' params' :
  add_price_range entities query params = Returns (query', params') →
  ∃ price_range : bool,
    query' = query +:+ price_range_text price_range
    ∧ length params' = (length params + if price_range then 2 else 0)%nat.
Proof.
  unfold add_price_range.
  destruct (py_get entities "price_range" JNull) as [price_range|]; [|done].
  cbn [mbind outcome_bind].
  assert (∀ two,
            (if truthy price_range
             then n ← py_len price_range; Returns (n =? 2)%nat
             else Returns false) = Returns two →
            two = true →
            ∃ items, iterate price_range = Returns items
                     ∧ length items = 2%nat) as Htwo.
  { intros two Htwo ->. destruct (truthy price_range); [|done].
    destruct price_range as [| | |s|items|fields]; try done;
      cbn [py_len mbind outcome_bind] in Htwo; injection Htwo as Hlen;
      apply Nat.eqb_eq in Hlen; cbn [iterate]; eexists; (split; [done|]).
    - rewrite length_fmap. clear -Hlen.
      by destruct s as [|? [|? [|? ?]]].
    - done.
    - by rewrite !length_fmap. }
  destruct (if truthy price_range then _ else _) as [two|]; [|done].
  cbn [mbind outcome_bind]. destruct two.
  - destruct (Htwo true eq_refl eq_refl) as (items & -> & Hlen).
    cbn [mbind outcome_bind]. intros [= <- <-]. exists true.
    split; [done|]. rewrite length_app. lia.
  - intros [= <- <-]. exists false. rewrite append_nil_r. split; [done|lia].
Qed.

(** X20: the statement the product search sends is one of a fixed
    family of texts, chosen by the number of keywords and by the presence
    of a category and of a price range of two items; no value of the
    request is part of the text, the values travel as parameters, and
    the text has exactly one [%s] for each parameter. *)
Theorem X20_search_statement_has_one_placeholder_per_parameter
    entities query params :
  build_query str_other entities = Returns (query, params) →
  count_placeholders query = length params
  ∧ ∃ keywords category price_range,
      query = query_text keywords category price_range
      ∧ length params
        = (2 * keywords + (if category then 1 else 0)
           + (if price_range then 2 else 0))%nat.
Proof.
  unfold build_query. intros Hbuild.
  destruct (add_keywords str_other entities select_products [])
    as [[query1 params1]|] eqn:Hkeywords; [|done].
  cbn [mbind outcome_bind fst snd] in Hbuild.
  destruct (add_category entities query1 params1)
    as [[query2 params2]|] eqn:Hcategory; [|done].
  cbn [mbind outcome_bind fst snd] in Hbuild.
  destruct (add_price_range entities query2 params2)
    as [[query3 params3]|] eqn:Hprice; [|done].
  cbn [mbind outcome_bind fst snd] in Hbuild. injection Hbuild as <- <-.
  apply add_keywords_Returns in Hkeywords as (n & -> & Hlen1).
  apply add_category_Returns in Hcategory as (category & -> & Hlen2).
  apply add_price_range_Returns in Hprice as (price_range & -> & Hlen3).
  cbn [length] in Hlen1.
  assert ((((select_products +:+ keywords_text n) +:+ category_text category)
           +:+ price_range_text price_range)
          +:+ " ORDER BY p.product_ranking DESC LIMIT 10"
          = query_text n category price_range) as ->.
  { unfold query_text. by rewrite !append_assoc. }
  assert (length params3
          = (2 * n + (if category then 1 else 0)
             + (if price_range then 2 else 0))%nat) as Hlen by lia.
  split.
  - by rewrite query_text_placeholders.
  - by exists n, category, price_range.
Qed.

End product_query.

Lemma X20_witness :
  ∃ query params,
    ProductSearch.build_query (λ _, "0")
      (Intent.JObject
         [ ("product_keywords",
            Intent.JArray [Intent.JString "shirt"; Intent.JString "polo"]);
           ("category", Intent.JString "shirt");
           ("price_range",
            Intent.JArray [Intent.JNumber 0; Intent.JNumber 50]) ])
    = Returns (query, params)
    ∧ ProductSearch.count_placeholders query = length params
    ∧ length params = 7%nat.
Proof.
  destruct (ProductSearch.build_query (λ _, "0"%string)
              (Intent.JObject
                 [ ("product_keywords",
                    Intent.JArray [Intent.JString "shirt";
                                   Intent.JString "polo"]);
                   ("category", Intent.JString "shirt");
                   ("price_range",
                    Intent.JArray [Intent.JNumber 0; Intent.JNumber 50]) ]))
    as [[query params]|e] eqn:Hbuild.
  - exists query, params. split; [reflexivity|]. split.
    + apply (X20_search_statement_has_one_placeholder_per_parameter
               (λ _, "0"%string) _ query params Hbuild).
    + vm_compute in Hbuild. by injection Hbuild as _ <-.
  - exfalso. vm_compute in Hbuild. discriminate Hbuild.
Defined.
